(** * Deployment helper of adk-python: [cli_deploy.py]

    A shallow embedding of [src/google/adk/cli/cli_deploy.py]: the two entry
    points [to_cloud_run] and [to_agent_engine], the two text templates they
    fill, and the library calls they are built from ([os.path], [os.makedirs],
    [shutil], [str.format], [subprocess.run]).

    Modelling choices.
    - A Python [str] is a Rocq [string] holding its UTF-8 bytes.  Byte-wise
      lexicographic order, prefix, suffix and splitting on an ASCII separator
      agree with the same operations on code points; [str.strip] and the
      slice [s[1:]] are written out on the encoding of a code point.
    - The file system is a tree of regular files and directories without
      symbolic links, permissions or I/O errors.  A path string is read
      component by component from the root: empty components and [.] are
      dropped, a path that ends in a slash or in [.] finds directories only,
      and the working directory is the root, so a relative path and the
      absolute path with the same components name the same node.  A [..]
      step is not interpreted: statements about paths that may hold one say
      so in a hypothesis.
    - Code runs in a state-and-exception monad over a [world]: the tree and the
      trace of effects (console lines, file-system calls, subprocesses and SDK
      calls), each logged when it is called.
    - The provider CLI and SDK are outside the repository.  Their outcomes are
      given by an [externals] record of oracles; they are taken not to modify
      the local tree. *)

From stdpp Require Import gmap strings list fin_maps.
From Stdlib Require Import String Ascii ZArith DecimalString.

Open Scope string_scope.
Open Scope list_scope.

#[local] Arguments String.append !s1 s2 / : simpl nomatch.

(** ** Exceptions and results *)

Inductive exn :=
  | ClickException (message : string)
  | FileNotFoundError (filename : string)
  | NotADirectoryError (filename : string)
  | IsADirectoryError (filename : string)
  | FileExistsError (filename : string)
  | OSError (filename : string)
  | SameFileError (src dst : string)
  | RecursionError
  | ValueError (message : string)
  | KeyError (key : string)
  | CalledProcessError (cmd : list string)
  | ImportError (name : string)
  | ExternalError (what : string)
  | WithContext (raised context : exn).

Inductive result (A : Type) :=
  | Ok (value : A)
  | Err (e : exn).
Arguments Ok {A} value.
Arguments Err {A} e.

Definition is_ok {A} (r : result A) : bool :=
  match r with
  | Ok _ => true
  | Err _ => false
  end.

(** ** Python strings *)

Module Py.

Definition dquote : string := String "034" "".
Definition newline : string := String "010" "".

(** Truth value of a [str] and of an [Optional[str]]. *)
Definition nonempty (s : string) : bool := negb (s =? "").

Definition truthy (o : option string) : bool :=
  match o with
  | Some s => nonempty s
  | None => false
  end.

(** [format(None, '')] is ['None']; a [str] formats as itself. *)
Definition str_of_optional (o : option string) : string :=
  match o with
  | Some s => s
  | None => "None"
  end.

Definition str_of_bool (b : bool) : string := if b then "True" else "False".

(** [str(n)] for an [int]. *)
Definition str_of_int (n : Z) : string := NilZero.string_of_int (Z.to_int n).

Fixpoint startswith (s pre : string) : bool :=
  match pre, s with
  | "", _ => true
  | String a pre', String b s' => Ascii.eqb a b && startswith s' pre'
  | String _ _, "" => false
  end.

Definition endswith (s suf : string) : bool :=
  let n := String.length s in
  let k := String.length suf in
  Nat.leb k n && (String.substring (n - k) k s =? suf).

(** [a > b] on [str]: lexicographic order on code points. *)
Definition gt (a b : string) : bool := String.ltb b a.

(** [s.split(sep)] for a one-character separator. *)
Fixpoint split (sep : ascii) (s : string) : list string :=
  match s with
  | "" => [""]
  | String c s' =>
    if Ascii.eqb c sep then "" :: split sep s'
    else match split sep s' with
         | h :: t => String c h :: t
         | [] => [String c ""]
         end
  end.

(** [sep.join(l)]. *)
Fixpoint join (sep : string) (l : list string) : string :=
  match l with
  | [] => ""
  | [x] => x
  | x :: l' => x +:+ sep +:+ join sep l'
  end.

(** [c in s] for a character. *)
Fixpoint has_char (c : ascii) (s : string) : bool :=
  match s with
  | "" => false
  | String a s' => Ascii.eqb a c || has_char c s'
  end.

(** Does [s] fit on one line? *)
Definition single_line (s : string) : bool := negb (has_char "010" s).

(** The lines of a text, separated by line feeds. *)
Definition lines (text : string) : list string := split "010" text.

(** [sub in s]. *)
Fixpoint contains (s sub : string) : bool :=
  startswith s sub ||
  match s with
  | "" => false
  | String _ s' => contains s' sub
  end.

(** The white space of [str.isspace] and [str.strip]: the code points
    U+0009 to U+000D, U+001C to U+0020, U+0085, U+00A0, U+1680, U+2000 to
    U+200A, U+2028, U+2029, U+202F, U+205F and U+3000.  In UTF-8 the first
    group takes one byte, U+0085 and U+00A0 take two, the others three. *)
Definition isspace (c : ascii) : bool :=
  let n := nat_of_ascii c in
  (Nat.leb 9 n && Nat.leb n 13) || (Nat.leb 28 n && Nat.leb n 32).

Definition isspace2 (a b : ascii) : bool :=
  Ascii.eqb a "194" && (Ascii.eqb b "133" || Ascii.eqb b "160").

Definition isspace3 (a b c : ascii) : bool :=
  let n := nat_of_ascii c in
  (Ascii.eqb a "225" && Ascii.eqb b "154" && Ascii.eqb c "128")
  || (Ascii.eqb a "226" && Ascii.eqb b "128"
      && ((Nat.leb 128 n && Nat.leb n 138)
          || Ascii.eqb c "168" || Ascii.eqb c "169" || Ascii.eqb c "175"))
  || (Ascii.eqb a "226" && Ascii.eqb b "129" && Ascii.eqb c "159")
  || (Ascii.eqb a "227" && Ascii.eqb b "128" && Ascii.eqb c "128").

Fixpoint lstrip (s : string) : string :=
  match s with
  | String a s1 =>
    if isspace a then lstrip s1
    else
      match s1 with
      | String b s2 =>
        if isspace2 a b then lstrip s2
        else
          match s2 with
          | String c s3 => if isspace3 a b c then lstrip s3 else s
          | "" => s
          end
      | "" => s
      end
  | "" => ""
  end.

(** Is the text white space only? *)
Fixpoint all_space (s : string) : bool :=
  match s with
  | String a s1 =>
    if isspace a then all_space s1
    else
      match s1 with
      | String b s2 =>
        if isspace2 a b then all_space s2
        else
          match s2 with
          | String c s3 => isspace3 a b c && all_space s3
          | "" => false
          end
      | "" => false
      end
  | "" => true
  end.

(** The text up to the white space it ends with.  In UTF-8 no white space
    starts inside another code point, so the test can be made at every
    byte. *)
Fixpoint rstrip (s : string) : string :=
  match s with
  | "" => ""
  | String c s' => if all_space s then "" else String c (rstrip s')
  end.

(** [s.strip()]. *)
Definition strip (s : string) : string := rstrip (lstrip s).

(** The number of bytes of the UTF-8 sequence that starts with the byte [c]. *)
Definition char_width (c : ascii) : nat :=
  let n := nat_of_ascii c in
  if Nat.ltb n 192 then 1
  else if Nat.ltb n 224 then 2
  else if Nat.ltb n 240 then 3
  else 4.

Fixpoint drop_bytes (k : nat) (s : string) : string :=
  match k, s with
  | S k', String _ s' => drop_bytes k' s'
  | _, _ => s
  end.

(** *** [str.format] with keyword arguments

    Replacement fields are plain names: [{name}].  [{{] and [}}] are the
    escaped braces.  Conversions, format specifications, attribute and index
    lookups and positional fields do not occur in the templates and are
    rejected. *)

Inductive segment :=
  | Lit (text : string)
  | Field (name : string).

Definition push_char (c : ascii) (segs : list segment) : list segment :=
  match segs with
  | Lit t :: rest => Lit (String c t) :: rest
  | _ => Lit (String c "") :: segs
  end.

Fixpoint all_digits (s : string) : bool :=
  match s with
  | "" => true
  | String c s' => Ascii.leb "0" c && Ascii.leb c "9" && all_digits s'
  end.

Definition plain_name (name : string) : bool :=
  negb (all_digits name)
  && negb (has_char "!" name || has_char ":" name || has_char "." name
           || has_char "[" name || has_char "{" name).

Fixpoint parse (s : string) : result (list segment) :=
  match s with
  | "" => Ok [Lit ""]
  | String c s' =>
    if Ascii.eqb c "{" then
      match s' with
      | String "{" s'' =>
        match parse s'' with
        | Ok segs => Ok (push_char "{" segs)
        | Err e => Err e
        end
      | _ =>
        match parse_field s' with
        | Ok (name, segs) =>
          if plain_name name then Ok (Lit "" :: Field name :: segs)
          else Err (ValueError "unsupported replacement field")
        | Err e => Err e
        end
      end
    else if Ascii.eqb c "}" then
      match s' with
      | String "}" s'' =>
        match parse s'' with
        | Ok segs => Ok (push_char "}" segs)
        | Err e => Err e
        end
      | _ => Err (ValueError "Single '}' encountered in format string")
      end
    else
      match parse s' with
      | Ok segs => Ok (push_char c segs)
      | Err e => Err e
      end
  end
with parse_field (s : string) : result (string * list segment) :=
  match s with
  | "" => Err (ValueError "expected '}' before end of string")
  | String c s' =>
    if Ascii.eqb c "}" then
      match parse s' with
      | Ok segs => Ok ("", segs)
      | Err e => Err e
      end
    else
      match parse_field s' with
      | Ok (name, segs) => Ok (String c name, segs)
      | Err e => Err e
      end
  end.

Fixpoint assoc (k : string) (kwargs : list (string * string)) : option string :=
  match kwargs with
  | [] => None
  | (k', v) :: rest => if k' =? k then Some v else assoc k rest
  end.

Fixpoint render (segs : list segment) (kwargs : list (string * string))
  : result string :=
  match segs with
  | [] => Ok ""
  | Lit t :: rest =>
    match render rest kwargs with
    | Ok out => Ok (t +:+ out)
    | Err e => Err e
    end
  | Field k :: rest =>
    match assoc k kwargs with
    | None => Err (KeyError k)
    | Some v =>
      match render rest kwargs with
      | Ok out => Ok (v +:+ out)
      | Err e => Err e
      end
    end
  end.

(** [template.format] applied to keyword arguments. *)
Definition format (template : string) (kwargs : list (string * string))
  : result string :=
  match parse template with
  | Ok segs => render segs kwargs
  | Err e => Err e
  end.

End Py.

(** ** [os.path] on POSIX path strings *)

Module OsPath.

(** One step of [posixpath.join]: an absolute right-hand side discards what
    was joined so far. *)
Definition join2 (path b : string) : string :=
  if Py.startswith b "/" then b
  else if (path =? "") || Py.endswith path "/" then path +:+ b
  else path +:+ "/" +:+ b.

(** [os.path.join(a, *p)]. *)
Definition join (a : string) (p : list string) : string := fold_left join2 p a.

(** [os.path.basename(p)]: the text after the last slash. *)
Definition basename (p : string) : string := List.last (Py.split "/" p) "".

(** The directory entries a path string walks through, from the root.  The
    empty string names nothing. *)
Definition components (p : string) : option (list string) :=
  if p =? "" then None
  else Some (List.filter (fun c => negb (c =? "") && negb (c =? "."))
                         (Py.split "/" p)).

(** Does the path end in a slash or in [.]?  Such a path names a directory
    only: on a regular file it fails with [ENOTDIR]. *)
Definition names_directory (p : string) : bool :=
  let c := List.last (Py.split "/" p) "" in (c =? "") || (c =? ".").

End OsPath.

(** ** The file tree *)

#[warnings="-register-all"]
Inductive node :=
  | File (data : string)
  | Dir (entries : gmap string node).

Module Tree.

Definition is_dir (o : option node) : bool :=
  match o with
  | Some (Dir _) => true
  | _ => false
  end.

Definition is_file (o : option node) : bool :=
  match o with
  | Some (File _) => true
  | _ => false
  end.

Fixpoint lookup (p : list string) (n : node) : option node :=
  match p with
  | [] => Some n
  | c :: p' =>
    match n with
    | Dir m =>
      match m !! c with
      | Some n' => lookup p' n'
      | None => None
      end
    | File _ => None
    end
  end.

(** Remove the node at [p] with everything below it. *)
Fixpoint remove (p : list string) (n : node) : node :=
  match p, n with
  | [], _ => n
  | [c], Dir m => Dir (delete c m)
  | c :: p', Dir m =>
    match m !! c with
    | Some n' => Dir (<[c := remove p' n']> m)
    | None => n
    end
  | _ :: _, File _ => n
  end.

(** Put [x] at [p], replacing what is there.  The parent of [p] has to be a
    directory. *)
Fixpoint put (p : list string) (x : node) (n : node) : option node :=
  match p with
  | [] => Some x
  | c :: p' =>
    match n with
    | Dir m =>
      match p' with
      | [] => Some (Dir (<[c := x]> m))
      | _ :: _ =>
        match m !! c with
        | Some n' =>
          match put p' x n' with
          | Some n'' => Some (Dir (<[c := n'']> m))
          | None => None
          end
        | None => None
        end
      end
    | File _ => None
    end
  end.

(** The chain of fresh directories [p]. *)
Fixpoint chain (p : list string) : node :=
  match p with
  | [] => Dir ∅
  | c :: p' => Dir {[c := chain p']}
  end.

(** Create the directory [p] and its missing ancestors.  Fails when a regular
    file lies on the way. *)
Fixpoint mkdirs (p : list string) (n : node) : option node :=
  match p, n with
  | [], Dir _ => Some n
  | [], File _ => None
  | c :: p', Dir m =>
    match m !! c with
    | Some n' =>
      match mkdirs p' n' with
      | Some n'' => Some (Dir (<[c := n'']> m))
      | None => None
      end
    | None => Some (Dir (<[c := chain p']> m))
    end
  | _ :: _, File _ => None
  end.

(** [strip_prefix a b] is what follows [a] in [b], when [b] starts with [a]. *)
Fixpoint strip_prefix (a b : list string) : option (list string) :=
  match a, b with
  | [], _ => Some b
  | x :: a', y :: b' => if decide (x = y) then strip_prefix a' b' else None
  | _ :: _, [] => None
  end.

(** Does walking [p] meet a regular file before its last component? *)
Fixpoint file_on_way (p : list string) (n : node) : bool :=
  match p, n with
  | _ :: _, File _ => true
  | c :: (_ :: _) as p', Dir m =>
    match m !! c with
    | Some n' => file_on_way p' n'
    | None => false
    end
  | _, _ => false
  end.

End Tree.

Definition demo_tree : node :=
  Dir {[ "dist" := Dir {[ "agent.whl" := File "wheel-bytes" ]};
         "src" := Dir {[ "agent.py" := File "root_agent = 1";
                         "requirements.txt" := File "requests" ]} ]}.

(** ** Worlds, effects and the monad *)

Inductive event :=
  | Echo (message : string)
  | Rmtree (path : string)
  | Makedirs (name : string)
  | Copy2 (src dst : string)
  | Copytree (src dst : string)
  | WriteText (file content : string)
  | Subprocess (args : list string)
  | SysPathAppend (entry : string)
  | VertexaiInit (project location staging_bucket : string)
  | DotenvValues (dotenv_path : string)
  | ModuleAgent (module_name agent_name : string)
                (register_operations : list (string * list string))
                (sys_paths : list string)
  | AgentEnginesCreate (requirements : string)
                       (env_vars : option (list (string * string)))
                       (extra_packages : list string).

Record world := World {
  fs : node;
  trace : list event;
}.

Definition M (A : Type) : Type := world -> result A * world.

Definition ret {A} (a : A) : M A := fun w => (Ok a, w).

Definition raise {A} (e : exn) : M A := fun w => (Err e, w).

Definition bind {A B} (m : M A) (k : A -> M B) : M B :=
  fun w =>
    match m w with
    | (Ok a, w') => k a w'
    | (Err e, w') => (Err e, w')
    end.

Notation "x <- m ;; k" := (bind m (fun x => k))
  (at level 100, m at next level, right associativity).
Notation "m ;; k" := (bind m (fun _ => k))
  (at level 100, right associativity).

(** [try: body finally: cleanup].  The cleanup runs on every outcome of the
    body; an exception it raises replaces the pending one, which becomes its
    context. *)
Definition try_finally {A} (body : M A) (cleanup : M unit) : M A :=
  fun w =>
    match body w with
    | (r, w1) =>
      match cleanup w1, r with
      | (Ok _, w2), _ => (r, w2)
      | (Err e2, w2), Ok _ => (Err e2, w2)
      | (Err e2, w2), Err e1 => (Err (WithContext e2 e1), w2)
      end
    end.

Definition lift {A} (r : result A) : M A := fun w => (r, w).

Definition log (e : event) : M unit :=
  fun w => (Ok tt, {| fs := fs w; trace := trace w ++ [e] |}).

Definition get_fs : M node := fun w => (Ok (fs w), w).

Definition set_fs (n : node) : M unit :=
  fun w => (Ok tt, {| fs := n; trace := trace w |}).

(** [click.echo]. *)
Definition echo (message : string) : M unit := log (Echo message).

(** *** File-system calls *)

(** What [os.stat] finds at [path], if anything: the root, or below it
    the node the path leads to, unless that is a regular file and the path
    names a directory. *)
Definition stat (path : string) (n : node) : option node :=
  match OsPath.components path with
  | Some [] => Some n
  | Some p =>
    match Tree.lookup p n with
    | Some (File data) =>
      if OsPath.names_directory path then None else Some (File data)
    | found => found
    end
  | None => None
  end.

Definition exists_in (path : string) (n : node) : bool :=
  match stat path n with
  | Some _ => true
  | None => false
  end.

Definition isdir_in (path : string) (n : node) : bool := Tree.is_dir (stat path n).

(** [os.path.exists] and [os.path.isdir]. *)
Definition os_path_exists (path : string) : M bool :=
  n <- get_fs ;; ret (exists_in path n).

Definition os_path_isdir (path : string) : M bool :=
  n <- get_fs ;; ret (isdir_in path n).

(** The error of opening or creating [name] at [p] when its parent is not a
    directory. *)
Definition no_parent (name : string) (p : list string) (n : node) : exn :=
  if Tree.file_on_way p n then NotADirectoryError name
  else FileNotFoundError name.

(** The error of reaching for [name] where [stat] finds nothing: [ENOTDIR]
    when a regular file lies on the way, or at the end of a path that names a
    directory, and [ENOENT] otherwise. *)
Definition not_found (name : string) (n : node) : exn :=
  match OsPath.components name with
  | Some p =>
    if Tree.file_on_way p n || Tree.is_file (Tree.lookup p n)
    then NotADirectoryError name
    else FileNotFoundError name
  | None => FileNotFoundError name
  end.

(** [shutil.rmtree(path)].  The root cannot be unlinked: its entries go and
    the call fails. *)
Definition shutil_rmtree (path : string) : M unit :=
  log (Rmtree path) ;;
  n <- get_fs ;;
  match OsPath.components path with
  | None => raise (FileNotFoundError path)
  | Some p =>
    match Tree.lookup p n with
    | None => raise (not_found path n)
    | Some (File _) => raise (NotADirectoryError path)
    | Some (Dir _) =>
      match p with
      | [] => set_fs (Dir ∅) ;; raise (OSError path)
      | _ :: _ => set_fs (Tree.remove p n)
      end
    end
  end.

(** The state change of [os.makedirs(name, exist_ok)]. *)
Definition makedirs_in (name : string) (exist_ok : bool) (n : node)
  : result node :=
  match OsPath.components name with
  | None => Err (FileNotFoundError name)
  | Some p =>
    match Tree.lookup p n with
    | Some (Dir _) => if exist_ok then Ok n else Err (FileExistsError name)
    | Some (File _) => Err (FileExistsError name)
    | None =>
      match Tree.mkdirs p n with
      | Some n' => Ok n'
      | None => Err (NotADirectoryError name)
      end
    end
  end.

Definition os_makedirs (name : string) (exist_ok : bool) : M unit :=
  log (Makedirs name) ;;
  n <- get_fs ;;
  n' <- lift (makedirs_in name exist_ok n) ;;
  set_fs n'.

(** Create or truncate the regular file [name] with [data].  A path that
    names a directory cannot be opened for writing: [ENOTDIR] on a regular
    file, [EISDIR] where there is nothing yet. *)
Definition create_file (name data : string) (n : node) : result node :=
  match OsPath.components name with
  | None => Err (FileNotFoundError name)
  | Some p =>
    match Tree.lookup p n with
    | Some (Dir _) => Err (IsADirectoryError name)
    | found =>
      match Tree.put p (File data) n with
      | Some n' =>
        if OsPath.names_directory name
        then Err (if Tree.is_file found then NotADirectoryError name
                  else IsADirectoryError name)
        else Ok n'
      | None => Err (no_parent name p n)
      end
    end
  end.

(** [with open(file, 'w', encoding='utf-8') as f: f.write(content)]. *)
Definition write_text (file content : string) : M unit :=
  log (WriteText file content) ;;
  n <- get_fs ;;
  n' <- lift (create_file file content n) ;;
  set_fs n'.

(** [shutil.copy2(src, dst)]: into [dst] when it is a directory, onto it
    otherwise. *)
Definition shutil_copy2 (src dst : string) : M unit :=
  log (Copy2 src dst) ;;
  n <- get_fs ;;
  let dst' :=
    if isdir_in dst n then OsPath.join dst [OsPath.basename src] else dst in
  if exists_in src n
     && bool_decide (OsPath.components src = OsPath.components dst')
  then raise (SameFileError src dst')
  else
    match stat src n with
    | None => raise (not_found src n)
    | Some (Dir _) => raise (IsADirectoryError src)
    | Some (File data) =>
      n' <- lift (create_file dst' data n) ;;
      set_fs n'
    end.

(** Is [dst] below an entry of the directory [src] (with entries [m]) that is
    itself a directory?  [copytree] lists a directory when it reaches it, so
    it then walks into its own output. *)
Definition copies_into_itself (src dst : list string) (m : gmap string node)
  : bool :=
  match Tree.strip_prefix src dst with
  | Some (c :: _) => Tree.is_dir (m !! c)
  | _ => false
  end.

(** [shutil.copytree(src, dst)]: list [src], create [dst] with
    [os.makedirs(dst)], then copy the entries.  When the copy walks into its
    own output it goes on until the interpreter stops it with
    [RecursionError]; the model then leaves the listed entries under [dst]
    (the library leaves them nested more deeply, all below [dst]). *)
Definition shutil_copytree (src dst : string) : M unit :=
  log (Copytree src dst) ;;
  n <- get_fs ;;
  match stat src n with
  | None => raise (not_found src n)
  | Some (File _) => raise (NotADirectoryError src)
  | Some (Dir m) =>
    n1 <- lift (makedirs_in dst false n) ;;
    match OsPath.components src, OsPath.components dst with
    | Some ps, Some pd =>
      match Tree.put pd (Dir m) n1 with
      | Some n2 =>
        set_fs n2 ;;
        if copies_into_itself ps pd m then raise RecursionError
        else ret tt
      | None => raise (no_parent dst pd n1)
      end
    | _, _ => raise (FileNotFoundError dst)
    end
  end.

(** Run a computation from the tree [n] with an empty trace. *)
Definition run {A} (m : M A) (n : node) : result A * world :=
  m {| fs := n; trace := [] |}.

(** [if cond: body] for a statement. *)
Definition when (cond : bool) (body : M unit) : M unit :=
  if cond then body else ret tt.

(** ** The provider CLI and SDK *)

Record externals := Externals {
  (** [subprocess.run(args, check=True)]: the captured standard output, or the
      exception of a missing program or a nonzero exit status. *)
  subprocess_outcome : list string -> node -> result string;
  (** [import vertexai] and [from vertexai import agent_engines]. *)
  import_vertexai : result unit;
  (** [vertexai.init(project, location, staging_bucket)]. *)
  vertexai_init : string -> string -> string -> result unit;
  (** [from dotenv import dotenv_values] and [dotenv_values(path)]. *)
  import_dotenv : result unit;
  dotenv_values : string -> node -> result (list (string * string));
  (** [agent_engines.ModuleAgent(...)] and [agent_engines.create(...)]. *)
  module_agent :
    string -> string -> list (string * list string) -> list string
    -> result unit;
  agent_engines_create :
    string -> option (list (string * string)) -> list string -> node
    -> result unit;
}.

Definition subprocess_run (ext : externals) (args : list string) : M string :=
  log (Subprocess args) ;;
  n <- get_fs ;;
  lift (subprocess_outcome ext args n).

(** ** The templates *)

Definition dq : string := Py.dquote.

Definition _DOCKERFILE_TEMPLATE : string := Py.join Py.newline [
    "";
    "FROM python:3.11-slim";
    "WORKDIR /app";
    "";
    "# Install git and clean up apt cache";
    "RUN apt-get update && apt-get install -y git && rm -rf /var/lib/apt/lists/*";
    "";
    "# Create a non-root user";
    "RUN adduser --disabled-password --gecos " +:+ dq +:+ dq +:+ " myuser";
    "";
    "# Change ownership of /app to myuser";
    "RUN chown -R myuser:myuser /app";
    "";
    "# Switch to the non-root user";
    "USER myuser";
    "";
    "# Set up environment variables - Start";
    "ENV PATH=" +:+ dq +:+ "/home/myuser/.local/bin:$PATH" +:+ dq;
    "";
    "ENV GOOGLE_GENAI_USE_VERTEXAI=1";
    "ENV GOOGLE_CLOUD_PROJECT={gcp_project_id}";
    "ENV GOOGLE_CLOUD_LOCATION={gcp_region}";
    "";
    "# Set up environment variables - End";
    "";
    "# Install ADK - Start";
    "RUN pip install git+https://github.com/gabriel-pineda/adk-python.git@main";
    "# Install ADK - End";
    "";
    "# Install agent from wheel - Start";
    "COPY " +:+ dq +:+ "{agent_whl_filename}" +:+ dq +:+ " " +:+ dq +:+ "/app/{agent_whl_filename}" +:+ dq;
    "RUN pip install " +:+ dq +:+ "/app/{agent_whl_filename}" +:+ dq;
    "# Install agent from wheel - End";
    "";
    "# Copy agent source files - Start";
    "COPY " +:+ dq +:+ "agents/{app_name}/" +:+ dq +:+ " " +:+ dq +:+ "/app/agents/{app_name}/" +:+ dq;
    "{install_agent_deps}";
    "# Copy agent source files - End";
    "";
    "# Install additional dependencies - Start";
    "{install_additional_deps}";
    "# Install additional dependencies - End";
    "";
    "EXPOSE {port}";
    "";
    "CMD adk {command} --port={port} {host_option} {session_db_option} {trace_to_cloud_option} " +:+ dq +:+ "/app/agents" +:+ dq;
    ""
  ].

Definition _AGENT_ENGINE_APP_TEMPLATE : string := Py.join Py.newline [
    "";
    "from agent import root_agent";
    "from vertexai.preview.reasoning_engines import AdkApp";
    "";
    "adk_app = AdkApp(";
    "  agent=root_agent,";
    "  enable_tracing={trace_to_cloud_option},";
    ")";
    ""
  ].

Definition dockerfile_segments : list Py.segment :=
  Eval vm_compute in
    match Py.parse _DOCKERFILE_TEMPLATE with
    | Ok segs => segs
    | Err _ => []
    end.

(** ** [_resolve_project] *)

(** The project of the active gcloud configuration (the second half of
    [_resolve_project]). *)
Definition configured_project (ext : externals) : M string :=
  stdout <- subprocess_run ext ["gcloud"; "config"; "get-value"; "project"] ;;
  let project := Py.strip stdout in
  echo ("Use default project: " +:+ project) ;;
  ret project.

Definition _resolve_project (ext : externals) (project_in_option : option string)
  : M string :=
  match project_in_option with
  | Some p => if Py.nonempty p then ret p else configured_project ext
  | None => configured_project ext
  end.

(** ** [to_cloud_run] *)

Module CloudRun.

Record request := Request {
  agent_whl_file : string;
  agent_source_dir : string;
  project : option string;
  region : option string;
  service_name : string;
  app_name : string;
  temp_folder : string;
  port : Z;
  trace_to_cloud : bool;
  with_ui : bool;
  verbosity : string;
  session_db_url : string;
  artifact_storage_uri : option string;
  adk_version : string;
  agent_module : option string;
  additional_requirements : option string;
}.

Section ToCloudRun.

Variable ext : externals.
Variable r : request.

(** The four checks on the input paths. *)
Definition validate : M unit :=
  whl_exists <- os_path_exists (agent_whl_file r) ;;
  when (negb whl_exists)
    (raise (ClickException
              ("Agent wheel file not found: " +:+ agent_whl_file r))) ;;
  when (negb (Py.endswith (agent_whl_file r) ".whl"))
    (raise (ClickException
              ("Expected a .whl file, got: " +:+ agent_whl_file r))) ;;
  src_exists <- os_path_exists (agent_source_dir r) ;;
  when (negb src_exists)
    (raise (ClickException
              ("Agent source directory not found: " +:+ agent_source_dir r))) ;;
  src_isdir <- os_path_isdir (agent_source_dir r) ;;
  when (negb src_isdir)
    (raise (ClickException
              ("Agent source path is not a directory: " +:+ agent_source_dir r))).

Definition agent_whl_filename : string := OsPath.basename (agent_whl_file r).

(** [agent_module], inferred from [app_name] when not provided. *)
Definition agent_module_or_default : string :=
  if Py.truthy (agent_module r) then Py.str_of_optional (agent_module r)
  else app_name r +:+ ".agent".

(** Announce the staging and remove [temp_folder] if it exists. *)
Definition remove_existing : M unit :=
  echo ("Start generating Cloud Run source files in " +:+ temp_folder r) ;;
  temp_exists <- os_path_exists (temp_folder r) ;;
  when temp_exists
    (echo "Removing existing files" ;;
     shutil_rmtree (temp_folder r)).

Definition agent_src_path : string :=
  OsPath.join (temp_folder r) ["agents"; app_name r].

Definition requirements_txt_path : string :=
  OsPath.join agent_src_path ["requirements.txt"].

(** Create the temp folder, copy the wheel and the agent source. *)
Definition copy_inputs : M unit :=
  os_makedirs (temp_folder r) true ;;
  echo "Copying agent wheel file..." ;;
  let agent_whl_dest := OsPath.join (temp_folder r) [agent_whl_filename] in
  shutil_copy2 (agent_whl_file r) agent_whl_dest ;;
  echo "Copying agent wheel file complete." ;;
  echo "Copying agent source files..." ;;
  shutil_copytree (agent_source_dir r) agent_src_path.

Definition agent_deps_instruction : string :=
  "RUN pip install -r " +:+ dq +:+ "/app/agents/" +:+ app_name r
  +:+ "/requirements.txt" +:+ dq.

(** Does the agent source have its own [requirements.txt]? *)
Definition install_agent_deps : M string :=
  has_requirements <- os_path_exists requirements_txt_path ;;
  let install_agent_deps :=
    if has_requirements then agent_deps_instruction else "" in
  echo "Copying agent source files complete." ;;
  ret install_agent_deps.

Definition additional_deps_instructions : string :=
  "COPY " +:+ dq +:+ "extra-requirements.txt" +:+ dq +:+ " " +:+ dq
  +:+ "/app/extra-requirements.txt" +:+ dq +:+ Py.newline
  +:+ "RUN pip install -r " +:+ dq +:+ "/app/extra-requirements.txt" +:+ dq.

(** Handle additional requirements if provided. *)
Definition install_additional_deps : M string :=
  given_and_exists <-
    (if Py.truthy (additional_requirements r)
     then os_path_exists (Py.str_of_optional (additional_requirements r))
     else ret false) ;;
  if given_and_exists : bool then
    echo "Copying additional requirements..." ;;
    let requirements_dest :=
      OsPath.join (temp_folder r) ["extra-requirements.txt"] in
    shutil_copy2 (Py.str_of_optional (additional_requirements r))
                 requirements_dest ;;
    echo "Copying additional requirements complete." ;;
    ret additional_deps_instructions
  else ret "".

Definition host_option : string :=
  if Py.gt (adk_version r) "0.5.0" then "--host=0.0.0.0" else "".

(** The keyword arguments of the [format] call, in the order of the source. *)
Definition format_arguments (install_agent_deps install_additional_deps : string)
  : list (string * string) :=
  [ ("gcp_project_id", Py.str_of_optional (project r));
    ("gcp_region", Py.str_of_optional (region r));
    ("agent_whl_filename", agent_whl_filename);
    ("app_name", app_name r);
    ("port", Py.str_of_int (port r));
    ("command", if with_ui r then "web" else "api_server");
    ("install_agent_deps", install_agent_deps);
    ("install_additional_deps", install_additional_deps);
    ("session_db_option",
      if Py.nonempty (session_db_url r)
      then "--session_db_url=" +:+ session_db_url r else "");
    ("artifact_storage_option",
      if Py.truthy (artifact_storage_uri r)
      then "--artifact_storage_uri="
           +:+ Py.str_of_optional (artifact_storage_uri r)
      else "");
    ("trace_to_cloud_option",
      if trace_to_cloud r then "--trace_to_cloud" else "");
    ("adk_version", adk_version r);
    ("host_option", host_option);
    ("agent_module", agent_module_or_default) ].

Definition dockerfile_content (install_agent_deps install_additional_deps : string)
  : result string :=
  Py.format _DOCKERFILE_TEMPLATE
            (format_arguments install_agent_deps install_additional_deps).

(** Render the Dockerfile text from the staged tree. *)
Definition render_dockerfile : M string :=
  install_agent_deps <- install_agent_deps ;;
  install_additional_deps <- install_additional_deps ;;
  echo "Creating Dockerfile..." ;;
  lift (dockerfile_content install_agent_deps install_additional_deps).

(** The rendered text line by line, around the two install fragments. *)
Definition dockerfile_head : list string :=
  [ "";
    "FROM python:3.11-slim";
    "WORKDIR /app";
    "";
    "# Install git and clean up apt cache";
    "RUN apt-get update && apt-get install -y git && rm -rf /var/lib/apt/lists/*";
    "";
    "# Create a non-root user";
    "RUN adduser --disabled-password --gecos " +:+ dq +:+ dq +:+ " myuser";
    "";
    "# Change ownership of /app to myuser";
    "RUN chown -R myuser:myuser /app";
    "";
    "# Switch to the non-root user";
    "USER myuser";
    "";
    "# Set up environment variables - Start";
    "ENV PATH=" +:+ dq +:+ "/home/myuser/.local/bin:$PATH" +:+ dq;
    "";
    "ENV GOOGLE_GENAI_USE_VERTEXAI=1";
    "ENV GOOGLE_CLOUD_PROJECT=" +:+ Py.str_of_optional (project r);
    "ENV GOOGLE_CLOUD_LOCATION=" +:+ Py.str_of_optional (region r);
    "";
    "# Set up environment variables - End";
    "";
    "# Install ADK - Start";
    "RUN pip install git+https://github.com/gabriel-pineda/adk-python.git@main";
    "# Install ADK - End";
    "";
    "# Install agent from wheel - Start";
    "COPY " +:+ dq +:+ agent_whl_filename +:+ dq +:+ " " +:+ dq +:+ "/app/"
      +:+ agent_whl_filename +:+ dq;
    "RUN pip install " +:+ dq +:+ "/app/" +:+ agent_whl_filename +:+ dq;
    "# Install agent from wheel - End";
    "";
    "# Copy agent source files - Start";
    "COPY " +:+ dq +:+ "agents/" +:+ app_name r +:+ "/" +:+ dq +:+ " " +:+ dq
      +:+ "/app/agents/" +:+ app_name r +:+ "/" +:+ dq ].

Definition dockerfile_middle : list string :=
  [ "# Copy agent source files - End";
    "";
    "# Install additional dependencies - Start" ].

Definition startup_command : string :=
  "CMD adk " +:+ (if with_ui r then "web" else "api_server")
  +:+ " --port=" +:+ Py.str_of_int (port r)
  +:+ " " +:+ host_option
  +:+ " " +:+ (if Py.nonempty (session_db_url r)
               then "--session_db_url=" +:+ session_db_url r else "")
  +:+ " " +:+ (if trace_to_cloud r then "--trace_to_cloud" else "")
  +:+ " " +:+ dq +:+ "/app/agents" +:+ dq.

Definition dockerfile_tail : list string :=
  [ "# Install additional dependencies - End";
    "";
    "EXPOSE " +:+ Py.str_of_int (port r);
    "";
    startup_command;
    "" ].

Definition dockerfile_lines (install_agent_deps install_additional_deps : string)
  : list string :=
  dockerfile_head ++ install_agent_deps :: dockerfile_middle
  ++ install_additional_deps :: dockerfile_tail.

(** The values that reach the Dockerfile as part of a line. *)
Definition single_line_fields : bool :=
  Py.single_line (Py.str_of_optional (project r))
  && Py.single_line (Py.str_of_optional (region r))
  && Py.single_line agent_whl_filename
  && Py.single_line (app_name r)
  && Py.single_line (session_db_url r).

Definition dockerfile_path : string := OsPath.join (temp_folder r) ["Dockerfile"].

Definition create_dockerfile : M unit :=
  dockerfile_content <- render_dockerfile ;;
  write_text dockerfile_path dockerfile_content ;;
  echo ("Creating Dockerfile complete: " +:+ dockerfile_path).

Definition region_options : list string :=
  if Py.truthy (region r) then ["--region"; Py.str_of_optional (region r)]
  else [].

Definition deploy_args (project : string) : list string :=
  ["gcloud"; "run"; "deploy"; service_name r;
   "--source"; temp_folder r;
   "--project"; project]
  ++ region_options
  ++ ["--port"; Py.str_of_int (port r);
      "--verbosity"; verbosity r;
      "--labels"; "created-by=adk"].

Definition deploy : M unit :=
  echo "Deploying to Cloud Run..." ;;
  project <- _resolve_project ext (project r) ;;
  subprocess_run ext (deploy_args project) ;;
  ret tt.

Definition cleanup : M unit :=
  echo ("Cleaning up the temp folder: " +:+ temp_folder r) ;;
  shutil_rmtree (temp_folder r).

(** What the [try] block holds before the deployment. *)
Definition staging : M unit :=
  copy_inputs ;;
  create_dockerfile.

(** What precedes the [try] block. *)
Definition prologue : M unit :=
  validate ;;
  remove_existing.

Definition to_cloud_run : M unit :=
  prologue ;;
  try_finally (staging ;; deploy) cleanup.

End ToCloudRun.

End CloudRun.

(** ** [to_agent_engine] *)

Module AgentEngine.

Record request := Request {
  agent_folder : string;
  temp_folder : string;
  adk_app : string;
  project : string;
  region : string;
  staging_bucket : string;
  trace_to_cloud : bool;
  requirements_file : option string;
  env_file : option string;
}.

(** [s[1:]]: the text without its first code point. *)
Definition drop_first (s : string) : string :=
  match s with
  | String c _ => Py.drop_bytes (Py.char_width c) s
  | "" => ""
  end.

Definition default_requirements : string :=
  "google-cloud-aiplatform[adk,agent_engines]".

Definition register_operations : list (string * list string) :=
  [ ("", ["get_session"; "list_sessions"; "create_session"; "delete_session"]);
    ("async", ["async_get_session"; "async_list_sessions";
               "async_create_session"; "async_delete_session"]);
    ("async_stream", ["async_stream_query"]);
    ("stream", ["stream_query"; "streaming_agent_run_with_events"]) ].

Section ToAgentEngine.

Variable ext : externals.
Variable r : request.

(** Remove [temp_folder] if it exists. *)
Definition remove_existing : M unit :=
  temp_exists <- os_path_exists (temp_folder r) ;;
  when temp_exists
    (echo "Removing existing files" ;;
     shutil_rmtree (temp_folder r)).

Definition copy_source : M unit :=
  echo "Copying agent source code..." ;;
  shutil_copytree (agent_folder r) (temp_folder r) ;;
  echo "Copying agent source code complete.".

Definition initialize_vertexai : M unit :=
  echo "Initializing Vertex AI..." ;;
  lift (import_vertexai ext) ;;
  log (SysPathAppend (temp_folder r)) ;;
  project <- _resolve_project ext (Some (project r)) ;;
  log (VertexaiInit project (region r) (staging_bucket r)) ;;
  lift (vertexai_init ext project (region r) (staging_bucket r)) ;;
  echo "Vertex AI initialized.".

Definition requirements_txt_path : string :=
  OsPath.join (temp_folder r) ["requirements.txt"].

(** The dependency manifest handed to the SDK. *)
Definition resolve_requirements : M string :=
  if Py.truthy (requirements_file r)
  then ret (Py.str_of_optional (requirements_file r))
  else
    has_requirements <- os_path_exists requirements_txt_path ;;
    when (negb has_requirements)
      (echo ("Creating " +:+ requirements_txt_path +:+ "...") ;;
       write_text requirements_txt_path default_requirements ;;
       echo ("Created " +:+ requirements_txt_path)) ;;
    ret requirements_txt_path.

Definition env_file_or_default : string :=
  if Py.truthy (env_file r) then Py.str_of_optional (env_file r)
  else OsPath.join (temp_folder r) [".env"].

(** The environment variables handed to the SDK. *)
Definition resolve_env_vars : M (option (list (string * string))) :=
  has_env <- os_path_exists env_file_or_default ;;
  if has_env : bool then
    lift (import_dotenv ext) ;;
    echo ("Reading environment variables from " +:+ env_file_or_default) ;;
    log (DotenvValues env_file_or_default) ;;
    n <- get_fs ;;
    env_vars <- lift (dotenv_values ext env_file_or_default n) ;;
    ret (Some env_vars)
  else ret None.

Definition adk_app_file : string := adk_app r +:+ ".py".

Definition adk_app_path : string := OsPath.join (temp_folder r) [adk_app_file].

Definition adk_app_content : result string :=
  Py.format _AGENT_ENGINE_APP_TEMPLATE
            [("trace_to_cloud_option", Py.str_of_bool (trace_to_cloud r))].

(** The file is opened for writing before the template is formatted. *)
Definition write_adk_app : M unit :=
  match adk_app_content with
  | Ok content => write_text adk_app_path content
  | Err e => write_text adk_app_path "" ;; raise e
  end ;;
  echo ("Created " +:+ adk_app_path).

Definition deploy (requirements : string)
                  (env_vars : option (list (string * string))) : M unit :=
  echo "Deploying to agent engine..." ;;
  let sys_paths := [drop_first (temp_folder r)] in
  log (ModuleAgent (adk_app r) "adk_app" register_operations sys_paths) ;;
  lift (module_agent ext (adk_app r) "adk_app" register_operations sys_paths) ;;
  log (AgentEnginesCreate requirements env_vars [temp_folder r]) ;;
  n <- get_fs ;;
  lift (agent_engines_create ext requirements env_vars [temp_folder r] n).

Definition cleanup : M unit :=
  echo ("Cleaning up the temp folder: " +:+ temp_folder r) ;;
  shutil_rmtree (temp_folder r).

(** What follows the copy inside the [try] block. *)
Definition after_copy : M unit :=
  initialize_vertexai ;;
  echo "Resolving files and dependencies..." ;;
  requirements <- resolve_requirements ;;
  env_vars <- resolve_env_vars ;;
  write_adk_app ;;
  echo "Files and dependencies resolved" ;;
  deploy requirements env_vars.

Definition to_agent_engine : M unit :=
  remove_existing ;;
  try_finally (copy_source ;; after_copy) cleanup.

End ToAgentEngine.

End AgentEngine.

(** ** Sample runs *)

Definition sample_externals : externals :=
  {| subprocess_outcome := fun _ _ => Ok ("my-project" +:+ Py.newline);
     import_vertexai := Ok tt;
     vertexai_init := fun _ _ _ => Ok tt;
     import_dotenv := Ok tt;
     dotenv_values := fun _ _ => Ok [("KEY", "value")];
     module_agent := fun _ _ _ _ => Ok tt;
     agent_engines_create := fun _ _ _ _ => Ok tt |}.


Definition sample_request : CloudRun.request :=
  {| CloudRun.agent_whl_file := "dist/agent.whl";
     CloudRun.agent_source_dir := "src";
     CloudRun.project := None;
     CloudRun.region := Some "us-central1";
     CloudRun.service_name := "svc";
     CloudRun.app_name := "myagent";
     CloudRun.temp_folder := "/tmp/stage";
     CloudRun.port := 8080;
     CloudRun.trace_to_cloud := false;
     CloudRun.with_ui := false;
     CloudRun.verbosity := "info";
     CloudRun.session_db_url := "";
     CloudRun.artifact_storage_uri := None;
     CloudRun.adk_version := "0.4.9";
     CloudRun.agent_module := None;
     CloudRun.additional_requirements := None |}.

Definition sample_engine_request : AgentEngine.request :=
  {| AgentEngine.agent_folder := "/src";
     AgentEngine.temp_folder := "/tmp/engine";
     AgentEngine.adk_app := "agent_engine_app";
     AgentEngine.project := "my-project";
     AgentEngine.region := "us-central1";
     AgentEngine.staging_bucket := "gs://bucket";
     AgentEngine.trace_to_cloud := true;
     AgentEngine.requirements_file := None;
     AgentEngine.env_file := None |}.


(** ** Relations between the worlds around a computation *)

(** [m] takes every world to one related to it by [R]. *)
Definition respects {A} (R : world -> world -> Prop) (m : M A) : Prop :=
  forall w, R w (snd (m w)).

(** Every directory of [w] is still a directory in [w']. *)
Definition dirs_kept (w w' : world) : Prop :=
  forall q, Tree.is_dir (Tree.lookup q (fs w)) = true ->
            Tree.is_dir (Tree.lookup q (fs w')) = true.

(** The trace of [w'] is the trace of [w] followed by events satisfying [P]. *)
Definition emits (P : event -> Prop) (w w' : world) : Prop :=
  exists evs, trace w' = trace w ++ evs /\ Forall P evs.

(** The tree is the same. *)
Definition fs_kept (w w' : world) : Prop := fs w' = fs w.

(** A [gcloud run deploy] invocation. *)
Definition is_deploy (e : event) : bool :=
  match e with
  | Subprocess ("gcloud" :: "run" :: "deploy" :: _) => true
  | _ => false
  end.

(** The events of [w'] that were not yet in [w]. *)
Definition new_events (w w' : world) : list event :=
  drop (List.length (trace w)) (trace w').


(** ** Conditions on requests and worlds *)

(** The four checks of [to_cloud_run] on a tree. *)
Definition valid_inputs (r : CloudRun.request) (n : node) : bool :=
  exists_in (CloudRun.agent_whl_file r) n
  && Py.endswith (CloudRun.agent_whl_file r) ".whl"
  && exists_in (CloudRun.agent_source_dir r) n
  && isdir_in (CloudRun.agent_source_dir r) n.

(** Control reaches the [try] block: what precedes it raised nothing. *)
Definition cloud_run_staging_begins (r : CloudRun.request) (w : world) : bool :=
  is_ok (fst (CloudRun.prologue r w)).


(** The sample tree with a temp folder left by an earlier run. *)
Definition stale_tree : node :=
  Dir {[ "dist" := Dir {[ "agent.whl" := File "wheel-bytes" ]};
         "src" := Dir {[ "agent.py" := File "root_agent = 1";
                         "requirements.txt" := File "requests" ]};
         "tmp" := Dir {[ "stage" := Dir {[ "Dockerfile" := File "old" ]};
                         "engine" := Dir {[ "agent.py" := File "old" ]} ]} ]}.

(** A request whose artifact is not a wheel, and a tree that holds it and a
    temp folder of an earlier run. *)
Definition tarball_request : CloudRun.request :=
  {| CloudRun.agent_whl_file := "dist/agent.tar.gz";
     CloudRun.agent_source_dir := "src";
     CloudRun.project := None;
     CloudRun.region := None;
     CloudRun.service_name := "svc";
     CloudRun.app_name := "myagent";
     CloudRun.temp_folder := "/tmp/stage";
     CloudRun.port := 8080;
     CloudRun.trace_to_cloud := false;
     CloudRun.with_ui := false;
     CloudRun.verbosity := "info";
     CloudRun.session_db_url := "";
     CloudRun.artifact_storage_uri := None;
     CloudRun.adk_version := "1.0.0";
     CloudRun.agent_module := None;
     CloudRun.additional_requirements := None |}.

Definition tarball_tree : node :=
  Dir {[ "dist" := Dir {[ "agent.tar.gz" := File "bytes" ]};
         "tmp" := Dir {[ "stage" := Dir ∅ ]} ]}.

(** ** Reading the Dockerfile *)

(** An additional requirements file was given and exists in the tree. *)
Definition additional_given_and_exists (r : CloudRun.request) (n : node) : bool :=
  Py.truthy (CloudRun.additional_requirements r)
  && exists_in (Py.str_of_optional (CloudRun.additional_requirements r)) n.

(** The two install fragments [to_cloud_run] computes on a staged tree. *)
Definition agent_deps_fragment (r : CloudRun.request) (n : node) : string :=
  if exists_in (CloudRun.requirements_txt_path r) n
  then CloudRun.agent_deps_instruction r else "".

Definition additional_deps_fragment (r : CloudRun.request) (n : node) : string :=
  if additional_given_and_exists r n
  then CloudRun.additional_deps_instructions else "".

(** A line that installs a requirements file. *)
Definition dependency_install (line : string) : bool :=
  Py.startswith line "RUN pip install -r ".

(** A line that sets the startup command. *)
Definition startup_line (line : string) : bool := Py.startswith line "CMD ".

Definition additional_install_line : string :=
  "RUN pip install -r " +:+ dq +:+ "/app/extra-requirements.txt" +:+ dq.

(** The texts written to [file], oldest first. *)
Definition written_to (file : string) (evs : list event) : list string :=
  omap (fun e => match e with
                 | WriteText f content => if f =? file then Some content else None
                 | _ => None
                 end) evs.

(** The requests agree on every input but the artifact storage URI and the
    agent module. *)
Definition same_but_storage_and_module (r1 r2 : CloudRun.request) : Prop :=
  CloudRun.agent_whl_file r1 = CloudRun.agent_whl_file r2
  /\ CloudRun.agent_source_dir r1 = CloudRun.agent_source_dir r2
  /\ CloudRun.project r1 = CloudRun.project r2
  /\ CloudRun.region r1 = CloudRun.region r2
  /\ CloudRun.service_name r1 = CloudRun.service_name r2
  /\ CloudRun.app_name r1 = CloudRun.app_name r2
  /\ CloudRun.temp_folder r1 = CloudRun.temp_folder r2
  /\ CloudRun.port r1 = CloudRun.port r2
  /\ CloudRun.trace_to_cloud r1 = CloudRun.trace_to_cloud r2
  /\ CloudRun.with_ui r1 = CloudRun.with_ui r2
  /\ CloudRun.verbosity r1 = CloudRun.verbosity r2
  /\ CloudRun.session_db_url r1 = CloudRun.session_db_url r2
  /\ CloudRun.adk_version r1 = CloudRun.adk_version r2
  /\ CloudRun.additional_requirements r1 = CloudRun.additional_requirements r2.

(** [sample_request] with other values for the two inputs. *)
Definition sample_request_with_storage : CloudRun.request :=
  {| CloudRun.agent_whl_file := "dist/agent.whl";
     CloudRun.agent_source_dir := "src";
     CloudRun.project := None;
     CloudRun.region := Some "us-central1";
     CloudRun.service_name := "svc";
     CloudRun.app_name := "myagent";
     CloudRun.temp_folder := "/tmp/stage";
     CloudRun.port := 8080;
     CloudRun.trace_to_cloud := false;
     CloudRun.with_ui := false;
     CloudRun.verbosity := "info";
     CloudRun.session_db_url := "";
     CloudRun.artifact_storage_uri := Some "gs://artifacts";
     CloudRun.adk_version := "0.4.9";
     CloudRun.agent_module := Some "pkg.agent";
     CloudRun.additional_requirements := None |}.

(** [sample_request] with a region of two lines, the second one reading like
    the install instruction of the agent's requirements. *)
Definition two_line_region_request : CloudRun.request :=
  {| CloudRun.agent_whl_file := "dist/agent.whl";
     CloudRun.agent_source_dir := "src";
     CloudRun.project := None;
     CloudRun.region :=
       Some ("us-central1" +:+ Py.newline +:+ "RUN pip install -r " +:+ dq
             +:+ "/app/agents/myagent/requirements.txt" +:+ dq);
     CloudRun.service_name := "svc";
     CloudRun.app_name := "myagent";
     CloudRun.temp_folder := "/tmp/stage";
     CloudRun.port := 8080;
     CloudRun.trace_to_cloud := false;
     CloudRun.with_ui := false;
     CloudRun.verbosity := "info";
     CloudRun.session_db_url := "";
     CloudRun.artifact_storage_uri := None;
     CloudRun.adk_version := "0.4.9";
     CloudRun.agent_module := None;
     CloudRun.additional_requirements := None |}.

(** A request that meets the scenario of a wheel [agent.whl], a source
    directory with a [requirements.txt], app name [myagent], port 8080 and
    the UI off, and names the source directory as its temp folder. *)
Definition source_as_temp_request : CloudRun.request :=
  {| CloudRun.agent_whl_file := "dist/agent.whl";
     CloudRun.agent_source_dir := "src";
     CloudRun.project := Some "my-project";
     CloudRun.region := None;
     CloudRun.service_name := "svc";
     CloudRun.app_name := "myagent";
     CloudRun.temp_folder := "src";
     CloudRun.port := 8080;
     CloudRun.trace_to_cloud := false;
     CloudRun.with_ui := false;
     CloudRun.verbosity := "info";
     CloudRun.session_db_url := "";
     CloudRun.artifact_storage_uri := None;
     CloudRun.adk_version := "1.0.0";
     CloudRun.agent_module := None;
     CloudRun.additional_requirements := None |}.

(** ** The deploy invocation *)

(** The project [_resolve_project] returns on the tree [n], or the exception
    of the gcloud query. *)
Definition resolved_project (ext : externals) (project : option string) (n : node)
  : result string :=
  if Py.truthy project then Ok (Py.str_of_optional project)
  else
    match subprocess_outcome ext ["gcloud"; "config"; "get-value"; "project"] n with
    | Ok stdout => Ok (Py.strip stdout)
    | Err e => Err e
    end.

(** Externals of a machine without the gcloud program: [subprocess.run] finds
    no executable and raises [FileNotFoundError]. *)
Definition no_gcloud_externals : externals :=
  {| subprocess_outcome := fun _ _ => Err (FileNotFoundError "gcloud");
     import_vertexai := Ok tt;
     vertexai_init := fun _ _ _ => Ok tt;
     import_dotenv := Ok tt;
     dotenv_values := fun _ _ => Ok [];
     module_agent := fun _ _ _ _ => Ok tt;
     agent_engines_create := fun _ _ _ _ => Ok tt |}.

(** ** The dependency manifest of [to_agent_engine] *)

(** The path handed to [agent_engines.create] as [requirements]. *)
Definition resolved_requirements_path (r : AgentEngine.request) : string :=
  if Py.truthy (AgentEngine.requirements_file r)
  then Py.str_of_optional (AgentEngine.requirements_file r)
  else OsPath.join (AgentEngine.temp_folder r) ["requirements.txt"].

(** An [agent_engines.create] call is made with the resolved path. *)
Definition creates_with (requirements : string) (e : event) : Prop :=
  match e with
  | AgentEnginesCreate requirements' _ _ => requirements' = requirements
  | _ => True
  end.


(** ** More readings of runs *)

(** A line that sets one of the two Google Cloud variables. *)
Definition cloud_env_line (line : string) : bool :=
  Py.startswith line "ENV GOOGLE_CLOUD_".

(** A call of [subprocess.run]. *)
Definition is_subprocess (e : event) : bool :=
  match e with
  | Subprocess _ => true
  | _ => false
  end.

(** A write of a text file. *)
Definition is_write (e : event) : bool :=
  match e with
  | WriteText _ _ => true
  | _ => false
  end.

(** The external calls [to_agent_engine] may make for a request, with their
    arguments. *)
Definition agent_engine_call (r : AgentEngine.request) (e : event) : Prop :=
  match e with
  | Subprocess args =>
    Py.nonempty (AgentEngine.project r) = false
    /\ args = ["gcloud"; "config"; "get-value"; "project"]
  | SysPathAppend entry => entry = AgentEngine.temp_folder r
  | VertexaiInit project location staging_bucket =>
    (Py.nonempty (AgentEngine.project r) = true -> project = AgentEngine.project r)
    /\ location = AgentEngine.region r
    /\ staging_bucket = AgentEngine.staging_bucket r
  | DotenvValues path =>
    path = match AgentEngine.env_file r with
           | Some f => if Py.nonempty f then f
                       else OsPath.join (AgentEngine.temp_folder r) [".env"]
           | None => OsPath.join (AgentEngine.temp_folder r) [".env"]
           end
  | ModuleAgent module_name agent_name operations sys_paths =>
    module_name = AgentEngine.adk_app r
    /\ agent_name = "adk_app"
    /\ operations = AgentEngine.register_operations
    /\ sys_paths = [AgentEngine.drop_first (AgentEngine.temp_folder r)]
  | AgentEnginesCreate requirements _ extra_packages =>
    requirements = resolved_requirements_path r
    /\ extra_packages = [AgentEngine.temp_folder r]
  | _ => True
  end.

(** ** What a run leaves alone *)

(** Every regular file of [w] that is not at or below the path [p] is in [w']
    with the same content, and every directory of [w] that is not at or below
    [p] is still a directory in [w']. *)
Definition kept_outside (p : list string) (w w' : world) : Prop :=
  forall q, Tree.strip_prefix p q = None ->
    (forall d, Tree.lookup q (fs w) = Some (File d) ->
               Tree.lookup q (fs w') = Some (File d))
    /\ (Tree.is_dir (Tree.lookup q (fs w)) = true ->
        Tree.is_dir (Tree.lookup q (fs w')) = true).

(** The model reads every path component as a name; a path with a [..] step
    is outside what it describes. *)
Definition without_parent_steps (p : list string) : bool :=
  forallb (fun c => negb (c =? "..")) p.

(** The same for a path as it is written. *)
Definition path_without_parent_steps (path : string) : bool :=
  without_parent_steps (Py.split "/" path).

(** The two paths part ways: neither leads through the other. *)
Fixpoint apart (p q : list string) : bool :=
  match p, q with
  | a :: p', b :: q' => if decide (a = b) then apart p' q' else true
  | _, _ => false
  end.

(** A name of one directory entry, as [app_name] is meant to be. *)
Definition plain_name (name : string) : bool :=
  negb (Py.has_char "/" name) && negb (name =? "") && negb (name =? ".")
  && negb (name =? "..").

(** The node at [q] is the same in both worlds. *)
Definition same_at (q : list string) (w w' : world) : Prop :=
  Tree.lookup q (fs w) = Tree.lookup q (fs w').

(** The directory entries a relative path adds to the directory it is joined
    to. *)
Definition name_components (name : string) : list string :=
  List.filter (fun c => negb (c =? "") && negb (c =? ".")) (Py.split "/" name).

(** An event of a run that hands no environment variables to the SDK and
    reads no env file. *)
Definition without_env_vars (e : event) : Prop :=
  match e with
  | AgentEnginesCreate _ env_vars _ => env_vars = None
  | DotenvValues _ => False
  | _ => True
  end.

(** A line that copies from the build context into the image. *)
Definition copy_line (line : string) : bool := Py.startswith line "COPY ".

(** * Sample evaluations *)

Example format_escapes :
  Py.format "a{{b}}{x}-{y}" [("y", "2"); ("x", "1"); ("z", "3")] = Ok "a{b}1-2".
Proof. reflexivity. Qed.

Example format_missing_key :
  Py.format "{x}{y}" [("x", "1")] = Err (KeyError "y").
Proof. reflexivity. Qed.

Example split_join_example :
  Py.split "/" "a//b/" = ["a"; ""; "b"; ""] /\ Py.join "/" ["a"; "b"] = "a/b".
Proof. split; reflexivity. Qed.

Example strip_example : Py.strip (" my-proj" +:+ Py.newline) = "my-proj".
Proof. reflexivity. Qed.

(** [str.strip] also strips Unicode white space: here U+00A0 before and
    U+2003 after the text. *)
Example strip_unicode_example :
  Py.strip (String (ascii_of_nat 194) (String (ascii_of_nat 160) "my-proj")
            +:+ String (ascii_of_nat 226)
                  (String (ascii_of_nat 128) (String (ascii_of_nat 131) "")))
  = "my-proj".
Proof. vm_compute. reflexivity. Qed.

(** [temp_folder[1:]] drops one character, of however many bytes. *)
Example drop_first_examples :
  AgentEngine.drop_first "/tmp/engine" = "tmp/engine"
  /\ AgentEngine.drop_first
       (String (ascii_of_nat 195) (String (ascii_of_nat 169) "tage")) = "tage"
  /\ AgentEngine.drop_first "" = "".
Proof. repeat split; vm_compute; reflexivity. Qed.

(** A regular file is not found under a name with a trailing slash, and
    errors on a path through a regular file are [NotADirectoryError]. *)
Example names_directory_examples :
  exists_in "dist/agent.whl" demo_tree = true
  /\ exists_in "dist/agent.whl/" demo_tree = false
  /\ exists_in "dist/agent.whl/." demo_tree = false
  /\ exists_in "src/" demo_tree = true
  /\ fst (run (shutil_rmtree "dist/agent.whl/x") demo_tree)
     = Err (NotADirectoryError "dist/agent.whl/x")
  /\ fst (run (shutil_copytree "dist/agent.whl/x" "/t") demo_tree)
     = Err (NotADirectoryError "dist/agent.whl/x")
  /\ fst (run (os_makedirs "src/agent.py/" true) demo_tree)
     = Err (FileExistsError "src/agent.py/")
  /\ fst (run (write_text "src/new.py/" "x") demo_tree)
     = Err (IsADirectoryError "src/new.py/").
Proof. repeat split; vm_compute; reflexivity. Qed.

Example join_examples :
  OsPath.join "/tmp/x" ["agents"; "app"] = "/tmp/x/agents/app"
  /\ OsPath.join "/tmp/x/" ["a.whl"] = "/tmp/x/a.whl"
  /\ OsPath.join "/tmp/x" ["agents"; "/abs"] = "/abs"
  /\ OsPath.basename "dist/agent.whl" = "agent.whl"
  /\ OsPath.components "/tmp//x/./y/" = Some ["tmp"; "x"; "y"].
Proof. repeat split; reflexivity. Qed.

Example tree_examples :
  Tree.lookup ["src"; "agent.py"] demo_tree = Some (File "root_agent = 1")
  /\ Tree.lookup ["src"; "agent.py"] (Tree.remove ["src"] demo_tree) = None
  /\ (Tree.put ["tmp"; "x"] (File "d") demo_tree = None)
  /\ (Tree.mkdirs ["tmp"; "x"] demo_tree ≫= Tree.lookup ["tmp"]
      = Some (Dir {[ "x" := Dir ∅ ]}))
  /\ Tree.mkdirs ["dist"; "agent.whl"; "y"] demo_tree = None
  /\ Tree.file_on_way ["dist"; "agent.whl"; "y"] demo_tree = true.
Proof. repeat split; vm_compute; reflexivity. Qed.

Example copytree_example :
  let '(r, w) := run (shutil_copytree "src" "/tmp/stage/agents/app") demo_tree in
  r = Ok tt
  /\ stat "tmp/stage/agents/app/agent.py" (fs w) = Some (File "root_agent = 1")
  /\ trace w = [Copytree "src" "/tmp/stage/agents/app"].
Proof. vm_compute. repeat split; reflexivity. Qed.

Example copytree_missing_source :
  run (shutil_copytree "nowhere" "/tmp/stage") demo_tree
  = (Err (FileNotFoundError "nowhere"),
     {| fs := demo_tree; trace := [Copytree "nowhere" "/tmp/stage"] |}).
Proof. reflexivity. Qed.

Example copytree_existing_target :
  fst (run (shutil_copytree "src" "dist") demo_tree)
  = Err (FileExistsError "dist").
Proof. reflexivity. Qed.

Example copytree_into_itself :
  fst (run (os_makedirs "src/sub" true ;; shutil_copytree "src" "src/sub/copy")
           demo_tree)
  = Err RecursionError.
Proof. vm_compute. reflexivity. Qed.

Example rmtree_examples :
  fst (run (shutil_rmtree "dist/agent.whl") demo_tree)
    = Err (NotADirectoryError "dist/agent.whl")
  /\ fst (run (shutil_rmtree "tmp") demo_tree) = Err (FileNotFoundError "tmp")
  /\ (let '(r, w) := run (shutil_rmtree "src") demo_tree in
      r = Ok tt /\ exists_in "src" (fs w) = false
      /\ exists_in "dist/agent.whl" (fs w) = true).
Proof. vm_compute. repeat split; reflexivity. Qed.

Example copy2_examples :
  (let '(r, w) := run (os_makedirs "/t" true ;;
                       shutil_copy2 "dist/agent.whl" "/t/agent.whl") demo_tree in
   r = Ok tt /\ stat "/t/agent.whl" (fs w) = Some (File "wheel-bytes"))
  /\ (let '(r, w) := run (shutil_copy2 "dist/agent.whl" "src") demo_tree in
      r = Ok tt /\ stat "src/agent.whl" (fs w) = Some (File "wheel-bytes"))
  /\ fst (run (shutil_copy2 "src" "/t") demo_tree) = Err (IsADirectoryError "src")
  /\ fst (run (shutil_copy2 "dist/agent.whl" "/t/agent.whl") demo_tree)
     = Err (FileNotFoundError "/t/agent.whl").
Proof. vm_compute. repeat split; reflexivity. Qed.

Example to_cloud_run_sample_trace :
  let '(res, w) := run (CloudRun.to_cloud_run sample_externals sample_request)
                       demo_tree in
  res = Ok tt
  /\ List.filter (fun e => match e with Echo _ | WriteText _ _ => false | _ => true end)
                 (trace w)
     = [ Makedirs "/tmp/stage";
         Copy2 "dist/agent.whl" "/tmp/stage/agent.whl";
         Copytree "src" "/tmp/stage/agents/myagent";
         Subprocess ["gcloud"; "config"; "get-value"; "project"];
         Subprocess ["gcloud"; "run"; "deploy"; "svc"; "--source"; "/tmp/stage";
                     "--project"; "my-project"; "--region"; "us-central1";
                     "--port"; "8080"; "--verbosity"; "info";
                     "--labels"; "created-by=adk"];
         Rmtree "/tmp/stage" ]
  /\ exists_in "/tmp/stage" (fs w) = false.
Proof. vm_compute. repeat split; reflexivity. Qed.

Example to_agent_engine_sample_trace :
  let '(res, w) :=
    run (AgentEngine.to_agent_engine sample_externals sample_engine_request)
        demo_tree in
  res = Ok tt
  /\ List.filter (fun e => match e with Echo _ => false | _ => true end) (trace w)
     = [ Copytree "/src" "/tmp/engine";
         SysPathAppend "/tmp/engine";
         VertexaiInit "my-project" "us-central1" "gs://bucket";
         WriteText "/tmp/engine/agent_engine_app.py"
           (Py.join Py.newline
              [""; "from agent import root_agent";
               "from vertexai.preview.reasoning_engines import AdkApp";
               ""; "adk_app = AdkApp("; "  agent=root_agent,";
               "  enable_tracing=True,"; ")"; ""]);
         ModuleAgent "agent_engine_app" "adk_app"
                     AgentEngine.register_operations ["tmp/engine"];
         AgentEnginesCreate "/tmp/engine/requirements.txt" None ["/tmp/engine"];
         Rmtree "/tmp/engine" ]
  /\ exists_in "/tmp/engine" (fs w) = false.
Proof. vm_compute. repeat split; reflexivity. Qed.

Example host_option_examples :
  Py.gt "0.5.1" "0.5.0" = true
  /\ Py.gt "1.0.0" "0.5.0" = true
  /\ Py.gt "0.5.0" "0.5.0" = false
  /\ Py.gt "0.4.9" "0.5.0" = false
  /\ Py.gt "0.10.0" "0.5.0" = false.
Proof. repeat split; reflexivity. Qed.

(** A regular file at the temp path: the removal before the [try] block
    fails, nothing is staged and the file stays. *)
Example temp_folder_is_a_file :
  let tree := Dir {[ "dist" := Dir {[ "agent.whl" := File "wheel-bytes" ]};
                     "src" := Dir ∅;
                     "tmp" := Dir {[ "stage" := File "not a folder" ]} ]} in
  let '(res, w) := run (CloudRun.to_cloud_run sample_externals sample_request)
                       tree in
  res = Err (NotADirectoryError "/tmp/stage")
  /\ fs w = tree
  /\ trace w = [ Echo "Start generating Cloud Run source files in /tmp/stage";
                 Echo "Removing existing files";
                 Rmtree "/tmp/stage" ].
Proof. vm_compute. repeat split; reflexivity. Qed.

(** An additional requirements file adds its two instructions after the
    agent's own. *)
Example additional_requirements_sample :
  let tree := Dir {[ "dist" := Dir {[ "agent.whl" := File "wheel-bytes" ]};
                     "src" := Dir {[ "requirements.txt" := File "requests" ]};
                     "extra.txt" := File "numpy" ]} in
  let r := {| CloudRun.agent_whl_file := "dist/agent.whl";
              CloudRun.agent_source_dir := "src";
              CloudRun.project := Some "p";
              CloudRun.region := None;
              CloudRun.service_name := "svc";
              CloudRun.app_name := "myagent";
              CloudRun.temp_folder := "/tmp/stage";
              CloudRun.port := 8000;
              CloudRun.trace_to_cloud := true;
              CloudRun.with_ui := true;
              CloudRun.verbosity := "info";
              CloudRun.session_db_url := "sqlite:///s.db";
              CloudRun.artifact_storage_uri := None;
              CloudRun.adk_version := "1.2.0";
              CloudRun.agent_module := None;
              CloudRun.additional_requirements := Some "extra.txt" |} in
  let '(res, w) := run (CloudRun.to_cloud_run sample_externals r) tree in
  res = Ok tt
  /\ match written_to "/tmp/stage/Dockerfile" (trace w) with
     | [d] =>
       List.filter (fun l => dependency_install l || startup_line l) (Py.lines d)
       = [ "RUN pip install -r " +:+ dq
           +:+ "/app/agents/myagent/requirements.txt" +:+ dq;
           "RUN pip install -r " +:+ dq +:+ "/app/extra-requirements.txt" +:+ dq;
           "CMD adk web --port=8000 --host=0.0.0.0 "
           +:+ "--session_db_url=sqlite:///s.db --trace_to_cloud "
           +:+ dq +:+ "/app/agents" +:+ dq ]
     | _ => False
     end
  /\ List.filter (fun e => match e with Subprocess _ => true | _ => false end)
                 (trace w)
     = [ Subprocess ["gcloud"; "run"; "deploy"; "svc"; "--source"; "/tmp/stage";
                     "--project"; "p"; "--port"; "8000"; "--verbosity"; "info";
                     "--labels"; "created-by=adk"] ].
Proof. vm_compute. repeat split; reflexivity. Qed.

(** * String lemmas *)

Lemma append_assoc (a b c : string) : (a +:+ b) +:+ c = a +:+ (b +:+ c).
Proof. induction a as [|x a IH]; simpl; [reflexivity | now rewrite IH]. Qed.

Lemma has_char_app c (a b : string) :
  Py.has_char c (a +:+ b) = Py.has_char c a || Py.has_char c b.
Proof.
  induction a as [|x a IH]; simpl; [reflexivity|].
  rewrite IH. now rewrite orb_assoc.
Qed.

Lemma single_line_app (a b : string) :
  Py.single_line (a +:+ b) = Py.single_line a && Py.single_line b.
Proof. unfold Py.single_line. rewrite has_char_app. apply negb_orb. Qed.

Lemma split_nonempty c s : Py.split c s <> [].
Proof.
  destruct s as [|a s]; simpl; [discriminate|].
  destruct (Ascii.eqb a c); [discriminate|].
  destruct (Py.split c s); discriminate.
Qed.

Lemma split_app_sep c (x y : string) :
  Py.split c (x +:+ String c y) = Py.split c x ++ Py.split c y.
Proof.
  induction x as [|a x IH]; simpl.
  - now rewrite Ascii.eqb_refl.
  - destruct (Ascii.eqb a c); rewrite IH; [reflexivity|].
    pose proof (split_nonempty c x) as Hne.
    destruct (Py.split c x); [congruence | reflexivity].
Qed.

Lemma split_no_sep c (x : string) :
  Py.has_char c x = false -> Py.split c x = [x].
Proof.
  induction x as [|a x IH]; simpl; [reflexivity|].
  intros H. apply orb_false_iff in H as [Ha Hx].
  rewrite Ha, (IH Hx). reflexivity.
Qed.

Lemma join_cons sep (x y : string) (l : list string) :
  Py.join sep (x :: y :: l) = x +:+ sep +:+ Py.join sep (y :: l).
Proof. reflexivity. Qed.

Lemma split_join c (l : list string) :
  l <> [] -> Py.split c (Py.join (String c "") l) = flat_map (Py.split c) l.
Proof.
  induction l as [|x l IH]; [congruence|]. intros _.
  destruct l as [|y l].
  - simpl. now rewrite app_nil_r.
  - rewrite join_cons.
    change (String c "" +:+ Py.join (String c "") (y :: l))
      with (String c (Py.join (String c "") (y :: l))).
    rewrite split_app_sep, IH by discriminate.
    reflexivity.
Qed.

Lemma flat_map_split_single c (l : list string) :
  Forall (fun x => Py.has_char c x = false) l -> flat_map (Py.split c) l = l.
Proof.
  induction 1 as [|x l Hx _ IH]; simpl; [reflexivity|].
  now rewrite (split_no_sep _ _ Hx), IH.
Qed.

Lemma split_join_around c (h m t : list string) (a b : string) :
  Forall (fun x => Py.has_char c x = false) h ->
  Forall (fun x => Py.has_char c x = false) m ->
  Forall (fun x => Py.has_char c x = false) t ->
  Py.split c (Py.join (String c "") (h ++ a :: m ++ b :: t))
  = h ++ Py.split c a ++ m ++ Py.split c b ++ t.
Proof.
  intros Hh Hm Ht.
  rewrite split_join by (destruct h; discriminate).
  rewrite flat_map_app. simpl flat_map. rewrite flat_map_app. simpl flat_map.
  rewrite !flat_map_split_single by assumption.
  reflexivity.
Qed.

Lemma string_of_uint_single_line (u : Decimal.uint) :
  Py.has_char "010" (NilEmpty.string_of_uint u) = false.
Proof. induction u; simpl; auto. Qed.

Lemma str_of_int_single_line (n : Z) : Py.single_line (Py.str_of_int n) = true.
Proof.
  unfold Py.single_line, Py.str_of_int, NilZero.string_of_int, NilZero.string_of_uint.
  destruct (Z.to_int n) as [u|u]; destruct u; simpl;
    rewrite ?string_of_uint_single_line; reflexivity.
Qed.

(** * The Dockerfile template *)

Lemma parse_dockerfile_template :
  Py.parse _DOCKERFILE_TEMPLATE = Ok dockerfile_segments.
Proof. vm_compute. reflexivity. Qed.

(** The template is well formed and each of its fields is among the keyword
    arguments: formatting never fails, and the text is the fixed lines around
    the two install fragments. *)
Lemma dockerfile_content_lines (r : CloudRun.request) (a b : string) :
  CloudRun.dockerfile_content r a b
  = Ok (Py.join Py.newline (CloudRun.dockerfile_lines r a b)).
Proof.
  unfold CloudRun.dockerfile_content, Py.format.
  rewrite parse_dockerfile_template.
  unfold dockerfile_segments, CloudRun.format_arguments.
  simpl Py.render.
  f_equal.
  unfold CloudRun.dockerfile_lines, CloudRun.dockerfile_head,
    CloudRun.dockerfile_middle, CloudRun.dockerfile_tail,
    CloudRun.startup_command.
  cbn [Py.join app].
  unfold dq, Py.dquote, Py.newline.
  repeat rewrite append_assoc.
  simpl.
  reflexivity.
Qed.

Ltac single_line_tac :=
  repeat match goal with
         | |- context [if ?b then _ else _] => destruct b
         end;
  repeat (rewrite single_line_app);
  rewrite ?str_of_int_single_line;
  repeat match goal with
         | H : Py.single_line _ = true |- _ => rewrite H
         end;
  reflexivity.

Lemma single_line_has_char (s : string) :
  Py.single_line s = true -> Py.has_char "010" s = false.
Proof. unfold Py.single_line. now destruct (Py.has_char "010" s). Qed.

Section DockerfileLines.

Variable r : CloudRun.request.
Hypothesis Hfields : CloudRun.single_line_fields r = true.

Lemma single_line_fields_inv :
  Py.single_line (Py.str_of_optional (CloudRun.project r)) = true
  /\ Py.single_line (Py.str_of_optional (CloudRun.region r)) = true
  /\ Py.single_line (CloudRun.agent_whl_filename r) = true
  /\ Py.single_line (CloudRun.app_name r) = true
  /\ Py.single_line (CloudRun.session_db_url r) = true.
Proof.
  unfold CloudRun.single_line_fields in Hfields.
  repeat (apply andb_true_iff in Hfields as [Hfields ?]).
  repeat split; assumption.
Qed.

Lemma dockerfile_head_single_line :
  Forall (fun x => Py.has_char "010" x = false) (CloudRun.dockerfile_head r).
Proof.
  destruct single_line_fields_inv as (Hp & Hr & Hw & Ha & Hs).
  unfold CloudRun.dockerfile_head.
  repeat (constructor; [apply single_line_has_char; single_line_tac|]).
  constructor.
Qed.

Lemma startup_command_single_line :
  Py.single_line (CloudRun.startup_command r) = true.
Proof.
  destruct single_line_fields_inv as (Hp & Hr & Hw & Ha & Hs).
  unfold CloudRun.startup_command, CloudRun.host_option.
  single_line_tac.
Qed.

Lemma dockerfile_tail_single_line :
  Forall (fun x => Py.has_char "010" x = false) (CloudRun.dockerfile_tail r).
Proof.
  pose proof startup_command_single_line as Hc.
  unfold CloudRun.dockerfile_tail.
  repeat (constructor; [apply single_line_has_char; single_line_tac|]).
  constructor.
Qed.

Lemma lines_dockerfile (a b : string) :
  Py.lines (Py.join Py.newline (CloudRun.dockerfile_lines r a b))
  = CloudRun.dockerfile_head r ++ Py.lines a
    ++ CloudRun.dockerfile_middle ++ Py.lines b ++ CloudRun.dockerfile_tail r.
Proof.
  apply split_join_around.
  - apply dockerfile_head_single_line.
  - repeat constructor.
  - apply dockerfile_tail_single_line.
Qed.

End DockerfileLines.

(** * The file tree *)

Lemma lookup_app (p q : list string) (n : node) :
  Tree.lookup (p ++ q) n
  = match Tree.lookup p n with
    | Some n' => Tree.lookup q n'
    | None => None
    end.
Proof.
  revert n. induction p as [|c p IH]; intros n; simpl; [reflexivity|].
  destruct n as [d|m]; [reflexivity|].
  destruct (m !! c); [apply IH | reflexivity].
Qed.

Lemma lookup_remove (p : list string) (n : node) :
  p <> [] -> Tree.lookup p (Tree.remove p n) = None.
Proof.
  revert n. induction p as [|c p IH]; intros n Hp; [congruence|].
  destruct n as [d|m].
  - destruct p; reflexivity.
  - destruct p as [|c' p].
    + simpl. now rewrite lookup_delete_eq.
    + cbn [Tree.remove]. destruct (m !! c) as [n'|] eqn:Hc.
      * cbn [Tree.lookup]. rewrite lookup_insert_eq. now apply IH.
      * cbn [Tree.lookup]. now rewrite Hc.
Qed.




Lemma lookup_chain (p : list string) :
  Tree.lookup p (Tree.chain p) = Some (Dir ∅).
Proof.
  induction p as [|c p IH]; [reflexivity|].
  cbn [Tree.chain Tree.lookup]. now rewrite lookup_singleton_eq.
Qed.

Lemma put_cons2 (c c' : string) (p : list string) (x : node)
    (m : gmap string node) :
  Tree.put (c :: c' :: p) x (Dir m)
  = match m !! c with
    | Some n' =>
      match Tree.put (c' :: p) x n' with
      | Some n'' => Some (Dir (<[c := n'']> m))
      | None => None
      end
    | None => None
    end.
Proof. reflexivity. Qed.

Lemma put_keeps_dirs (p : list string) (x n n' : node) :
  Tree.put p x n = Some n' ->
  (forall q, Tree.is_dir (Tree.lookup (p ++ q) n) = true ->
             Tree.is_dir (Tree.lookup q x) = true) ->
  forall q, Tree.is_dir (Tree.lookup q n) = true ->
            Tree.is_dir (Tree.lookup q n') = true.
Proof.
  revert n n'. induction p as [|c p IH]; intros n n' Hput Hx q Hq.
  - simpl in Hput. injection Hput as <-. now apply Hx.
  - destruct n as [d|m]; [discriminate|].
    destruct q as [|e q].
    { destruct p.
      - cbn [Tree.put] in Hput. now injection Hput as <-.
      - rewrite put_cons2 in Hput. destruct (m !! c); [|discriminate].
        destruct (Tree.put _ _ _); [|discriminate]. now injection Hput as <-. }
    destruct p as [|c' p].
    + cbn [Tree.put] in Hput. injection Hput as <-.
      cbn [Tree.lookup] in *.
      destruct (decide (c = e)) as [->|Hne].
      * rewrite lookup_insert_eq. apply (Hx q). exact Hq.
      * now rewrite lookup_insert_ne.
    + rewrite put_cons2 in Hput.
      destruct (m !! c) as [n0|] eqn:Hc; [|discriminate].
      destruct (Tree.put (c' :: p) x n0) as [n0'|] eqn:Hput0; [|discriminate].
      injection Hput as <-.
      cbn [Tree.lookup] in *.
      destruct (decide (c = e)) as [->|Hne].
      * rewrite lookup_insert_eq. rewrite Hc in Hq.
        apply (IH n0 n0' Hput0); [|exact Hq].
        intros q' Hq'. apply Hx.
        change ((e :: c' :: p) ++ q') with (e :: ((c' :: p) ++ q')).
        cbn [Tree.lookup]. now rewrite Hc.
      * now rewrite lookup_insert_ne.
Qed.

Lemma lookup_put (p : list string) (x n n' : node) :
  Tree.put p x n = Some n' -> Tree.lookup p n' = Some x.
Proof.
  revert n n'. induction p as [|c p IH]; intros n n' Hput.
  - simpl in Hput. now injection Hput as <-.
  - destruct n as [d|m]; [discriminate|].
    destruct p as [|c' p].
    + cbn [Tree.put] in Hput. injection Hput as <-.
      cbn [Tree.lookup]. now rewrite lookup_insert_eq.
    + rewrite put_cons2 in Hput.
      destruct (m !! c) as [n0|] eqn:Hc; [|discriminate].
      destruct (Tree.put (c' :: p) x n0) as [n0'|] eqn:Hput0; [|discriminate].
      injection Hput as <-.
      cbn [Tree.lookup]. rewrite lookup_insert_eq. now apply (IH n0).
Qed.

Lemma mkdirs_keeps_dirs (p : list string) (n n' : node) :
  Tree.mkdirs p n = Some n' ->
  forall q, Tree.is_dir (Tree.lookup q n) = true ->
            Tree.is_dir (Tree.lookup q n') = true.
Proof.
  revert n n'. induction p as [|c p IH]; intros n n' Hmk q Hq.
  - destruct n; [discriminate|]. simpl in Hmk. now injection Hmk as <-.
  - destruct n as [d|m]; [discriminate|].
    cbn [Tree.mkdirs] in Hmk.
    destruct (m !! c) as [n0|] eqn:Hc.
    + destruct (Tree.mkdirs p n0) as [n0'|] eqn:Hmk0; [|discriminate].
      injection Hmk as <-.
      destruct q as [|e q]; [reflexivity|].
      cbn [Tree.lookup] in *.
      destruct (decide (c = e)) as [->|Hne].
      * rewrite lookup_insert_eq. rewrite Hc in Hq. now apply (IH n0).
      * now rewrite lookup_insert_ne.
    + injection Hmk as <-.
      destruct q as [|e q]; [reflexivity|].
      cbn [Tree.lookup] in *.
      destruct (decide (c = e)) as [->|Hne].
      * now rewrite Hc in Hq.
      * now rewrite lookup_insert_ne.
Qed.

Lemma mkdirs_fresh (p : list string) (n n' : node) :
  Tree.lookup p n = None -> Tree.mkdirs p n = Some n' ->
  Tree.lookup p n' = Some (Dir ∅).
Proof.
  revert n n'. induction p as [|c p IH]; intros n n' Hp Hmk; [discriminate|].
  destruct n as [d|m]; [discriminate|].
  cbn [Tree.mkdirs Tree.lookup] in *.
  destruct (m !! c) as [n0|] eqn:Hc.
  - destruct (Tree.mkdirs p n0) as [n0'|] eqn:Hmk0; [|discriminate].
    injection Hmk as <-. rewrite lookup_insert_eq. now apply (IH n0).
  - injection Hmk as <-. rewrite lookup_insert_eq. apply lookup_chain.
Qed.

(** * Computations and the relations they respect *)

Lemma bind_unfold {A B} (m : M A) (k : A -> M B) (w : world) :
  bind m k w
  = match m w with
    | (Ok a, w') => k a w'
    | (Err e, w') => (Err e, w')
    end.
Proof. reflexivity. Qed.

Lemma bind_ok {A B} (m : M A) (k : A -> M B) (w w' : world) (a : A) :
  m w = (Ok a, w') -> bind m k w = k a w'.
Proof. intros H. unfold bind. now rewrite H. Qed.

Lemma bind_err {A B} (m : M A) (k : A -> M B) (w w' : world) (e : exn) :
  m w = (Err e, w') -> bind m k w = (Err e, w').
Proof. intros H. unfold bind. now rewrite H. Qed.

Lemma bind_assoc {A B C} (m : M A) (k : A -> M B) (k' : B -> M C) (w : world) :
  bind (bind m k) k' w = bind m (fun a => bind (k a) k') w.
Proof. unfold bind. destruct (m w) as [[a|e] w']; reflexivity. Qed.

Lemma try_finally_world {A} (body : M A) (cleanup : M unit) (w : world) :
  snd (try_finally body cleanup w) = snd (cleanup (snd (body w))).
Proof.
  unfold try_finally. destruct (body w) as [r w1]. simpl.
  destruct (cleanup w1) as [[[]|e2] w2]; [reflexivity|].
  destruct r; reflexivity.
Qed.

Lemma echo_then {A} (message : string) (m : M A) (w : world) :
  (echo message ;; m) w
  = m {| fs := fs w; trace := trace w ++ [Echo message] |}.
Proof. reflexivity. Qed.

Section Respects.

Context (R : world -> world -> Prop) `{!PreOrder R}.

Let R_refl (w : world) : R w w := reflexivity w.
Let R_trans (a b c : world) : R a b -> R b c -> R a c :=
  fun Hab Hbc => transitivity Hab Hbc.

Lemma respects_ret {A} (a : A) : respects R (ret a).
Proof. intros w. apply R_refl. Qed.

Lemma respects_raise {A} (e : exn) : respects R (@raise A e).
Proof. intros w. apply R_refl. Qed.

Lemma respects_lift {A} (x : result A) : respects R (lift x).
Proof. intros w. apply R_refl. Qed.

Lemma respects_get_fs : respects R get_fs.
Proof. intros w. apply R_refl. Qed.

Lemma respects_bind {A B} (m : M A) (k : A -> M B) :
  respects R m -> (forall a, respects R (k a)) -> respects R (bind m k).
Proof.
  intros Hm Hk w. rewrite bind_unfold.
  specialize (Hm w). destruct (m w) as [[a|e] w']; simpl in *.
  - eapply R_trans; [exact Hm | apply Hk].
  - exact Hm.
Qed.

(** The continuation only matters at the values the first part returns. *)
Lemma respects_bind_value {A B} (m : M A) (k : A -> M B) (Q : A -> Prop) :
  respects R m ->
  (forall w a w', m w = (Ok a, w') -> Q a) ->
  (forall a, Q a -> respects R (k a)) ->
  respects R (bind m k).
Proof.
  intros Hm HQ Hk w. rewrite bind_unfold.
  specialize (Hm w). destruct (m w) as [[a|e] w'] eqn:Hmw; simpl in *.
  - eapply R_trans; [exact Hm | apply Hk]. eapply HQ, Hmw.
  - exact Hm.
Qed.

Lemma respects_when (b : bool) (m : M unit) :
  respects R m -> respects R (when b m).
Proof. intros Hm. destruct b; [exact Hm | apply respects_ret]. Qed.

Lemma respects_exists (path : string) : respects R (os_path_exists path).
Proof. intros w. apply R_refl. Qed.

Lemma respects_isdir (path : string) : respects R (os_path_isdir path).
Proof. intros w. apply R_refl. Qed.

Lemma respects_try_finally {A} (body : M A) (cleanup : M unit) :
  respects R body -> respects R cleanup -> respects R (try_finally body cleanup).
Proof.
  intros Hb Hc w. unfold try_finally.
  specialize (Hb w). destruct (body w) as [r w1]. simpl in Hb.
  specialize (Hc w1). destruct (cleanup w1) as [[[]|e2] w2]; simpl in Hc.
  - eapply R_trans; eassumption.
  - destruct r; simpl; eapply R_trans; eassumption.
Qed.

End Respects.

(** ** Directories are kept by everything but [rmtree] *)

#[export] Instance dirs_kept_preorder : PreOrder dirs_kept.
Proof.
  split.
  - intros w q H. exact H.
  - intros a b c H1 H2 q H. apply H2, H1, H.
Qed.

Lemma log_keeps_dirs (e : event) : respects dirs_kept (log e).
Proof. intros w q H. exact H. Qed.

Lemma makedirs_in_keeps_dirs (name : string) (exist_ok : bool) (n n' : node) :
  makedirs_in name exist_ok n = Ok n' ->
  forall q, Tree.is_dir (Tree.lookup q n) = true ->
            Tree.is_dir (Tree.lookup q n') = true.
Proof.
  unfold makedirs_in. intros H q Hq.
  destruct (OsPath.components name) as [p|]; [|discriminate].
  destruct (Tree.lookup p n) as [[d|m]|] eqn:Hp.
  - discriminate.
  - destruct exist_ok; [|discriminate]. now injection H as <-.
  - destruct (Tree.mkdirs p n) as [n1|] eqn:Hmk; [|discriminate].
    injection H as <-. eapply mkdirs_keeps_dirs; eassumption.
Qed.

(** What a successful [create_file] did. *)
Lemma create_file_ok (name data : string) (n n' : node) :
  create_file name data n = Ok n' ->
  exists p,
    OsPath.components name = Some p
    /\ Tree.put p (File data) n = Some n'
    /\ Tree.is_dir (Tree.lookup p n) = false
    /\ OsPath.names_directory name = false.
Proof.
  unfold create_file. intros H.
  destruct (OsPath.components name) as [p|]; [|discriminate].
  exists p. split; [reflexivity|].
  destruct (Tree.lookup p n) as [[d|m]|]; [|discriminate|];
    (destruct (Tree.put p (File data) n); [|discriminate];
     destruct (OsPath.names_directory name); [discriminate|];
     now injection H as <-).
Qed.

Lemma create_file_keeps_dirs (name data : string) (n n' : node) :
  create_file name data n = Ok n' ->
  forall q, Tree.is_dir (Tree.lookup q n) = true ->
            Tree.is_dir (Tree.lookup q n') = true.
Proof.
  intros H q Hq.
  destruct (create_file_ok _ _ _ _ H) as (p & _ & Hput & Hnd & _).
  eapply put_keeps_dirs; [exact Hput| |exact Hq].
  intros q' Hq'. rewrite lookup_app in Hq'.
  destruct (Tree.lookup p n) as [[d|m]|]; try discriminate.
  destruct q'; discriminate.
Qed.

Lemma os_makedirs_keeps_dirs (name : string) (exist_ok : bool) :
  respects dirs_kept (os_makedirs name exist_ok).
Proof.
  intros w q Hq. unfold os_makedirs, bind, log, get_fs, lift, set_fs. simpl.
  destruct (makedirs_in name exist_ok (fs w)) as [n'|e] eqn:Hmk; simpl.
  - eapply makedirs_in_keeps_dirs; eassumption.
  - exact Hq.
Qed.

Lemma write_text_keeps_dirs (file content : string) :
  respects dirs_kept (write_text file content).
Proof.
  intros w q Hq. unfold write_text, bind, log, get_fs, lift, set_fs. simpl.
  destruct (create_file file content (fs w)) as [n'|e] eqn:Hc; simpl.
  - eapply create_file_keeps_dirs; eassumption.
  - exact Hq.
Qed.

Lemma shutil_copy2_keeps_dirs (src dst : string) :
  respects dirs_kept (shutil_copy2 src dst).
Proof.
  intros w q Hq. unfold shutil_copy2, bind, log, get_fs, lift, set_fs, raise.
  simpl.
  destruct (_ && _); [exact Hq|].
  destruct (stat src (fs w)) as [[data|m]|]; try exact Hq.
  destruct (create_file _ data (fs w)) as [n'|e] eqn:Hc; simpl.
  - eapply create_file_keeps_dirs; eassumption.
  - exact Hq.
Qed.

Lemma makedirs_in_fresh (name : string) (n n' : node) :
  makedirs_in name false n = Ok n' ->
  exists p, OsPath.components name = Some p
            /\ Tree.lookup p n = None /\ Tree.lookup p n' = Some (Dir ∅).
Proof.
  unfold makedirs_in. intros H.
  destruct (OsPath.components name) as [p|]; [|discriminate].
  exists p. split; [reflexivity|].
  destruct (Tree.lookup p n) as [[d|m]|] eqn:Hp; try discriminate.
  destruct (Tree.mkdirs p n) as [n1|] eqn:Hmk; [|discriminate].
  injection H as <-. split; [reflexivity|]. eapply mkdirs_fresh; eassumption.
Qed.

Lemma shutil_copytree_keeps_dirs (src dst : string) :
  respects dirs_kept (shutil_copytree src dst).
Proof.
  intros w q Hq. unfold shutil_copytree, bind, log, get_fs, lift, set_fs, raise, ret.
  simpl.
  destruct (stat src (fs w)) as [[data|m]|]; try exact Hq.
  destruct (makedirs_in dst false (fs w)) as [n1|e] eqn:Hmk; simpl; [|exact Hq].
  pose proof (makedirs_in_keeps_dirs _ _ _ _ Hmk q Hq) as Hq1.
  destruct (makedirs_in_fresh _ _ _ Hmk) as (pd & Hpd & Hold & Hnew).
  destruct (OsPath.components src) as [ps|]; [|exact Hq].
  rewrite Hpd.
  destruct (Tree.put pd (Dir m) n1) as [n2|] eqn:Hput; simpl; [|exact Hq].
  assert (Tree.is_dir (Tree.lookup q n2) = true) as Hq2.
  { eapply put_keeps_dirs; [exact Hput| |exact Hq1].
    intros q' Hq'. rewrite lookup_app, Hnew in Hq'.
    destruct q' as [|c q']; [reflexivity|].
    simpl in Hq'. now rewrite lookup_empty in Hq'. }
  destruct (copies_into_itself ps pd m); exact Hq2.
Qed.

Lemma subprocess_run_keeps_dirs (ext : externals) (args : list string) :
  respects dirs_kept (subprocess_run ext args).
Proof. intros w q Hq. unfold subprocess_run, bind, log, get_fs, lift. simpl.
  destruct (subprocess_outcome ext args (fs w)); exact Hq. Qed.

(** ** Traces grow by the events that are logged *)

#[export] Instance emits_preorder (P : event -> Prop) : PreOrder (emits P).
Proof.
  split.
  - intros w. exists []. split; [now rewrite app_nil_r | constructor].
  - intros a b c (e1 & H1 & P1) (e2 & H2 & P2). exists (e1 ++ e2). split.
    + now rewrite H2, H1, <- app_assoc.
    + now apply Forall_app.
Qed.

Lemma log_emits (P : event -> Prop) (e : event) :
  P e -> respects (emits P) (log e).
Proof. intros HP w. exists [e]. split; [reflexivity | now constructor]. Qed.

Lemma set_fs_emits (P : event -> Prop) (n : node) :
  respects (emits P) (set_fs n).
Proof. intros w. exists []. split; [simpl; now rewrite app_nil_r | constructor]. Qed.

Lemma emits_new_events (P : event -> Prop) (w w' : world) :
  emits P w w' ->
  trace w' = trace w ++ new_events w w' /\ Forall P (new_events w w').
Proof.
  intros (evs & Ht & HP). unfold new_events. rewrite Ht.
  rewrite drop_app_length. now split.
Qed.

Create HintDb respects_db.

#[export] Hint Resolve log_keeps_dirs os_makedirs_keeps_dirs write_text_keeps_dirs
  shutil_copy2_keeps_dirs shutil_copytree_keeps_dirs subprocess_run_keeps_dirs
  set_fs_emits : respects_db.

#[export] Hint Extern 1 (respects (emits _) (log _)) =>
  apply log_emits; first [exact I | reflexivity | discriminate] : respects_db.

Ltac head_of t :=
  match t with
  | ?f _ => head_of f
  | _ => t
  end.

Ltac respects_step :=
  match goal with
  | |- respects ?R (bind _ _) => apply (respects_bind R); [|intros ?]
  | |- respects ?R (when _ _) => apply (respects_when R)
  | |- respects ?R (ret _) => apply (respects_ret R)
  | |- respects ?R (raise _) => apply (respects_raise R)
  | |- respects ?R (lift _) => apply (respects_lift R)
  | |- respects ?R get_fs => apply (respects_get_fs R)
  | |- respects ?R (os_path_exists _) => apply (respects_exists R)
  | |- respects ?R (os_path_isdir _) => apply (respects_isdir R)
  | |- respects ?R (try_finally _ _) => apply (respects_try_finally R)
  | |- respects _ (if ?b then _ else _) => destruct b
  | |- respects _ (match ?x with _ => _ end) => destruct x
  | |- respects _ ?m => let h := head_of m in progress unfold h
  end.

Ltac respects_tac :=
  repeat first [ solve [auto with respects_db] | progress cbv zeta | respects_step ].

Lemma echo_keeps_dirs (message : string) : respects dirs_kept (echo message).
Proof. respects_tac. Qed.

Lemma resolve_project_keeps_dirs (ext : externals) (p : option string) :
  respects dirs_kept (_resolve_project ext p).
Proof. respects_tac. Qed.

Lemma cloud_run_after_makedirs_keeps_dirs (ext : externals) (r : CloudRun.request) :
  respects dirs_kept
    (CloudRun.create_dockerfile r ;; CloudRun.deploy ext r).
Proof. respects_tac. Qed.

#[local] Arguments Tree.lookup : simpl never.
#[local] Arguments Tree.remove : simpl never.
#[local] Arguments Tree.put : simpl never.
#[local] Arguments Tree.mkdirs : simpl never.

(** * Cleanup of the temp folder *)

Lemma exists_in_stat (path : string) (n : node) :
  exists_in path n = false <-> stat path n = None.
Proof. unfold exists_in. destruct (stat path n); split; congruence. Qed.

Lemma stat_lookup (path : string) (p : list string) (n : node) :
  OsPath.components path = Some p -> p <> [] ->
  stat path n
  = match Tree.lookup p n with
    | Some (File data) =>
      if OsPath.names_directory path then None else Some (File data)
    | found => found
    end.
Proof. unfold stat. intros -> Hp. now destruct p. Qed.

Lemma stat_root (path : string) (n : node) :
  OsPath.components path = Some [] -> stat path n = Some n.
Proof. unfold stat. now intros ->. Qed.

Lemma stat_dir (path : string) (p : list string) (n : node)
    (m : gmap string node) :
  OsPath.components path = Some p -> Tree.lookup p n = Some (Dir m) ->
  stat path n = Some (Dir m).
Proof.
  intros Hp Hl. destruct p as [|c p].
  - rewrite (stat_root _ _ Hp). exact Hl.
  - now rewrite (stat_lookup _ _ _ Hp), Hl.
Qed.

Lemma stat_absent (path : string) (p : list string) (n : node) :
  OsPath.components path = Some p -> Tree.lookup p n = None ->
  stat path n = None.
Proof.
  intros Hp Hl. destruct p as [|c p]; [discriminate|].
  now rewrite (stat_lookup _ _ _ Hp), Hl.
Qed.

Lemma stat_found (path : string) (n : node) (x : node) :
  stat path n = Some x ->
  exists p, OsPath.components path = Some p /\ Tree.lookup p n = Some x.
Proof.
  unfold stat. destruct (OsPath.components path) as [p|]; [|discriminate].
  intros H. exists p. split; [reflexivity|].
  destruct p as [|c p]; [exact H|].
  destruct (Tree.lookup (c :: p) n) as [[d|m]|]; [|exact H|discriminate].
  now destruct (OsPath.names_directory path).
Qed.

Lemma stat_is_dir (path : string) (p : list string) (n : node) :
  OsPath.components path = Some p ->
  Tree.is_dir (stat path n) = Tree.is_dir (Tree.lookup p n).
Proof.
  intros Hp. destruct p as [|c p]; [now rewrite (stat_root _ _ Hp)|].
  rewrite (stat_lookup _ _ _ Hp) by discriminate.
  destruct (Tree.lookup (c :: p) n) as [[d|m]|]; try reflexivity.
  now destruct (OsPath.names_directory path).
Qed.

(** [stat] depends on the tree through the node at the path only. *)
Lemma stat_same (path : string) (p : list string) (n n' : node) :
  OsPath.components path = Some p ->
  Tree.lookup p n = Tree.lookup p n' ->
  stat path n = stat path n'.
Proof.
  intros Hp Hl. destruct p as [|c p].
  - rewrite !(stat_root _ _ Hp). change (Some n) with (Tree.lookup [] n).
    now rewrite Hl.
  - now rewrite !(stat_lookup _ _ _ Hp), Hl.
Qed.

Lemma stat_plain (path : string) (p : list string) (n : node) :
  OsPath.components path = Some p ->
  OsPath.names_directory path = false ->
  stat path n = Tree.lookup p n.
Proof.
  intros Hp Hnd. destruct p as [|c p]; [now rewrite (stat_root _ _ Hp)|].
  rewrite (stat_lookup _ _ _ Hp), Hnd by discriminate.
  now destruct (Tree.lookup (c :: p) n) as [[d|m]|].
Qed.


Lemma rmtree_trace (path : string) (w : world) :
  trace (snd (shutil_rmtree path w)) = trace w ++ [Rmtree path].
Proof.
  unfold shutil_rmtree, bind, log, get_fs, set_fs, raise. simpl.
  destruct (OsPath.components path) as [p|]; [|reflexivity].
  destruct (Tree.lookup p (fs w)) as [[d|m]|]; try reflexivity.
  destruct p; reflexivity.
Qed.

(** When the removal of an existing temp folder succeeds, or there was none,
    nothing is left at the path. *)
Lemma remove_if_exists_ok (path message : string) (w w1 : world) :
  when (exists_in path (fs w)) (echo message ;; shutil_rmtree path) w = (Ok tt, w1) ->
  stat path (fs w1) = None.
Proof.
  destruct (exists_in path (fs w)) eqn:Hex; simpl.
  - unfold shutil_rmtree, echo, bind, log, get_fs, set_fs, raise. simpl.
    destruct (OsPath.components path) as [p|] eqn:Hp; [|discriminate].
    destruct (Tree.lookup p (fs w)) as [[d|m]|]; try discriminate.
    destruct p as [|c p]; [discriminate|].
    intros H. injection H as <-.
    apply (stat_absent _ _ _ Hp). now apply lookup_remove.
  - unfold ret. intros H. injection H as <-. now apply exists_in_stat.
Qed.






#[export] Instance eq_world_preorder : PreOrder (@eq world).
Proof. split; congruence. Qed.

Lemma validate_world (r : CloudRun.request) (w : world) :
  snd (CloudRun.validate r w) = w.
Proof.
  symmetry. revert w. change (respects eq (CloudRun.validate r)). respects_tac.
Qed.

Section CloudRunCleanup.

Variable ext : externals.
Variable r : CloudRun.request.

Lemma cloud_run_prologue_ok (w w1 : world) :
  CloudRun.prologue r w = (Ok tt, w1) ->
  stat (CloudRun.temp_folder r) (fs w1) = None.
Proof.
  unfold CloudRun.prologue. rewrite bind_unfold.
  pose proof (validate_world r w) as Hw.
  destruct (CloudRun.validate r w) as [[[]|e] w0]; simpl in Hw; subst w0;
    [|discriminate].
  unfold CloudRun.remove_existing. rewrite bind_unfold.
  unfold echo at 1, log at 1. rewrite bind_unfold.
  unfold os_path_exists, bind, get_fs, ret at 1. cbn [fs].
  intros H. eapply (remove_if_exists_ok _ _ (World (fs w) _)). exact H.
Qed.




End CloudRunCleanup.


Section AgentEngineCleanup.

Variable ext : externals.
Variable r : AgentEngine.request.





End AgentEngineCleanup.

Lemma is_ok_true {A} (x : result A * world) :
  is_ok (fst x) = true -> exists a, x = (Ok a, snd x).
Proof. destruct x as [[a|e] w]; [eauto | discriminate]. Qed.

(** ** C1 *)



(** ** C2 *)

(** C2. When the wheel path does not exist, or does not end in [.whl], or the
    source directory is missing or is not a directory, [to_cloud_run] raises a
    [ClickException] whose message ends with the offending path, and the world
    is the one it started from: the tree is untouched (no temp folder created,
    none removed) and nothing was logged.  The two paths have no [..] step,
    which the file tree does not resolve. *)
Theorem invalid_inputs_rejected_before_mutation
    (ext : externals) (r : CloudRun.request) (w : world) :
  path_without_parent_steps (CloudRun.agent_whl_file r) = true ->
  path_without_parent_steps (CloudRun.agent_source_dir r) = true ->
  valid_inputs r (fs w) = false ->
  CloudRun.to_cloud_run ext r w
  = (Err (ClickException
            (if negb (exists_in (CloudRun.agent_whl_file r) (fs w))
             then "Agent wheel file not found: " +:+ CloudRun.agent_whl_file r
             else if negb (Py.endswith (CloudRun.agent_whl_file r) ".whl")
             then "Expected a .whl file, got: " +:+ CloudRun.agent_whl_file r
             else if negb (exists_in (CloudRun.agent_source_dir r) (fs w))
             then "Agent source directory not found: "
                  +:+ CloudRun.agent_source_dir r
             else "Agent source path is not a directory: "
                  +:+ CloudRun.agent_source_dir r)),
     w).
Proof.
  unfold valid_inputs. intros _ _ Hbad.
  unfold CloudRun.to_cloud_run, CloudRun.prologue, CloudRun.validate.
  unfold os_path_exists, os_path_isdir, get_fs.
  rewrite !bind_unfold. unfold ret at 1.
  destruct (exists_in (CloudRun.agent_whl_file r) (fs w)); [|reflexivity].
  cbn [negb when]. rewrite !bind_unfold. unfold ret at 1.
  destruct (Py.endswith (CloudRun.agent_whl_file r) ".whl"); [|reflexivity].
  cbn [negb when]. rewrite !bind_unfold. unfold ret at 1. rewrite !bind_unfold.
  unfold ret at 1.
  destruct (exists_in (CloudRun.agent_source_dir r) (fs w)); [|reflexivity].
  cbn [negb when]. rewrite !bind_unfold. unfold ret at 1. rewrite !bind_unfold.
  unfold ret at 1.
  destruct (isdir_in (CloudRun.agent_source_dir r) (fs w)); [discriminate|].
  reflexivity.
Qed.

Lemma invalid_inputs_rejected_before_mutation_witness :
  valid_inputs tarball_request tarball_tree = false
  /\ CloudRun.to_cloud_run sample_externals tarball_request (World tarball_tree [])
     = (Err (ClickException "Expected a .whl file, got: dist/agent.tar.gz"),
        World tarball_tree []).
Proof.
  split; [vm_compute; reflexivity|].
  etransitivity.
  - apply (invalid_inputs_rejected_before_mutation sample_externals
             tarball_request (World tarball_tree []));
      vm_compute; reflexivity.
  - reflexivity.
Defined.

(** * The rendered Dockerfile *)

Lemma bind_ext {A B} (m m' : M A) (k k' : A -> M B) (w : world) :
  m w = m' w -> (forall a w', k a w' = k' a w') -> bind m k w = bind m' k' w.
Proof.
  intros Hm Hk. rewrite !bind_unfold, Hm.
  destruct (m' w) as [[a|e] w']; [apply Hk | reflexivity].
Qed.

Lemma try_finally_ext {A} (body body' : M A) (cleanup cleanup' : M unit)
    (w : world) :
  body w = body' w -> (forall w', cleanup w' = cleanup' w') ->
  try_finally body cleanup w = try_finally body' cleanup' w.
Proof.
  intros Hb Hc. unfold try_finally. rewrite Hb.
  destruct (body' w) as [res w1]. now rewrite Hc.
Qed.

(** What the rendering step returns, when it returns. *)
Lemma render_dockerfile_result (r : CloudRun.request) (w : world) (d : string) :
  fst (CloudRun.render_dockerfile r w) = Ok d ->
  d = Py.join Py.newline
        (CloudRun.dockerfile_lines r (agent_deps_fragment r (fs w))
                                   (additional_deps_fragment r (fs w))).
Proof.
  unfold CloudRun.render_dockerfile, CloudRun.install_agent_deps,
    CloudRun.install_additional_deps, agent_deps_fragment,
    additional_deps_fragment, additional_given_and_exists.
  rewrite !bind_unfold.
  unfold os_path_exists at 1. rewrite bind_unfold. unfold get_fs at 1, ret at 1.
  rewrite echo_then. unfold ret at 1.
  rewrite !bind_unfold.
  destruct (Py.truthy (CloudRun.additional_requirements r)).
  - unfold os_path_exists at 1. rewrite bind_unfold. unfold get_fs at 1, ret at 1.
    cbn [fs andb].
    destruct (exists_in (Py.str_of_optional (CloudRun.additional_requirements r))
                        (fs w)).
    + rewrite echo_then. rewrite bind_unfold.
      destruct (shutil_copy2 _ _ _) as [[[]|e] w2]; [|discriminate].
      rewrite echo_then. unfold ret at 1. rewrite echo_then.
      unfold lift. rewrite dockerfile_content_lines. cbn [fst].
      intros H. now injection H as <-.
    + unfold ret at 1. rewrite echo_then.
      unfold lift. rewrite dockerfile_content_lines. cbn [fst].
      intros H. now injection H as <-.
  - unfold ret at 1. cbn [andb]. unfold ret at 1. rewrite echo_then.
    unfold lift. rewrite dockerfile_content_lines. cbn [fst].
    intros H. now injection H as <-.
Qed.

(** The Dockerfile is written with the text the rendering step returns. *)
Lemma create_dockerfile_writes (r : CloudRun.request) (w : world) :
  match CloudRun.render_dockerfile r w with
  | (Ok d, w1) =>
    exists evs,
      trace (snd (CloudRun.create_dockerfile r w))
      = trace w1 ++ WriteText (CloudRun.dockerfile_path r) d :: evs
      /\ Forall (fun e => match e with WriteText _ _ => False | _ => True end) evs
  | (Err e, w1) => CloudRun.create_dockerfile r w = (Err e, w1)
  end.
Proof.
  unfold CloudRun.create_dockerfile. rewrite bind_unfold.
  destruct (CloudRun.render_dockerfile r w) as [[d|e] w1]; [|reflexivity].
  unfold write_text, echo, log, bind, get_fs, set_fs, lift, ret.
  cbv beta iota. cbn [fs trace].
  destruct (create_file (CloudRun.dockerfile_path r) d (fs w1)) as [n'|e];
    cbv beta iota; cbn [snd trace].
  - eexists. split; [now rewrite <- app_assoc|]. repeat constructor.
  - exists []. split; [reflexivity | constructor].
Qed.

(** ** C7 *)

(** C7. Rendering the Dockerfile is a function of the request and of two
    conditions of the staged tree: formatting the template never fails, and
    two runs of the rendering step for the same request, on trees that agree
    on the presence of the agent's [requirements.txt] and of the additional
    requirements file, return the same text. *)
Theorem rendering_is_deterministic
    (r : CloudRun.request) (w1 w2 : world) (d1 d2 : string) :
  exists_in (CloudRun.requirements_txt_path r) (fs w1)
  = exists_in (CloudRun.requirements_txt_path r) (fs w2) ->
  additional_given_and_exists r (fs w1) = additional_given_and_exists r (fs w2) ->
  fst (CloudRun.render_dockerfile r w1) = Ok d1 ->
  fst (CloudRun.render_dockerfile r w2) = Ok d2 ->
  d1 = d2
  /\ forall a b, is_ok (CloudRun.dockerfile_content r a b) = true.
Proof.
  intros Hreq Hadd H1 H2.
  apply render_dockerfile_result in H1, H2. subst d1 d2.
  unfold agent_deps_fragment, additional_deps_fragment.
  rewrite Hreq, Hadd. split; [reflexivity|].
  intros a b. now rewrite dockerfile_content_lines.
Qed.

Lemma rendering_is_deterministic_witness :
  exists d,
    fst (CloudRun.render_dockerfile sample_request
           (World (Dir {[ "tmp" := Dir {[ "stage" := Dir ∅ ]} ]}) [])) = Ok d
    /\ fst (CloudRun.render_dockerfile sample_request
              (World (Dir {[ "other" := File "x" ]}) [Echo "earlier"])) = Ok d.
Proof.
  eexists. split; [vm_compute; reflexivity|].
  match goal with
  | |- fst ?run = Ok ?d =>
    destruct run as [[d2|e] w2] eqn:Hrun
  end.
  - cbn [fst]. f_equal. symmetry.
    refine (proj1 (rendering_is_deterministic sample_request
                     (World (Dir {[ "tmp" := Dir {[ "stage" := Dir ∅ ]} ]}) [])
                     (World (Dir {[ "other" := File "x" ]}) [Echo "earlier"])
                     _ d2 _ _ _ _)).
    + vm_compute; reflexivity.
    + vm_compute; reflexivity.
    + vm_compute; reflexivity.
    + now rewrite Hrun.
  - exfalso. revert Hrun. vm_compute. discriminate.
Defined.

(** ** C9 *)

Ltac same_request H r1 r2 :=
  let H' := fresh in
  pose proof H as H';
  destruct r1, r2; unfold same_but_storage_and_module in H'; cbn in H';
  destruct H' as (? & ? & ? & ? & ? & ? & ? & ? & ? & ? & ? & ? & ? & ?);
  subst; reflexivity.

Lemma render_dockerfile_same (r1 r2 : CloudRun.request) (w : world) :
  same_but_storage_and_module r1 r2 ->
  CloudRun.render_dockerfile r1 w = CloudRun.render_dockerfile r2 w.
Proof.
  intros Hsame.
  assert (Hlines : forall a b, CloudRun.dockerfile_lines r1 a b
                               = CloudRun.dockerfile_lines r2 a b).
  { intros a b. same_request Hsame r1 r2. }
  unfold CloudRun.render_dockerfile.
  apply bind_ext; [same_request Hsame r1 r2|]. intros a w1.
  apply bind_ext; [same_request Hsame r1 r2|]. intros b w2.
  apply bind_ext; [reflexivity|]. intros [] w3.
  unfold lift. now rewrite !dockerfile_content_lines, Hlines.
Qed.

(** C9. Two calls of [to_cloud_run] whose requests differ only in
    [artifact_storage_uri] and [agent_module] have the same outcome from every
    world: the same result, the same final tree and the same trace, which
    holds the text written to the Dockerfile and the arguments of the deploy
    command.  The template has no field for either value: the formatted text
    is the same whatever the install fragments. *)
Theorem storage_uri_and_module_unused
    (ext : externals) (r1 r2 : CloudRun.request) (w : world) :
  same_but_storage_and_module r1 r2 ->
  CloudRun.to_cloud_run ext r1 w = CloudRun.to_cloud_run ext r2 w
  /\ (forall a b, CloudRun.dockerfile_content r1 a b
                  = CloudRun.dockerfile_content r2 a b)
  /\ (forall project, CloudRun.deploy_args r1 project
                      = CloudRun.deploy_args r2 project).
Proof.
  intros Hsame. split; [|split].
  - unfold CloudRun.to_cloud_run.
    apply bind_ext; [same_request Hsame r1 r2|]. intros [] w1.
    apply try_finally_ext; [|intros w'; same_request Hsame r1 r2].
    apply bind_ext; [|intros [] w'; same_request Hsame r1 r2].
    unfold CloudRun.staging.
    apply bind_ext; [same_request Hsame r1 r2|]. intros [] w2.
    unfold CloudRun.create_dockerfile.
    apply bind_ext; [now apply render_dockerfile_same|].
    intros d w3. same_request Hsame r1 r2.
  - intros a b. rewrite !dockerfile_content_lines. f_equal. f_equal.
    same_request Hsame r1 r2.
  - intros p. same_request Hsame r1 r2.
Qed.

Lemma storage_uri_and_module_unused_witness :
  same_but_storage_and_module sample_request sample_request_with_storage
  /\ CloudRun.to_cloud_run sample_externals sample_request (World demo_tree [])
     = CloudRun.to_cloud_run sample_externals sample_request_with_storage
         (World demo_tree []).
Proof.
  assert (H : same_but_storage_and_module sample_request
                sample_request_with_storage) by (repeat split).
  split; [exact H|].
  exact (proj1 (storage_uri_and_module_unused sample_externals _ _
                  (World demo_tree []) H)).
Defined.

(** ** The install instructions among the lines *)

Lemma dependency_install_head (r : CloudRun.request) :
  List.filter dependency_install (CloudRun.dockerfile_head r) = [].
Proof. reflexivity. Qed.

Lemma dependency_install_middle :
  List.filter dependency_install CloudRun.dockerfile_middle = [].
Proof. reflexivity. Qed.

Lemma dependency_install_tail (r : CloudRun.request) :
  List.filter dependency_install (CloudRun.dockerfile_tail r) = [].
Proof. reflexivity. Qed.

Lemma startup_line_head (r : CloudRun.request) :
  List.filter startup_line (CloudRun.dockerfile_head r) = [].
Proof. reflexivity. Qed.

Lemma startup_line_tail (r : CloudRun.request) :
  List.filter startup_line (CloudRun.dockerfile_tail r) = [CloudRun.startup_command r].
Proof. reflexivity. Qed.

Lemma lines_agent_deps_fragment (r : CloudRun.request) (n : node) :
  Py.single_line (CloudRun.app_name r) = true ->
  Py.lines (agent_deps_fragment r n)
  = [if exists_in (CloudRun.requirements_txt_path r) n
     then CloudRun.agent_deps_instruction r else ""].
Proof.
  intros Happ. unfold agent_deps_fragment, Py.lines.
  destruct (exists_in _ n); [|reflexivity].
  apply split_no_sep, single_line_has_char.
  unfold CloudRun.agent_deps_instruction. single_line_tac.
Qed.

Lemma lines_additional_deps_fragment (r : CloudRun.request) (n : node) :
  Py.lines (additional_deps_fragment r n)
  = if additional_given_and_exists r n
    then ["COPY " +:+ dq +:+ "extra-requirements.txt" +:+ dq +:+ " " +:+ dq
          +:+ "/app/extra-requirements.txt" +:+ dq;
          additional_install_line]
    else [""].
Proof.
  unfold additional_deps_fragment.
  destruct (additional_given_and_exists r n); reflexivity.
Qed.

(** The lines of the text the rendering step returns. *)
Lemma rendered_lines (r : CloudRun.request) (w : world) (d : string) :
  CloudRun.single_line_fields r = true ->
  fst (CloudRun.render_dockerfile r w) = Ok d ->
  Py.lines d
  = CloudRun.dockerfile_head r
    ++ [if exists_in (CloudRun.requirements_txt_path r) (fs w)
        then CloudRun.agent_deps_instruction r else ""]
    ++ CloudRun.dockerfile_middle
    ++ (if additional_given_and_exists r (fs w)
        then ["COPY " +:+ dq +:+ "extra-requirements.txt" +:+ dq +:+ " " +:+ dq
              +:+ "/app/extra-requirements.txt" +:+ dq;
              additional_install_line]
        else [""])
    ++ CloudRun.dockerfile_tail r.
Proof.
  intros Hfields Hd. apply render_dockerfile_result in Hd. subst d.
  rewrite (lines_dockerfile r Hfields).
  destruct (single_line_fields_inv r Hfields) as (_ & _ & _ & Happ & _).
  now rewrite lines_agent_deps_fragment, lines_additional_deps_fragment.
Qed.

(** ** C5 *)

(** C5 (amended). For a request whose values that reach the Dockerfile (the
    project, the region, the wheel file name, the app name and the session
    database URL) hold no line feed, the install instructions among the lines
    of the rendered Dockerfile are: the one for
    [/app/agents/<app_name>/requirements.txt] exactly when that file exists in
    the staged tree, followed by the one for [/app/extra-requirements.txt]
    exactly when an additional requirements file was given and exists; and
    nothing else.  The two paths whose existence is tested have no [..] step,
    which the file tree does not resolve. *)
Theorem install_instructions_in_dockerfile
    (r : CloudRun.request) (w : world) (d : string) :
  CloudRun.single_line_fields r = true ->
  path_without_parent_steps (CloudRun.requirements_txt_path r) = true ->
  path_without_parent_steps
    (Py.str_of_optional (CloudRun.additional_requirements r)) = true ->
  fst (CloudRun.render_dockerfile r w) = Ok d ->
  List.filter dependency_install (Py.lines d)
  = (if exists_in (OsPath.join (CloudRun.temp_folder r)
                     ["agents"; CloudRun.app_name r; "requirements.txt"]) (fs w)
     then ["RUN pip install -r " +:+ dq +:+ "/app/agents/" +:+ CloudRun.app_name r
           +:+ "/requirements.txt" +:+ dq]
     else [])
    ++ (if additional_given_and_exists r (fs w)
        then ["RUN pip install -r " +:+ dq +:+ "/app/extra-requirements.txt"
              +:+ dq]
        else []).
Proof.
  intros Hfields _ _ Hd.
  rewrite (rendered_lines r w d Hfields Hd).
  rewrite !List.filter_app.
  rewrite dependency_install_head, dependency_install_middle,
    dependency_install_tail.
  change (OsPath.join (CloudRun.temp_folder r)
            ["agents"; CloudRun.app_name r; "requirements.txt"])
    with (CloudRun.requirements_txt_path r).
  destruct (exists_in (CloudRun.requirements_txt_path r) (fs w));
    destruct (additional_given_and_exists r (fs w)); reflexivity.
Qed.

Lemma install_instructions_in_dockerfile_witness :
  CloudRun.single_line_fields sample_request = true
  /\ exists d,
       fst (CloudRun.render_dockerfile sample_request
              (World (Dir {[ "tmp" := Dir {[ "stage" := Dir {[ "agents" :=
                 Dir {[ "myagent" := Dir {[ "requirements.txt" := File "requests"
                 ]} ]} ]} ]} ]}) [])) = Ok d
       /\ List.filter dependency_install (Py.lines d)
          = ["RUN pip install -r " +:+ dq
             +:+ "/app/agents/myagent/requirements.txt" +:+ dq].
Proof.
  split; [vm_compute; reflexivity|].
  eexists. split; [vm_compute; reflexivity|].
  etransitivity.
  - eapply (install_instructions_in_dockerfile sample_request
              (World (Dir {[ "tmp" := Dir {[ "stage" := Dir {[ "agents" :=
                 Dir {[ "myagent" := Dir {[ "requirements.txt" := File "requests"
                 ]} ]} ]} ]} ]}) [])); vm_compute; reflexivity.
  - vm_compute; reflexivity.
Defined.

(** C5 as stated fails: the region of [two_line_region_request] has a second
    line.  The request passes validation, the agent's [requirements.txt] is in
    the copied tree, and the Dockerfile the run writes holds the install
    instruction for it twice. *)
Lemma two_line_region_counterexample :
  let '(res, w) := run (CloudRun.to_cloud_run sample_externals
                          two_line_region_request) demo_tree in
  res = Ok tt
  /\ valid_inputs two_line_region_request demo_tree = true
  /\ exists_in (CloudRun.requirements_txt_path two_line_region_request)
       (fs (snd (run (CloudRun.prologue two_line_region_request ;;
                      CloudRun.copy_inputs two_line_region_request) demo_tree)))
     = true
  /\ exists d,
       written_to "/tmp/stage/Dockerfile" (trace w) = [d]
       /\ List.filter
            (String.eqb (CloudRun.agent_deps_instruction two_line_region_request))
            (Py.lines d)
          = ["RUN pip install -r " +:+ dq
             +:+ "/app/agents/myagent/requirements.txt" +:+ dq;
             "RUN pip install -r " +:+ dq
             +:+ "/app/agents/myagent/requirements.txt" +:+ dq].
Proof.
  vm_compute. split; [reflexivity|]. split; [reflexivity|].
  split; [reflexivity|].
  eexists. split; reflexivity.
Qed.

(** ** C8 *)

Lemma render_dockerfile_without_additional (r : CloudRun.request) (w : world) :
  CloudRun.additional_requirements r = None ->
  fst (CloudRun.render_dockerfile r w)
  = Ok (Py.join Py.newline
          (CloudRun.dockerfile_lines r (agent_deps_fragment r (fs w)) "")).
Proof.
  intros Hnone.
  unfold CloudRun.render_dockerfile, CloudRun.install_agent_deps,
    CloudRun.install_additional_deps, agent_deps_fragment.
  rewrite Hnone. cbn [Py.truthy].
  unfold os_path_exists, echo, log, bind, get_fs, ret, lift.
  cbv beta iota zeta. cbn [fs fst].
  now rewrite dockerfile_content_lines.
Qed.

(** C8 as stated fails.  [source_as_temp_request] has an existing wheel, an
    existing source directory that holds a [requirements.txt], app name
    [myagent], port 8080 and the UI off; its temp folder is the source
    directory.  The run removes the source directory with the temp folder,
    stages the wheel and a copy of the emptied directory, and deploys a
    Dockerfile that has no install instruction. *)
Lemma api_server_scenario_counterexample :
  let r := source_as_temp_request in
  let w := World demo_tree [] in
  valid_inputs r (fs w) = true
  /\ exists_in (OsPath.join (CloudRun.agent_source_dir r) ["requirements.txt"])
       (fs w) = true
  /\ CloudRun.app_name r = "myagent"
  /\ CloudRun.port r = 8080%Z
  /\ CloudRun.with_ui r = false
  /\ fst (CloudRun.to_cloud_run sample_externals r w) = Ok tt
  /\ exists d staged,
       (CloudRun.prologue r ;; CloudRun.staging r) w = (Ok tt, staged)
       /\ stat (CloudRun.dockerfile_path r) (fs staged) = Some (File d)
       /\ List.filter dependency_install (Py.lines d) = [].
Proof.
  cbv zeta. repeat (split; [vm_compute; reflexivity|]).
  eexists _, _. split; [vm_compute; reflexivity|].
  split; vm_compute; reflexivity.
Qed.

(** The rendering of the scenario on a staged tree that holds the agent's
    [requirements.txt]. *)
Lemma api_server_rendering (r : CloudRun.request) (w : world) :
  CloudRun.app_name r = "myagent" ->
  CloudRun.port r = 8080%Z ->
  CloudRun.with_ui r = false ->
  CloudRun.additional_requirements r = None ->
  CloudRun.single_line_fields r = true ->
  exists_in (CloudRun.requirements_txt_path r) (fs w) = true ->
  exists d,
    fst (CloudRun.render_dockerfile r w) = Ok d
    /\ List.filter startup_line (Py.lines d)
       = ["CMD adk api_server --port=8080 " +:+ CloudRun.host_option r +:+ " "
          +:+ (if Py.nonempty (CloudRun.session_db_url r)
               then "--session_db_url=" +:+ CloudRun.session_db_url r else "")
          +:+ " " +:+ (if CloudRun.trace_to_cloud r then "--trace_to_cloud" else "")
          +:+ " " +:+ dq +:+ "/app/agents" +:+ dq]
    /\ List.filter dependency_install (Py.lines d)
       = ["RUN pip install -r " +:+ dq
          +:+ "/app/agents/myagent/requirements.txt" +:+ dq].
Proof.
  intros Happ Hport Hui Hadd Hfields Hreq.
  pose proof (render_dockerfile_without_additional r w Hadd) as Hd.
  eexists. split; [exact Hd|].
  rewrite (rendered_lines r w _ Hfields Hd).
  assert (Hextra : additional_given_and_exists r (fs w) = false).
  { unfold additional_given_and_exists. now rewrite Hadd. }
  rewrite Hreq, Hextra. split.
  - rewrite !List.filter_app.
    rewrite startup_line_head, startup_line_tail.
    unfold CloudRun.startup_command. rewrite Hui, Hport. reflexivity.
  - rewrite !List.filter_app.
    rewrite dependency_install_head, dependency_install_middle,
      dependency_install_tail.
    unfold CloudRun.agent_deps_instruction. rewrite Happ. reflexivity.
Qed.

(** ** C3 *)

(** C3 as stated fails: ["0.4.9" > "0.5.0"] is false, character by character
    as by version numbers, so the host option of a request with ADK version
    [0.4.9] is empty and the Dockerfile the run writes does not mention
    [--host=0.0.0.0]. *)
Lemma version_0_4_9_counterexample :
  Py.gt "0.4.9" "0.5.0" = false
  /\ CloudRun.adk_version sample_request = "0.4.9"
  /\ CloudRun.host_option sample_request = ""
  /\ (let '(res, w) := run (CloudRun.to_cloud_run sample_externals sample_request)
                           demo_tree in
      res = Ok tt
      /\ exists d,
           written_to "/tmp/stage/Dockerfile" (trace w) = [d]
           /\ Py.contains d "--host=0.0.0.0" = false).
Proof.
  vm_compute. repeat split. eexists. split; reflexivity.
Qed.

(** C3 (amended). For the ADK version string ["0.4.9"] the comparison with
    ["0.5.0"] is false: the host option is the empty string, and the startup
    command of the rendered Dockerfile has nothing between the port and the
    session option. *)
Theorem version_0_4_9_omits_host_option (r : CloudRun.request) :
  CloudRun.adk_version r = "0.4.9" ->
  Py.gt (CloudRun.adk_version r) "0.5.0" = false
  /\ CloudRun.host_option r = ""
  /\ forall a b,
       CloudRun.dockerfile_content r a b
       = Ok (Py.join Py.newline
               (CloudRun.dockerfile_head r ++ a :: CloudRun.dockerfile_middle
                ++ b :: [ "# Install additional dependencies - End";
                          "";
                          "EXPOSE " +:+ Py.str_of_int (CloudRun.port r);
                          "";
                          "CMD adk "
                          +:+ (if CloudRun.with_ui r then "web" else "api_server")
                          +:+ " --port=" +:+ Py.str_of_int (CloudRun.port r)
                          +:+ "  "
                          +:+ (if Py.nonempty (CloudRun.session_db_url r)
                               then "--session_db_url="
                                    +:+ CloudRun.session_db_url r
                               else "")
                          +:+ " "
                          +:+ (if CloudRun.trace_to_cloud r
                               then "--trace_to_cloud" else "")
                          +:+ " " +:+ dq +:+ "/app/agents" +:+ dq;
                          "" ])).
Proof.
  intros Hv.
  assert (Hhost : CloudRun.host_option r = "").
  { unfold CloudRun.host_option. now rewrite Hv. }
  split; [now rewrite Hv|]. split; [exact Hhost|].
  intros a b. rewrite dockerfile_content_lines.
  unfold CloudRun.dockerfile_lines, CloudRun.dockerfile_tail,
    CloudRun.startup_command.
  rewrite Hhost. reflexivity.
Qed.

Lemma version_0_4_9_omits_host_option_witness :
  CloudRun.adk_version sample_request = "0.4.9"
  /\ CloudRun.host_option sample_request = "".
Proof.
  split; [reflexivity|].
  apply (version_0_4_9_omits_host_option sample_request). reflexivity.
Defined.

(** ** C6 *)

Lemma bind_ok_inv {A B} (m : M A) (k : A -> M B) (w w2 : world) (b : B) :
  bind m k w = (Ok b, w2) ->
  exists a w1, m w = (Ok a, w1) /\ k a w1 = (Ok b, w2).
Proof.
  rewrite bind_unfold. destruct (m w) as [[a|e] w1]; [eauto | discriminate].
Qed.

Lemma resolve_project_run (ext : externals) (project : option string) (w : world) :
  exists evs,
    trace (snd (_resolve_project ext project w)) = trace w ++ evs
    /\ List.filter is_deploy evs = []
    /\ fs (snd (_resolve_project ext project w)) = fs w
    /\ fst (_resolve_project ext project w) = resolved_project ext project (fs w).
Proof.
  unfold _resolve_project, resolved_project, configured_project, Py.truthy,
    Py.str_of_optional.
  assert (Hquery :
    exists evs,
      trace (snd (configured_project ext w)) = trace w ++ evs
      /\ List.filter is_deploy evs = []
      /\ fs (snd (configured_project ext w)) = fs w
      /\ fst (configured_project ext w)
         = match subprocess_outcome ext
                   ["gcloud"; "config"; "get-value"; "project"] (fs w) with
           | Ok stdout => Ok (Py.strip stdout)
           | Err e => Err e
           end).
  { unfold configured_project, subprocess_run, echo, log, bind, get_fs, lift, ret.
    cbv beta iota zeta. cbn [fs trace].
    destruct (subprocess_outcome ext _ (fs w)) as [stdout|e]; cbn [fst snd fs trace].
    - eexists. split; [now rewrite <- app_assoc|]. repeat split.
    - eexists. repeat split. }
  destruct project as [p|]; [|exact Hquery].
  destruct (Py.nonempty p); [|exact Hquery].
  exists []. unfold ret. cbn. rewrite app_nil_r. repeat split.
Qed.

Lemma cloud_run_deploy_run (ext : externals) (r : CloudRun.request) (w : world) :
  exists evs,
    trace (snd (CloudRun.deploy ext r w)) = trace w ++ evs
    /\ List.filter is_deploy evs
       = match resolved_project ext (CloudRun.project r) (fs w) with
         | Ok p => [Subprocess (CloudRun.deploy_args r p)]
         | Err _ => []
         end.
Proof.
  unfold CloudRun.deploy. 
  destruct (resolve_project_run ext (CloudRun.project r)
              (World (fs w) (trace w ++ [Echo "Deploying to Cloud Run..."])))
    as (evs & Ht & Hf & Hfs & Hres).
  rewrite echo_then, bind_unfold.
  destruct (_resolve_project ext (CloudRun.project r) _) as [[p|e] w1];
    cbn [fst snd fs trace] in *; rewrite <- Hres.
  - unfold subprocess_run, log, bind, get_fs, lift, ret.
    cbv beta iota zeta. cbn [fs trace].
    exists ([Echo "Deploying to Cloud Run..."] ++ evs
            ++ [Subprocess (CloudRun.deploy_args r p)]).
    split.
    + destruct (subprocess_outcome ext _ _); cbn [snd trace];
        rewrite Ht; now rewrite <- !app_assoc.
    + rewrite !List.filter_app, Hf. reflexivity.
  - exists ([Echo "Deploying to Cloud Run..."] ++ evs). split.
    + rewrite Ht. now rewrite <- !app_assoc.
    + rewrite !List.filter_app, Hf. reflexivity.
Qed.

Lemma filter_false_Forall {A} (f : A -> bool) (l : list A) :
  Forall (fun x => f x = false) l -> List.filter f l = [].
Proof.
  induction 1 as [|x l Hx _ IH]; [reflexivity|]. cbn. now rewrite Hx.
Qed.

Lemma cloud_run_staging_emits (r : CloudRun.request) :
  respects (emits (fun e => is_deploy e = false))
           (CloudRun.prologue r ;; CloudRun.staging r).
Proof. respects_tac. Qed.

(** C6 (amended). When staging succeeded, the run makes one [gcloud run
    deploy] invocation if the project is resolved (it was given, or the gcloud
    query for the configured project succeeds), and none if the query fails.
    The arguments are the service name, the temp folder as source, the
    resolved project, the region if one was given, the port, the verbosity and
    the label [created-by=adk]. *)
Theorem one_deploy_invocation
    (ext : externals) (r : CloudRun.request) (w : world) :
  is_ok (fst ((CloudRun.prologue r ;; CloudRun.staging r) w)) = true ->
  let staged := snd ((CloudRun.prologue r ;; CloudRun.staging r) w) in
  let w' := snd (CloudRun.to_cloud_run ext r w) in
  List.filter is_deploy (new_events w w')
  = match resolved_project ext (CloudRun.project r) (fs staged) with
    | Ok project =>
      [Subprocess
         (["gcloud"; "run"; "deploy"; CloudRun.service_name r;
           "--source"; CloudRun.temp_folder r;
           "--project"; project]
          ++ (if Py.truthy (CloudRun.region r)
              then ["--region"; Py.str_of_optional (CloudRun.region r)] else [])
          ++ ["--port"; Py.str_of_int (CloudRun.port r);
              "--verbosity"; CloudRun.verbosity r;
              "--labels"; "created-by=adk"])]
    | Err _ => []
    end.
Proof.
  intros Hok staged w'. subst staged w'.
  pose proof (cloud_run_staging_emits r w) as (evs0 & Ht0 & Hevs0).
  apply is_ok_true in Hok as [[] Hstaged].
  set (w2 := snd ((CloudRun.prologue r ;; CloudRun.staging r) w)) in *.
  apply bind_ok_inv in Hstaged as ([] & w1 & Hpro & Hst).
  unfold CloudRun.to_cloud_run. rewrite (bind_ok _ _ _ _ _ Hpro).
  rewrite try_finally_world. rewrite (bind_ok _ _ _ _ _ Hst).
  destruct (cloud_run_deploy_run ext r w2) as (evs & Ht & Hf).
  unfold new_events, CloudRun.cleanup.
  rewrite echo_then, rmtree_trace. cbn [trace].
  rewrite Ht, Ht0, <- !app_assoc, drop_app_length.
  rewrite !List.filter_app, Hf, (filter_false_Forall _ _ Hevs0).
  cbn [List.filter is_deploy app]. rewrite app_nil_r.
  reflexivity.
Qed.

Lemma one_deploy_invocation_witness :
  is_ok (fst ((CloudRun.prologue sample_request ;; CloudRun.staging sample_request)
                (World stale_tree []))) = true
  /\ List.filter is_deploy
       (new_events (World stale_tree [])
          (snd (CloudRun.to_cloud_run sample_externals sample_request
                  (World stale_tree []))))
     = [Subprocess ["gcloud"; "run"; "deploy"; "svc"; "--source"; "/tmp/stage";
                    "--project"; "my-project"; "--region"; "us-central1";
                    "--port"; "8080"; "--verbosity"; "info";
                    "--labels"; "created-by=adk"]].
Proof.
  split; [vm_compute; reflexivity|].
  etransitivity.
  - apply (one_deploy_invocation sample_externals sample_request
             (World stale_tree [])).
    vm_compute; reflexivity.
  - vm_compute; reflexivity.
Defined.

(** C6 as stated fails: no project is given and the gcloud program is
    missing, so the query for the configured project raises.  Staging
    succeeded (the Dockerfile was written), and the run made no [gcloud run
    deploy] invocation. *)
Lemma no_deploy_without_project_counterexample :
  CloudRun.project sample_request = None
  /\ is_ok (fst (run (CloudRun.prologue sample_request ;;
                      CloudRun.staging sample_request) demo_tree)) = true
  /\ (let '(res, w) := run (CloudRun.to_cloud_run no_gcloud_externals
                              sample_request) demo_tree in
      res = Err (FileNotFoundError "gcloud")
      /\ List.length (written_to "/tmp/stage/Dockerfile" (trace w)) = 1
      /\ List.filter is_deploy (trace w) = []
      /\ List.filter (fun e => match e with Subprocess _ => true | _ => false end)
                     (trace w)
         = [Subprocess ["gcloud"; "config"; "get-value"; "project"]]).
Proof. vm_compute. repeat split. Qed.

(** * Paths below a directory *)

Lemma endswith_slash (s : string) :
  Py.endswith s "/" = true -> exists t, s = t +:+ "/".
Proof.
  unfold Py.endswith. cbn [String.length].
  induction s as [|a s IH]; [discriminate|].
  cbn [String.length]. intros H.
  destruct s as [|b s].
  - cbn in H. destruct (Ascii.eqb_spec a "/"); [|discriminate].
    subst. now exists "".
  - cbn [String.length] in *.
    replace (S (S (String.length s)) - 1) with (S (String.length s)) in H by lia.
    replace (S (String.length s) - 1) with (String.length s) in IH by lia.
    cbn [Nat.leb substring] in H. cbn [Nat.leb] in IH.
    destruct (IH H) as [t Ht]. exists (String a t). cbn. now rewrite Ht.
Qed.

Lemma filter_components_app (l1 l2 : list string) :
  List.filter (fun c => negb (c =? "") && negb (c =? ".")) (l1 ++ l2)
  = List.filter (fun c => negb (c =? "") && negb (c =? ".")) l1
    ++ List.filter (fun c => negb (c =? "") && negb (c =? ".")) l2.
Proof. apply List.filter_app. Qed.

Lemma app_nonempty (s t : string) : t <> "" -> s +:+ t <> "".
Proof. destruct s; [easy | discriminate]. Qed.

(** A plain name joined to a directory path names an entry of that
    directory. *)
Lemma components_join_name (dir name : string) (p : list string) :
  OsPath.components dir = Some p ->
  Py.has_char "/" name = false -> name <> "" -> name <> "." ->
  OsPath.components (OsPath.join dir [name]) = Some (p ++ [name]).
Proof.
  intros Hdir Hslash Hne Hdot.
  assert (Hstart : Py.startswith name "/" = false).
  { destruct name as [|c name]; [congruence|].
    change (Py.startswith (String c name) "/")
      with (Ascii.eqb "/" c && Py.startswith name "").
    cbn [Py.has_char] in Hslash.
    apply orb_false_iff in Hslash as [Hc _].
    now rewrite Ascii.eqb_sym, Hc. }
  assert (Hname : List.filter (fun c => negb (c =? "") && negb (c =? "."))
                              (Py.split "/" name) = [name]).
  { rewrite (split_no_sep _ _ Hslash). cbn.
    destruct (String.eqb_spec name ""); [congruence|].
    destruct (String.eqb_spec name "."); [congruence|]. reflexivity. }
  unfold OsPath.components in *.
  destruct (String.eqb_spec dir "") as [|Hdne]; [discriminate|].
  injection Hdir as <-.
  unfold OsPath.join, OsPath.join2. cbn [fold_left]. rewrite Hstart.
  destruct (String.eqb_spec dir ""); [congruence|]. cbn [orb].
  destruct (Py.endswith dir "/") eqn:Hend.
  - destruct (endswith_slash _ Hend) as [t ->].
    rewrite append_assoc.
    destruct (String.eqb_spec (t +:+ "/" +:+ name) "") as [Hbad|_].
    { exfalso. revert Hbad. apply app_nonempty. discriminate. }
    f_equal.
    change ("/" +:+ name) with (String "/" name).
    change (t +:+ "/") with (t +:+ String "/" "").
    rewrite !split_app_sep, !filter_components_app, Hname.
    cbn. now rewrite app_nil_r.
  - destruct (String.eqb_spec (dir +:+ "/" +:+ name) "") as [Hbad|_].
    { exfalso. revert Hbad. apply app_nonempty. discriminate. }
    f_equal.
    change ("/" +:+ name) with (String "/" name).
    now rewrite split_app_sep, filter_components_app, Hname.
Qed.

(** The last component of a path joined with a plain name is that name. *)
Lemma last_split_join (dir name : string) :
  Py.has_char "/" name = false ->
  List.last (Py.split "/" (OsPath.join dir [name])) "" = name.
Proof.
  intros Hslash.
  assert (Hstart : Py.startswith name "/" = false).
  { destruct name as [|c name]; [reflexivity|].
    cbn [Py.has_char] in Hslash. apply orb_false_iff in Hslash as [Hc _].
    change (Py.startswith (String c name) "/")
      with (Ascii.eqb "/" c && Py.startswith name "").
    now rewrite Ascii.eqb_sym, Hc. }
  unfold OsPath.join, OsPath.join2. cbn [fold_left]. rewrite Hstart.
  destruct (String.eqb_spec dir "") as [->|Hdne]; cbn [orb].
  - cbn. now rewrite (split_no_sep _ _ Hslash).
  - destruct (Py.endswith dir "/") eqn:Hend.
    + destruct (endswith_slash _ Hend) as [t ->].
      rewrite append_assoc.
      change ("/" +:+ name) with (String "/" name).
      rewrite split_app_sep, (split_no_sep _ _ Hslash).
      apply List.last_last.
    + change ("/" +:+ name) with (String "/" name).
      rewrite split_app_sep, (split_no_sep _ _ Hslash).
      apply List.last_last.
Qed.

Lemma names_directory_join (dir name : string) :
  Py.has_char "/" name = false -> name <> "" -> name <> "." ->
  OsPath.names_directory (OsPath.join dir [name]) = false.
Proof.
  intros Hslash Hne Hdot. unfold OsPath.names_directory.
  rewrite (last_split_join _ _ Hslash).
  destruct (String.eqb_spec name ""); [congruence|].
  destruct (String.eqb_spec name "."); [congruence|]. reflexivity.
Qed.

(** Creating a file with a plain name in an existing directory succeeds. *)
Lemma create_file_in_dir (dir name data : string) (n : node) :
  isdir_in dir n = true ->
  Py.has_char "/" name = false -> name <> "" -> name <> "." ->
  exists_in (OsPath.join dir [name]) n = false ->
  exists n',
    create_file (OsPath.join dir [name]) data n = Ok n'
    /\ stat (OsPath.join dir [name]) n' = Some (File data).
Proof.
  intros Hdir Hslash Hne Hdot Hnew.
  unfold isdir_in in Hdir.
  destruct (OsPath.components dir) as [p|] eqn:Hp;
    [|unfold stat in Hdir; rewrite Hp in Hdir; discriminate].
  rewrite (stat_is_dir _ _ _ Hp) in Hdir.
  pose proof (components_join_name dir name p Hp Hslash Hne Hdot) as Hq.
  pose proof (names_directory_join dir name Hslash Hne Hdot) as Hnd.
  apply exists_in_stat in Hnew. rewrite (stat_plain _ _ _ Hq Hnd) in Hnew.
  unfold create_file. rewrite Hq, Hnew, Hnd.
  assert (exists n', Tree.put (p ++ [name]) (File data) n = Some n') as [n' Hput].
  { clear Hnew Hp Hq. revert n Hdir.
    induction p as [|c p IH]; intros n Hdir.
    - destruct n as [d|m]; [discriminate Hdir|]. cbn. eauto.
    - destruct n as [d|m]; [discriminate Hdir|].
      change (Tree.lookup (c :: p) (Dir m))
        with (match m !! c with
              | Some n' => Tree.lookup p n'
              | None => None
              end) in Hdir.
      destruct (m !! c) as [n0|] eqn:Hc; [|discriminate Hdir].
      destruct (IH n0 Hdir) as [n0' Hput0].
      change ((c :: p) ++ [name]) with (c :: (p ++ [name])).
      destruct (p ++ [name]) as [|c' q] eqn:Hq.
      { destruct p; discriminate. }
      rewrite put_cons2, Hc, Hput0. eauto. }
  exists n'. rewrite Hput. split; [reflexivity|].
  rewrite (stat_plain _ _ _ Hq Hnd).
  apply (lookup_put _ _ _ _ Hput).
Qed.

(** ** C4 *)

Lemma resolve_requirements_value (r : AgentEngine.request) (w w' : world)
    (path : string) :
  AgentEngine.resolve_requirements r w = (Ok path, w') ->
  path = resolved_requirements_path r.
Proof.
  unfold AgentEngine.resolve_requirements, resolved_requirements_path,
    AgentEngine.requirements_txt_path.
  destruct (Py.truthy (AgentEngine.requirements_file r)).
  - unfold ret. intros H. now injection H as <-.
  - intros H. apply bind_ok_inv in H as (b & w1 & _ & H).
    apply bind_ok_inv in H as ([] & w2 & _ & H).
    unfold ret in H. now injection H as <-.
Qed.

Lemma to_agent_engine_creates (ext : externals) (r : AgentEngine.request) :
  respects (emits (creates_with (resolved_requirements_path r)))
           (AgentEngine.to_agent_engine ext r).
Proof.
  unfold AgentEngine.to_agent_engine.
  apply (respects_bind _); [respects_tac|intros []].
  apply (respects_try_finally _); [|respects_tac].
  apply (respects_bind _); [respects_tac|intros []].
  unfold AgentEngine.after_copy.
  apply (respects_bind _); [respects_tac|intros []].
  apply (respects_bind _); [respects_tac|intros []].
  apply (respects_bind_value _ _ _ (fun a => a = resolved_requirements_path r)).
  - respects_tac.
  - intros w a w'. apply resolve_requirements_value.
  - intros a ->. respects_tac.
Qed.

(** C4 (amended). The dependency manifest of [to_agent_engine] is, in this
    order: the [requirements_file] given explicitly; else the
    [requirements.txt] found in the staged tree, used as it is; else a
    [requirements.txt] generated in the staged tree, naming
    [google-cloud-aiplatform[adk,agent_engines]].  Every call of
    [agent_engines.create] in a run gets the path resolved this way. *)
Theorem requirements_resolution_order
    (ext : externals) (r : AgentEngine.request) (w : world) :
  let path := OsPath.join (AgentEngine.temp_folder r) ["requirements.txt"] in
  let res := AgentEngine.resolve_requirements r w in
  (Py.truthy (AgentEngine.requirements_file r) = true ->
   res = (Ok (Py.str_of_optional (AgentEngine.requirements_file r)), w))
  /\ (Py.truthy (AgentEngine.requirements_file r) = false ->
      exists_in path (fs w) = true ->
      res = (Ok path, w))
  /\ (Py.truthy (AgentEngine.requirements_file r) = false ->
      exists_in path (fs w) = false ->
      isdir_in (AgentEngine.temp_folder r) (fs w) = true ->
      fst res = Ok path
      /\ stat path (fs (snd res))
         = Some (File "google-cloud-aiplatform[adk,agent_engines]")
      /\ written_to path (new_events w (snd res))
         = ["google-cloud-aiplatform[adk,agent_engines]"])
  /\ Forall (creates_with (resolved_requirements_path r))
            (new_events w (snd (AgentEngine.to_agent_engine ext r w))).
Proof.
  intros path res. subst path res.
  unfold AgentEngine.resolve_requirements, AgentEngine.requirements_txt_path.
  split; [|split; [|split]].
  - intros ->. reflexivity.
  - intros -> Hex.
    unfold os_path_exists, bind, get_fs, ret. cbv beta iota. cbn [fs].
    rewrite Hex. reflexivity.
  - intros -> Hex Hdir.
    destruct (create_file_in_dir (AgentEngine.temp_folder r) "requirements.txt"
                AgentEngine.default_requirements (fs w) Hdir)
      as (n' & Hcreate & Hstat); try easy.
    unfold os_path_exists, write_text, echo, log, bind, get_fs, set_fs, lift, ret.
    cbv beta iota. cbn [fs trace]. rewrite Hex. cbn [negb when].
    unfold echo, log, bind, get_fs, set_fs, lift, ret, write_text.
    cbv beta iota. cbn [fs trace].
    change "google-cloud-aiplatform[adk,agent_engines]"
      with AgentEngine.default_requirements.
    rewrite Hcreate. cbv beta iota. cbn [fst snd fs trace].
    split; [reflexivity|]. split; [exact Hstat|].
    unfold new_events. cbn [trace]. rewrite <- !app_assoc, drop_app_length.
    unfold written_to. cbn [omap list_omap app]. rewrite String.eqb_refl.
    reflexivity.
  - apply (emits_new_events _ _ _ (to_agent_engine_creates ext r w)).
Qed.

Lemma requirements_resolution_order_witness :
  let staged :=
    snd (run (AgentEngine.remove_existing sample_engine_request ;;
              AgentEngine.copy_source sample_engine_request) demo_tree) in
  exists_in "/tmp/engine/requirements.txt" (fs staged) = true
  /\ AgentEngine.resolve_requirements sample_engine_request staged
     = (Ok "/tmp/engine/requirements.txt", staged)
  /\ stat "/tmp/engine/requirements.txt" (fs staged) = Some (File "requests").
Proof.
  intros staged.
  assert (Hex : exists_in "/tmp/engine/requirements.txt" (fs staged) = true)
    by (vm_compute; reflexivity).
  split; [exact Hex|]. split; [|vm_compute; reflexivity].
  apply (proj1 (proj2 (requirements_resolution_order sample_externals
                         sample_engine_request staged))).
  - reflexivity.
  - exact Hex.
Defined.

(** C4 as stated fails: no [requirements_file] is given and the agent folder
    has a [requirements.txt].  The manifest handed to [agent_engines.create]
    is the staged file with its own content; no default is generated. *)
Lemma staged_requirements_counterexample :
  let staged :=
    snd (run (AgentEngine.remove_existing sample_engine_request ;;
              AgentEngine.copy_source sample_engine_request) demo_tree) in
  let '(path, resolved) :=
    AgentEngine.resolve_requirements sample_engine_request staged in
  AgentEngine.requirements_file sample_engine_request = None
  /\ path = Ok "/tmp/engine/requirements.txt"
  /\ stat "/tmp/engine/requirements.txt" (fs resolved) = Some (File "requests")
  /\ "requests" <> AgentEngine.default_requirements
  /\ (let '(res, w) := run (AgentEngine.to_agent_engine sample_externals
                              sample_engine_request) demo_tree in
      res = Ok tt
      /\ written_to "/tmp/engine/requirements.txt" (trace w) = []
      /\ In (AgentEnginesCreate "/tmp/engine/requirements.txt" None
                                ["/tmp/engine"]) (trace w)).
Proof.
  vm_compute. repeat split; try discriminate. tauto.
Qed.

(** ** C10 *)









(** * Further properties of [to_cloud_run] *)

(** ** The host option *)

(** X1. The host option is decided by comparing the version strings character
    by character.  A version that starts with [0.1], such as [0.10.0] or
    [0.19.3], gets no host option although it is later than [0.5.0]; [0.5.0]
    itself gets none; a longer string that starts with [0.5.0] gets it. *)
Theorem host_option_by_characters (r : CloudRun.request) (rest : string) :
  (CloudRun.adk_version r = "0.1" +:+ rest -> CloudRun.host_option r = "")
  /\ (CloudRun.adk_version r = "0.5.0" -> CloudRun.host_option r = "")
  /\ (CloudRun.adk_version r = "0.5.0" +:+ rest -> rest <> "" ->
      CloudRun.host_option r = "--host=0.0.0.0").
Proof.
  unfold CloudRun.host_option, Py.gt, String.ltb.
  split; [|split].
  - intros ->. reflexivity.
  - intros ->. reflexivity.
  - intros -> Hrest. destruct rest as [|c rest]; [congruence|]. reflexivity.
Qed.

Lemma host_option_by_characters_witness :
  CloudRun.host_option
    {| CloudRun.agent_whl_file := "dist/agent.whl";
       CloudRun.agent_source_dir := "src";
       CloudRun.project := None;
       CloudRun.region := None;
       CloudRun.service_name := "svc";
       CloudRun.app_name := "myagent";
       CloudRun.temp_folder := "/tmp/stage";
       CloudRun.port := 8080;
       CloudRun.trace_to_cloud := false;
       CloudRun.with_ui := false;
       CloudRun.verbosity := "info";
       CloudRun.session_db_url := "";
       CloudRun.artifact_storage_uri := None;
       CloudRun.adk_version := "0.10.0";
       CloudRun.agent_module := None;
       CloudRun.additional_requirements := None |} = "".
Proof.
  eapply (proj1 (host_option_by_characters _ "0.0")). reflexivity.
Defined.

(** ** Lines of the Dockerfile for every request *)

Lemma cloud_env_line_head (r : CloudRun.request) :
  List.filter cloud_env_line (CloudRun.dockerfile_head r)
  = [ "ENV GOOGLE_CLOUD_PROJECT=" +:+ Py.str_of_optional (CloudRun.project r);
      "ENV GOOGLE_CLOUD_LOCATION=" +:+ Py.str_of_optional (CloudRun.region r) ].
Proof. reflexivity. Qed.

Lemma cloud_env_line_tail (r : CloudRun.request) :
  List.filter cloud_env_line (CloudRun.dockerfile_tail r) = [].
Proof. reflexivity. Qed.

(** X2. The Dockerfile gets the project and the region as they were passed,
    before any project is resolved: when none is given, the variable is set to
    the text [None], whatever project the deploy command then uses. *)
Theorem env_lines_use_options_as_given
    (r : CloudRun.request) (w : world) (d : string) :
  CloudRun.single_line_fields r = true ->
  fst (CloudRun.render_dockerfile r w) = Ok d ->
  List.filter cloud_env_line (Py.lines d)
  = [ "ENV GOOGLE_CLOUD_PROJECT="
      +:+ match CloudRun.project r with Some p => p | None => "None" end;
      "ENV GOOGLE_CLOUD_LOCATION="
      +:+ match CloudRun.region r with Some l => l | None => "None" end ].
Proof.
  intros Hfields Hd.
  rewrite (rendered_lines r w d Hfields Hd).
  rewrite !List.filter_app, cloud_env_line_head, cloud_env_line_tail.
  destruct (exists_in (CloudRun.requirements_txt_path r) (fs w));
    destruct (additional_given_and_exists r (fs w)); reflexivity.
Qed.

Lemma env_lines_use_options_as_given_witness :
  exists d,
    fst (CloudRun.render_dockerfile sample_request (World demo_tree [])) = Ok d
    /\ List.filter cloud_env_line (Py.lines d)
       = [ "ENV GOOGLE_CLOUD_PROJECT=None";
           "ENV GOOGLE_CLOUD_LOCATION=us-central1" ].
Proof.
  eexists. split; [vm_compute; reflexivity|].
  apply (env_lines_use_options_as_given sample_request (World demo_tree []));
    vm_compute; reflexivity.
Defined.

Lemma startup_line_fragments (r : CloudRun.request) (n : node) :
  List.filter startup_line
    ([if exists_in (CloudRun.requirements_txt_path r) n
      then CloudRun.agent_deps_instruction r else ""]
     ++ CloudRun.dockerfile_middle
     ++ (if additional_given_and_exists r n
         then ["COPY " +:+ dq +:+ "extra-requirements.txt" +:+ dq +:+ " " +:+ dq
               +:+ "/app/extra-requirements.txt" +:+ dq;
               additional_install_line]
         else [""])) = [].
Proof.
  destruct (exists_in (CloudRun.requirements_txt_path r) n);
    destruct (additional_given_and_exists r n); reflexivity.
Qed.

(** X3. For every request with single-line values, the Dockerfile has one
    startup line.  It runs [adk web] with the UI and [adk api_server] without,
    on the given port, with the host option when the version compares greater
    than [0.5.0], the session option when the URL is not empty and the trace
    option when tracing is on; the artifact storage URI is not part of it. *)
Theorem startup_command_of_request
    (r : CloudRun.request) (w : world) (d : string) :
  CloudRun.single_line_fields r = true ->
  fst (CloudRun.render_dockerfile r w) = Ok d ->
  List.filter startup_line (Py.lines d)
  = [ "CMD adk " +:+ (if CloudRun.with_ui r then "web" else "api_server")
      +:+ " --port=" +:+ Py.str_of_int (CloudRun.port r)
      +:+ " " +:+ (if Py.gt (CloudRun.adk_version r) "0.5.0"
                   then "--host=0.0.0.0" else "")
      +:+ " " +:+ (if Py.nonempty (CloudRun.session_db_url r)
                   then "--session_db_url=" +:+ CloudRun.session_db_url r else "")
      +:+ " " +:+ (if CloudRun.trace_to_cloud r then "--trace_to_cloud" else "")
      +:+ " " +:+ dq +:+ "/app/agents" +:+ dq ].
Proof.
  intros Hfields Hd.
  rewrite (rendered_lines r w d Hfields Hd).
  rewrite List.filter_app, startup_line_head.
  rewrite !app_assoc, List.filter_app, <- !app_assoc.
  rewrite startup_line_fragments, startup_line_tail.
  reflexivity.
Qed.

Lemma startup_command_of_request_witness :
  exists d,
    fst (CloudRun.render_dockerfile sample_request (World demo_tree [])) = Ok d
    /\ List.filter startup_line (Py.lines d)
       = [ "CMD adk api_server --port=8080    " +:+ dq +:+ "/app/agents" +:+ dq ].
Proof.
  eexists. split; [vm_compute; reflexivity|].
  apply (startup_command_of_request sample_request (World demo_tree []));
    vm_compute; reflexivity.
Defined.

(** ** Staging and the external command *)

Lemma cloud_run_prologue_quiet (r : CloudRun.request) :
  respects (emits (fun e => is_subprocess e || is_write e = false))
           (CloudRun.prologue r).
Proof. respects_tac. Qed.

Lemma cloud_run_copy_inputs_quiet (r : CloudRun.request) :
  respects (emits (fun e => is_subprocess e || is_write e = false))
           (CloudRun.copy_inputs r).
Proof. respects_tac. Qed.

Lemma cloud_run_staging_quiet (r : CloudRun.request) :
  respects (emits (fun e => is_subprocess e = false)) (CloudRun.staging r).
Proof. respects_tac. Qed.

Lemma cloud_run_cleanup_quiet (r : CloudRun.request) :
  respects (emits (fun e => is_subprocess e || is_write e = false))
           (CloudRun.cleanup r).
Proof. respects_tac. Qed.

Lemma emits_weaken (P Q : event -> Prop) (w w' : world) :
  (forall e, P e -> Q e) -> emits P w w' -> emits Q w w'.
Proof.
  intros HPQ (evs & Ht & HP). exists evs. split; [exact Ht|].
  eapply Forall_impl; eassumption.
Qed.

Lemma try_finally_err {A} (body : M A) (cleanup : M unit) (w w1 : world) (e : exn) :
  body w = (Err e, w1) ->
  exists e', fst (try_finally body cleanup w) = Err e'.
Proof.
  intros Hb. unfold try_finally. rewrite Hb.
  destruct (cleanup w1) as [[[]|e2] w2]; cbn [fst]; eauto.
Qed.

(** X4. Unless staging succeeded, [to_cloud_run] starts no process at all,
    neither the project query nor the deploy command, and the call fails. *)
Theorem no_process_unless_staged
    (ext : externals) (r : CloudRun.request) (w : world) :
  is_ok (fst ((CloudRun.prologue r ;; CloudRun.staging r) w)) = false ->
  List.filter is_subprocess
    (new_events w (snd (CloudRun.to_cloud_run ext r w))) = []
  /\ is_ok (fst (CloudRun.to_cloud_run ext r w)) = false.
Proof.
  intros Hfail.
  unfold CloudRun.to_cloud_run.
  rewrite bind_unfold in Hfail. rewrite bind_unfold.
  pose proof (cloud_run_prologue_quiet r w) as Hpro.
  destruct (CloudRun.prologue r w) as [[[]|e] w1]; cbn [fst snd] in *.
  - pose proof (cloud_run_staging_quiet r w1) as Hst.
    destruct (CloudRun.staging r w1) as [[[]|e] w2] eqn:Hstaging;
      cbn [fst snd] in *; [discriminate|].
    assert (Hbody : (CloudRun.staging r ;; CloudRun.deploy ext r) w1
                    = (Err e, w2)) by (now apply bind_err).
    split.
    + rewrite try_finally_world, Hbody. cbn [snd].
      pose proof (cloud_run_cleanup_quiet r w2) as Hcl.
      apply (emits_weaken _ (fun e => is_subprocess e = false)) in Hpro;
        [|intros ? H; now apply orb_false_iff in H].
      apply (emits_weaken _ (fun e => is_subprocess e = false)) in Hcl;
        [|intros ? H; now apply orb_false_iff in H].
      assert (Hall : emits (fun e => is_subprocess e = false) w
                           (snd (CloudRun.cleanup r w2))).
      { etransitivity; [exact Hpro|]. etransitivity; eassumption. }
      apply emits_new_events in Hall as [_ Hall].
      now apply filter_false_Forall.
    + destruct (try_finally_err _ (CloudRun.cleanup r) _ _ _ Hbody) as [e' ->].
      reflexivity.
  - split; [|reflexivity].
    apply (emits_weaken _ (fun e => is_subprocess e = false)) in Hpro;
      [|intros ? H; now apply orb_false_iff in H].
    apply emits_new_events in Hpro as [_ Hpro].
    now apply filter_false_Forall.
Qed.

Lemma no_process_unless_staged_witness :
  let tree := Dir {[ "dist" := Dir {[ "agent.whl" := Dir ∅ ]};
                     "src" := Dir ∅ ]} in
  valid_inputs sample_request tree = true
  /\ List.filter is_subprocess
       (trace (snd (CloudRun.to_cloud_run sample_externals sample_request
                      (World tree [])))) = []
  /\ fst (CloudRun.to_cloud_run sample_externals sample_request (World tree []))
     = Err (IsADirectoryError "dist/agent.whl").
Proof.
  intros tree. split; [vm_compute; reflexivity|].
  split; [|vm_compute; reflexivity].
  apply (proj1 (no_process_unless_staged sample_externals sample_request
                  (World tree []) ltac:(vm_compute; reflexivity))).
Defined.






(** Where [stat] finds nothing, [rmtree] fails and changes nothing. *)
Lemma rmtree_nothing_run (path : string) (w : world) :
  stat path (fs w) = None ->
  exists e',
    shutil_rmtree path w
    = (Err e', {| fs := fs w; trace := trace w ++ [Rmtree path] |}).
Proof.
  intros Hnone.
  unfold shutil_rmtree, log, bind, get_fs, set_fs, raise.
  cbv beta iota. cbn [fs trace].
  destruct (OsPath.components path) as [p|] eqn:Hp; [|eauto].
  destruct (Tree.lookup p (fs w)) as [[d|m]|] eqn:Hl; [eauto| |eauto].
  now rewrite (stat_dir _ _ _ _ Hp Hl) in Hnone.
Qed.

(** X6. When the temp folder cannot be created, the caller does not get the
    error of [os.makedirs] itself: the cleanup finds no temp folder either,
    and the exception it raises carries the [os.makedirs] error as context.
    Nothing else was attempted and the tree is as the prologue left it. *)
Theorem makedirs_failure_is_masked
    (ext : externals) (r : CloudRun.request) (w : world) (e : exn) :
  cloud_run_staging_begins r w = true ->
  let w1 := snd (CloudRun.prologue r w) in
  makedirs_in (CloudRun.temp_folder r) true (fs w1) = Err e ->
  exists e',
    CloudRun.to_cloud_run ext r w
    = (Err (WithContext e' e),
       {| fs := fs w1;
          trace := trace w1
                   ++ [ Makedirs (CloudRun.temp_folder r);
                        Echo ("Cleaning up the temp folder: "
                              +:+ CloudRun.temp_folder r);
                        Rmtree (CloudRun.temp_folder r) ] |}).
Proof.
  intros Hb w1 Hmk. subst w1.
  apply is_ok_true in Hb as [[] Hpro].
  set (w1 := snd (CloudRun.prologue r w)) in *.
  pose proof (cloud_run_prologue_ok r _ _ Hpro) as Hnone.
  assert (Hbody :
    (CloudRun.staging r ;; CloudRun.deploy ext r) w1
    = (Err e, {| fs := fs w1;
                 trace := trace w1 ++ [Makedirs (CloudRun.temp_folder r)] |})).
  { unfold CloudRun.staging, CloudRun.copy_inputs. rewrite !bind_assoc.
    apply bind_err.
    unfold os_makedirs, log, bind, get_fs, lift, set_fs.
    cbv beta iota. cbn [fs trace]. now rewrite Hmk. }
  destruct (rmtree_nothing_run (CloudRun.temp_folder r)
              {| fs := fs w1;
                 trace := (trace w1 ++ [Makedirs (CloudRun.temp_folder r)])
                          ++ [Echo ("Cleaning up the temp folder: "
                                    +:+ CloudRun.temp_folder r)] |} Hnone)
    as [e' Hrm].
  exists e'.
  unfold CloudRun.to_cloud_run. rewrite (bind_ok _ _ _ _ _ Hpro).
  unfold try_finally. rewrite Hbody.
  unfold CloudRun.cleanup. rewrite echo_then. cbn [fs trace].
  rewrite Hrm. cbn [fs trace]. now rewrite <- !app_assoc.
Qed.

Lemma makedirs_failure_is_masked_witness :
  let tree := Dir {[ "dist" := Dir {[ "agent.whl" := File "wheel-bytes" ]};
                     "src" := Dir ∅;
                     "tmp" := File "a regular file" ]} in
  cloud_run_staging_begins sample_request (World tree []) = true
  /\ exists e' w',
       CloudRun.to_cloud_run sample_externals sample_request (World tree [])
       = (Err (WithContext e' (NotADirectoryError "/tmp/stage")), w').
Proof.
  intros tree. split; [vm_compute; reflexivity|].
  destruct (makedirs_failure_is_masked sample_externals sample_request
              (World tree []) (NotADirectoryError "/tmp/stage"))
    as [e' He'].
  - vm_compute; reflexivity.
  - vm_compute; reflexivity.
  - exists e'. eexists. exact He'.
Defined.

(** * Further properties of [to_agent_engine] *)

(** ** The external calls and their arguments *)

Ltac agent_call_side :=
  cbn [agent_engine_call];
  repeat match goal with
         | H : AgentEngine.env_file _ = _ |- _ => rewrite H
         | H : AgentEngine.temp_folder _ = _ |- _ => rewrite H
         | H : Py.nonempty _ = _ |- _ => rewrite H
         end;
  repeat split; first [assumption | reflexivity | exact I | congruence].

Ltac agent_calls_tac :=
  repeat first
    [ solve [auto with respects_db]
    | match goal with
      | |- respects (emits _) (log _) => apply log_emits; agent_call_side
      end
    | progress cbv zeta
    | respects_step ].

Lemma resolve_project_calls (ext : externals) (r : AgentEngine.request) :
  respects (emits (agent_engine_call r))
           (_resolve_project ext (Some (AgentEngine.project r))).
Proof.
  unfold _resolve_project.
  destruct (Py.nonempty (AgentEngine.project r)) eqn:Hne.
  - apply (respects_ret _).
  - agent_calls_tac.
Qed.

Lemma resolve_project_given (ext : externals) (p : string) (w w' : world)
    (a : string) :
  _resolve_project ext (Some p) w = (Ok a, w') -> Py.nonempty p = true -> a = p.
Proof.
  unfold _resolve_project. intros H Hne. rewrite Hne in H.
  unfold ret in H. now injection H as <-.
Qed.

Lemma initialize_vertexai_calls (ext : externals) (r : AgentEngine.request) :
  respects (emits (agent_engine_call r)) (AgentEngine.initialize_vertexai ext r).
Proof.
  unfold AgentEngine.initialize_vertexai.
  apply (respects_bind _); [agent_calls_tac|intros []].
  apply (respects_bind _); [agent_calls_tac|intros []].
  apply (respects_bind _); [agent_calls_tac|intros []].
  apply (respects_bind_value _ _ _
           (fun a => Py.nonempty (AgentEngine.project r) = true
                     -> a = AgentEngine.project r)).
  - apply resolve_project_calls.
  - intros w a w' H Hne. exact (resolve_project_given _ _ _ _ _ H Hne).
  - intros a Ha. agent_calls_tac.
Qed.

Lemma resolve_env_vars_calls (ext : externals) (r : AgentEngine.request) :
  respects (emits (agent_engine_call r)) (AgentEngine.resolve_env_vars ext r).
Proof.
  unfold AgentEngine.resolve_env_vars, AgentEngine.env_file_or_default,
    Py.truthy, Py.str_of_optional.
  destruct (AgentEngine.env_file r) as [f|] eqn:Henv;
    [destruct (Py.nonempty f) eqn:Hf|]; agent_calls_tac.
Qed.

Lemma agent_engine_deploy_calls (ext : externals) (r : AgentEngine.request)
    (env : option (list (string * string))) :
  respects (emits (agent_engine_call r))
           (AgentEngine.deploy ext r (resolved_requirements_path r) env).
Proof.
  unfold AgentEngine.deploy, AgentEngine.drop_first.
  destruct (AgentEngine.temp_folder r) eqn:Htemp; agent_calls_tac.
Qed.

Lemma to_agent_engine_calls (ext : externals) (r : AgentEngine.request) :
  respects (emits (agent_engine_call r)) (AgentEngine.to_agent_engine ext r).
Proof.
  unfold AgentEngine.to_agent_engine.
  apply (respects_bind _); [agent_calls_tac|intros []].
  apply (respects_try_finally _); [|agent_calls_tac].
  apply (respects_bind _); [agent_calls_tac|intros []].
  unfold AgentEngine.after_copy.
  apply (respects_bind _); [apply initialize_vertexai_calls|intros []].
  apply (respects_bind _); [agent_calls_tac|intros []].
  apply (respects_bind_value _ _ _ (fun a => a = resolved_requirements_path r)).
  - agent_calls_tac.
  - intros w a w'. apply resolve_requirements_value.
  - intros a ->.
    apply (respects_bind _); [apply resolve_env_vars_calls|intros env].
    apply (respects_bind _); [agent_calls_tac|intros []].
    apply (respects_bind _); [agent_calls_tac|intros []].
    apply agent_engine_deploy_calls.
Qed.

(** X7. The external calls of [to_agent_engine], whatever the run: the only
    process it may start is the gcloud project query, and only when the
    project is the empty string; [vertexai.init] gets the given project (when
    not empty), region and staging bucket; [dotenv_values] reads the given
    [env_file], or [.env] in the temp folder when none is given;
    [ModuleAgent] gets the module name, the agent name [adk_app], the fixed
    operations and, as its only system path, [temp_folder[1:]], the temp
    folder without its first character (one code point, of one to four
    bytes); [agent_engines.create] gets the resolved requirements
    path and the temp folder as its only extra package. *)
Theorem external_calls_of_to_agent_engine
    (ext : externals) (r : AgentEngine.request) (w : world) :
  Forall (agent_engine_call r)
         (new_events w (snd (AgentEngine.to_agent_engine ext r w))).
Proof.
  apply (emits_new_events _ _ _ (to_agent_engine_calls ext r w)).
Qed.

(** ** The generated entry-point file *)

Lemma put_in_dir (p : list string) (name : string) (x n : node) :
  Tree.is_dir (Tree.lookup p n) = true ->
  exists n', Tree.put (p ++ [name]) x n = Some n'.
Proof.
  revert n. induction p as [|c p IH]; intros n Hdir.
  - destruct n as [d|m]; [discriminate Hdir|]. cbn. eauto.
  - destruct n as [d|m]; [discriminate Hdir|].
    change (Tree.lookup (c :: p) (Dir m))
      with (match m !! c with
            | Some n' => Tree.lookup p n'
            | None => None
            end) in Hdir.
    destruct (m !! c) as [n0|] eqn:Hc; [|discriminate Hdir].
    destruct (IH n0 Hdir) as [n0' Hput0].
    change ((c :: p) ++ [name]) with (c :: (p ++ [name])).
    destruct (p ++ [name]) as [|c' q] eqn:Hq.
    { destruct p; discriminate. }
    rewrite put_cons2, Hc, Hput0. eauto.
Qed.

(** Writing a file with a plain name in an existing directory succeeds unless
    the name is taken by a directory, and replaces what was there. *)
Lemma create_file_over (dir name data : string) (n : node) :
  isdir_in dir n = true ->
  Py.has_char "/" name = false -> name <> "" -> name <> "." ->
  isdir_in (OsPath.join dir [name]) n = false ->
  exists n',
    create_file (OsPath.join dir [name]) data n = Ok n'
    /\ stat (OsPath.join dir [name]) n' = Some (File data).
Proof.
  intros Hdir Hslash Hne Hdot Hnodir.
  unfold isdir_in in Hdir, Hnodir.
  destruct (OsPath.components dir) as [p|] eqn:Hp;
    [|unfold stat in Hdir; rewrite Hp in Hdir; discriminate].
  rewrite (stat_is_dir _ _ _ Hp) in Hdir.
  pose proof (components_join_name dir name p Hp Hslash Hne Hdot) as Hq.
  pose proof (names_directory_join dir name Hslash Hne Hdot) as Hnd.
  rewrite (stat_plain _ _ _ Hq Hnd) in Hnodir.
  unfold create_file. rewrite Hq, Hnd.
  destruct (put_in_dir p name (File data) n Hdir) as [n' Hput].
  exists n'. rewrite Hput.
  split; [|rewrite (stat_plain _ _ _ Hq Hnd); apply (lookup_put _ _ _ _ Hput)].
  destruct (Tree.lookup (p ++ [name]) n) as [[d|m]|];
    [reflexivity | discriminate Hnodir | reflexivity].
Qed.

Lemma adk_app_content_text (r : AgentEngine.request) :
  AgentEngine.adk_app_content r
  = Ok (Py.join Py.newline
          [ "";
            "from agent import root_agent";
            "from vertexai.preview.reasoning_engines import AdkApp";
            "";
            "adk_app = AdkApp(";
            "  agent=root_agent,";
            "  enable_tracing="
            +:+ (if AgentEngine.trace_to_cloud r then "True" else "False") +:+ ",";
            ")";
            "" ]).
Proof.
  unfold AgentEngine.adk_app_content.
  destruct (AgentEngine.trace_to_cloud r); vm_compute; reflexivity.
Qed.

Lemma py_file_name_plain (module : string) :
  Py.has_char "/" module = false ->
  Py.has_char "/" (module +:+ ".py") = false
  /\ module +:+ ".py" <> "" /\ module +:+ ".py" <> ".".
Proof.
  intros H. rewrite has_char_app, H. split; [reflexivity|].
  split; [apply app_nonempty; discriminate|].
  destruct module as [|c [|c' m]]; discriminate.
Qed.

(** X8. The step that writes the entry-point file (the [open] and [write]
    of [<temp_folder>/<adk_app>.py]) replaces what the agent folder brought.
    When the temp folder is a directory, [adk_app] has no slash and
    [<temp_folder>/<adk_app>.py] is not a directory, the step succeeds, and
    whatever regular file was at that place, or none, afterwards the file
    holds the template text with the trace flag written as [True] or
    [False]. *)
Theorem adk_app_file_is_written_over (r : AgentEngine.request) (w : world) :
  isdir_in (AgentEngine.temp_folder r) (fs w) = true ->
  Py.has_char "/" (AgentEngine.adk_app r) = false ->
  isdir_in (OsPath.join (AgentEngine.temp_folder r)
              [AgentEngine.adk_app r +:+ ".py"]) (fs w) = false ->
  fst (AgentEngine.write_adk_app r w) = Ok tt
  /\ stat (OsPath.join (AgentEngine.temp_folder r)
             [AgentEngine.adk_app r +:+ ".py"])
          (fs (snd (AgentEngine.write_adk_app r w)))
     = Some (File (Py.join Py.newline
                     [ "";
                       "from agent import root_agent";
                       "from vertexai.preview.reasoning_engines import AdkApp";
                       "";
                       "adk_app = AdkApp(";
                       "  agent=root_agent,";
                       "  enable_tracing="
                       +:+ (if AgentEngine.trace_to_cloud r
                            then "True" else "False") +:+ ",";
                       ")";
                       "" ])).
Proof.
  intros Hdir Hslash Hnodir.
  destruct (py_file_name_plain _ Hslash) as (Hs & Hne & Hdot).
  unfold AgentEngine.write_adk_app, AgentEngine.adk_app_path,
    AgentEngine.adk_app_file.
  rewrite adk_app_content_text.
  set (text := Py.join Py.newline _).
  destruct (create_file_over (AgentEngine.temp_folder r)
              (AgentEngine.adk_app r +:+ ".py") text (fs w)
              Hdir Hs Hne Hdot Hnodir) as (n' & Hcreate & Hstat).
  unfold write_text, echo, log, bind, get_fs, set_fs, lift.
  cbv beta iota. cbn [fs trace]. rewrite Hcreate.
  cbv beta iota. cbn [fst snd fs]. split; [reflexivity | exact Hstat].
Qed.

Lemma adk_app_file_is_written_over_witness :
  let staged :=
    World (Dir {[ "tmp" := Dir {[ "engine" :=
             Dir {[ "agent_engine_app.py" := File "my own AdkApp setup" ]} ]} ]})
          [] in
  stat "/tmp/engine/agent_engine_app.py" (fs staged)
  = Some (File "my own AdkApp setup")
  /\ exists text,
       stat "/tmp/engine/agent_engine_app.py"
            (fs (snd (AgentEngine.write_adk_app sample_engine_request staged)))
       = Some (File text)
       /\ text <> "my own AdkApp setup".
Proof.
  intros staged. split; [vm_compute; reflexivity|].
  eexists. split.
  - apply (adk_app_file_is_written_over sample_engine_request staged);
      vm_compute; reflexivity.
  - vm_compute. discriminate.
Defined.

(** * What is inside the temp folder is lost *)


(** A regular file named as a directory is not seen by [os.path.exists], not
    removed by [rmtree], and is still there when [to_cloud_run] has failed. *)
Example file_named_as_directory_survives :
  let r := {| CloudRun.agent_whl_file := "dist/agent.whl";
              CloudRun.agent_source_dir := "src";
              CloudRun.project := Some "my-project";
              CloudRun.region := None;
              CloudRun.service_name := "svc";
              CloudRun.app_name := "myagent";
              CloudRun.temp_folder := "src/agent.py/";
              CloudRun.port := 8080;
              CloudRun.trace_to_cloud := false;
              CloudRun.with_ui := false;
              CloudRun.verbosity := "info";
              CloudRun.session_db_url := "";
              CloudRun.artifact_storage_uri := None;
              CloudRun.adk_version := "1.0.0";
              CloudRun.agent_module := None;
              CloudRun.additional_requirements := None |} in
  let w := World demo_tree [] in
  cloud_run_staging_begins r w = true
  /\ fst (CloudRun.to_cloud_run sample_externals r w)
     = Err (WithContext (NotADirectoryError "src/agent.py/")
                        (FileExistsError "src/agent.py/"))
  /\ exists_in "src/agent.py" (fs (snd (CloudRun.to_cloud_run sample_externals r w)))
     = true.
Proof. repeat split; vm_compute; reflexivity. Qed.






(** * Files and directories outside the temp folder *)

Lemma strip_prefix_app (p s q : list string) :
  Tree.strip_prefix p q = None -> Tree.strip_prefix (p ++ s) q = None.
Proof.
  revert q. induction p as [|c p IH]; intros q H; [discriminate|].
  destruct q as [|e q]; [reflexivity|]. cbn in *.
  destruct (decide (c = e)); [now apply IH | reflexivity].
Qed.

Lemma lookup_cons_file (c : string) (p : list string) (d : string) :
  Tree.lookup (c :: p) (File d) = None.
Proof. reflexivity. Qed.

Lemma lookup_cons_dir (c : string) (p : list string) (m : gmap string node) :
  Tree.lookup (c :: p) (Dir m)
  = match m !! c with
    | Some n' => Tree.lookup p n'
    | None => None
    end.
Proof. reflexivity. Qed.

Lemma strip_prefix_lookup (p q : list string) (n : node) :
  Tree.lookup p n = None -> is_Some (Tree.lookup q n) ->
  Tree.strip_prefix p q = None.
Proof.
  revert q n. induction p as [|c p IH]; intros q n Hp Hq; [discriminate|].
  destruct q as [|e q]; [reflexivity|]. cbn.
  destruct (decide (c = e)) as [->|]; [|reflexivity].
  destruct n as [d|m].
  - rewrite lookup_cons_file in Hq. destruct Hq; discriminate.
  - rewrite lookup_cons_dir in *.
    destruct (m !! e) as [n0|]; [|destruct Hq; discriminate].
    now apply (IH q n0).
Qed.

Lemma remove_cons2 (c c' : string) (p : list string) (m : gmap string node) :
  Tree.remove (c :: c' :: p) (Dir m)
  = match m !! c with
    | Some n' => Dir (<[c := Tree.remove (c' :: p) n']> m)
    | None => Dir m
    end.
Proof. reflexivity. Qed.

(** Removing a tree leaves the files and directories outside it. *)
Lemma lookup_remove_outside (p q : list string) (n : node) :
  Tree.strip_prefix p q = None ->
  (forall d, Tree.lookup q n = Some (File d) ->
             Tree.lookup q (Tree.remove p n) = Some (File d))
  /\ (Tree.is_dir (Tree.lookup q n) = true ->
      Tree.is_dir (Tree.lookup q (Tree.remove p n)) = true).
Proof.
  revert q n. induction p as [|c p IH]; intros q n Hout; [discriminate|].
  destruct n as [d0|m].
  { destruct p; split; intros; assumption. }
  destruct q as [|e q].
  { split; [discriminate|]. intros _.
    destruct p as [|c' p]; [reflexivity|].
    rewrite remove_cons2. now destruct (m !! c). }
  cbn in Hout.
  destruct p as [|c' p].
  - change (Tree.remove [c] (Dir m)) with (Dir (delete c m)).
    rewrite !lookup_cons_dir.
    destruct (decide (c = e)) as [->|Hne]; [discriminate|].
    rewrite lookup_delete_ne by exact Hne. split; intros; assumption.
  - rewrite remove_cons2. destruct (m !! c) as [n0|] eqn:Hc.
    + rewrite !lookup_cons_dir.
      destruct (decide (c = e)) as [->|Hne].
      * rewrite lookup_insert_eq, Hc. now apply IH.
      * rewrite lookup_insert_ne by exact Hne. split; intros; assumption.
    + split; intros; assumption.
Qed.

Lemma mkdirs_cons (c : string) (p : list string) (m : gmap string node) :
  Tree.mkdirs (c :: p) (Dir m)
  = match m !! c with
    | Some n' =>
      match Tree.mkdirs p n' with
      | Some n'' => Some (Dir (<[c := n'']> m))
      | None => None
      end
    | None => Some (Dir (<[c := Tree.chain p]> m))
    end.
Proof. reflexivity. Qed.

(** Creating directories keeps every regular file. *)
Lemma mkdirs_keeps_files (p q : list string) (n n' : node) (d : string) :
  Tree.mkdirs p n = Some n' ->
  Tree.lookup q n = Some (File d) -> Tree.lookup q n' = Some (File d).
Proof.
  revert q n n'. induction p as [|c p IH]; intros q n n' Hmk Hq.
  - destruct n; [discriminate|]. cbn in Hmk. now injection Hmk as <-.
  - destruct n as [d0|m]; [discriminate|].
    rewrite mkdirs_cons in Hmk.
    destruct q as [|e q]; [discriminate|].
    rewrite lookup_cons_dir in Hq.
    destruct (m !! c) as [n0|] eqn:Hc.
    + destruct (Tree.mkdirs p n0) as [n0'|] eqn:Hmk0; [|discriminate].
      injection Hmk as <-. rewrite lookup_cons_dir.
      destruct (decide (c = e)) as [->|Hne].
      * rewrite lookup_insert_eq. rewrite Hc in Hq. now apply (IH q n0).
      * now rewrite lookup_insert_ne.
    + injection Hmk as <-. rewrite lookup_cons_dir.
      destruct (decide (c = e)) as [->|Hne].
      * now rewrite Hc in Hq.
      * now rewrite lookup_insert_ne.
Qed.

(** Putting a node somewhere keeps the regular files that are not at or
    below that place. *)
Lemma put_keeps_files_outside (p q : list string) (x n n' : node) (d : string) :
  Tree.put p x n = Some n' ->
  Tree.strip_prefix p q = None ->
  Tree.lookup q n = Some (File d) -> Tree.lookup q n' = Some (File d).
Proof.
  revert q n n'. induction p as [|c p IH]; intros q n n' Hput Hout Hq;
    [discriminate|].
  destruct n as [d0|m]; [discriminate|].
  destruct q as [|e q]; [discriminate|].
  cbn in Hout. rewrite lookup_cons_dir in Hq.
  destruct p as [|c' p].
  - cbn in Hput. injection Hput as <-. rewrite lookup_cons_dir.
    destruct (decide (c = e)) as [->|Hne]; [discriminate|].
    now rewrite lookup_insert_ne.
  - rewrite put_cons2 in Hput.
    destruct (m !! c) as [n0|] eqn:Hc; [|discriminate].
    destruct (Tree.put (c' :: p) x n0) as [n0'|] eqn:Hput0; [|discriminate].
    injection Hput as <-. rewrite lookup_cons_dir.
    destruct (decide (c = e)) as [->|Hne].
    + rewrite lookup_insert_eq. rewrite Hc in Hq. now apply (IH q n0).
    + now rewrite lookup_insert_ne.
Qed.

Lemma split_parts_no_sep (c : ascii) (s : string) :
  Forall (fun x => Py.has_char c x = false) (Py.split c s).
Proof.
  induction s as [|a s IH]; cbn.
  - repeat constructor.
  - destruct (Ascii.eqb a c) eqn:Hac.
    + constructor; [reflexivity | exact IH].
    + destruct (Py.split c s) as [|h t]; inversion IH; subst;
        repeat constructor; cbn; rewrite ?Hac; auto.
Qed.

Lemma basename_no_slash (path : string) :
  Py.has_char "/" (OsPath.basename path) = false.
Proof.
  unfold OsPath.basename.
  pose proof (split_parts_no_sep "/" path) as Hall.
  induction Hall as [|x l Hx Hl IH]; [reflexivity|].
  destruct l; [exact Hx | exact IH].
Qed.

Lemma no_slash_relative (name : string) :
  Py.has_char "/" name = false -> Py.startswith name "/" = false.
Proof.
  destruct name as [|c name]; [reflexivity|]. cbn [Py.has_char].
  intros H. apply orb_false_iff in H as [Hc _].
  change (Py.startswith (String c name) "/")
    with (Ascii.eqb "/" c && Py.startswith name "").
  now rewrite Ascii.eqb_sym, Hc.
Qed.

(** Joining a relative name to a path gives a path at or below it. *)
Lemma components_join (dir name : string) (p : list string) :
  OsPath.components dir = Some p ->
  Py.startswith name "/" = false ->
  OsPath.components (OsPath.join dir [name]) = Some (p ++ name_components name).
Proof.
  intros Hdir Hrel.
  unfold OsPath.components in *.
  destruct (String.eqb_spec dir "") as [|Hdne]; [discriminate|].
  injection Hdir as <-.
  unfold OsPath.join, OsPath.join2, name_components. cbn [fold_left].
  rewrite Hrel.
  destruct (String.eqb_spec dir ""); [congruence|]. cbn [orb].
  destruct (Py.endswith dir "/") eqn:Hend.
  - destruct (endswith_slash _ Hend) as [t ->].
    rewrite append_assoc.
    destruct (String.eqb_spec (t +:+ "/" +:+ name) "") as [Hbad|_].
    { exfalso. revert Hbad. apply app_nonempty. discriminate. }
    f_equal.
    change ("/" +:+ name) with (String "/" name).
    change (t +:+ "/") with (t +:+ String "/" "").
    rewrite !split_app_sep, !filter_components_app.
    cbn. now rewrite app_nil_r.
  - destruct (String.eqb_spec (dir +:+ "/" +:+ name) "") as [Hbad|_].
    { exfalso. revert Hbad. apply app_nonempty. discriminate. }
    f_equal.
    change ("/" +:+ name) with (String "/" name).
    now rewrite split_app_sep, filter_components_app.
Qed.

Lemma name_components_plain (name : string) :
  Py.has_char "/" name = false -> name <> "" -> name <> "." ->
  name_components name = [name].
Proof.
  intros Hs Hne Hdot. unfold name_components.
  rewrite (split_no_sep _ _ Hs). cbn.
  destruct (String.eqb_spec name ""); [congruence|].
  destruct (String.eqb_spec name "."); [congruence|]. reflexivity.
Qed.

#[export] Instance kept_outside_preorder (p : list string) :
  PreOrder (kept_outside p).
Proof.
  split.
  - intros w q Hout. split; intros; assumption.
  - intros a b c Hab Hbc q Hout.
    destruct (Hab q Hout) as [Hf1 Hd1]. destruct (Hbc q Hout) as [Hf2 Hd2].
    split; [intros d Hd; now apply Hf2, Hf1 | intros Hd; now apply Hd2, Hd1].
Qed.

Lemma log_kept_outside (p : list string) (e : event) :
  respects (kept_outside p) (log e).
Proof. intros w q Hout. split; intros; assumption. Qed.

Lemma subprocess_run_kept_outside (p : list string) (ext : externals)
    (args : list string) :
  respects (kept_outside p) (subprocess_run ext args).
Proof.
  intros w q Hout. unfold subprocess_run, bind, log, get_fs, lift. cbn.
  destruct (subprocess_outcome ext args (fs w)); split; intros; assumption.
Qed.

Lemma rmtree_kept_outside (p s : list string) (path : string) :
  OsPath.components path = Some (p ++ s) ->
  respects (kept_outside p) (shutil_rmtree path).
Proof.
  intros Hp w q Hout.
  unfold shutil_rmtree, bind, log, get_fs, set_fs, raise.
  cbv beta iota. cbn [fs trace]. rewrite Hp.
  destruct (Tree.lookup (p ++ s) (fs w)) as [[d|m]|];
    try (split; intros; assumption).
  destruct (p ++ s) as [|c ps] eqn:Hps.
  { apply app_eq_nil in Hps as [-> _]. discriminate. }
  cbn [snd fs]. rewrite <- Hps.
  apply lookup_remove_outside. now apply strip_prefix_app.
Qed.

Lemma makedirs_kept_outside (p : list string) (name : string) (exist_ok : bool) :
  respects (kept_outside p) (os_makedirs name exist_ok).
Proof.
  intros w q Hout. split.
  - intros d Hq.
    unfold os_makedirs, makedirs_in, bind, log, get_fs, set_fs, lift.
    cbv beta iota. cbn [fs trace].
    destruct (OsPath.components name) as [pn|]; [|exact Hq].
    destruct (Tree.lookup pn (fs w)) as [[d0|m]|]; try exact Hq.
    + destruct exist_ok; exact Hq.
    + destruct (Tree.mkdirs pn (fs w)) as [n'|] eqn:Hmk; [|exact Hq].
      cbn [snd fs]. eapply mkdirs_keeps_files; eassumption.
  - apply (os_makedirs_keeps_dirs name exist_ok w q).
Qed.

Lemma create_file_keeps_outside (p s : list string) (name data : string)
    (n n' : node) (q : list string) (d : string) :
  OsPath.components name = Some (p ++ s) ->
  create_file name data n = Ok n' ->
  Tree.strip_prefix p q = None ->
  Tree.lookup q n = Some (File d) -> Tree.lookup q n' = Some (File d).
Proof.
  intros Hp Hc Hout Hq.
  destruct (create_file_ok _ _ _ _ Hc) as (p' & Hp' & Hput & _).
  rewrite Hp in Hp'. injection Hp' as <-.
  eapply put_keeps_files_outside; [exact Hput| |exact Hq].
  now apply strip_prefix_app.
Qed.

Lemma write_text_kept_outside (p s : list string) (file content : string) :
  OsPath.components file = Some (p ++ s) ->
  respects (kept_outside p) (write_text file content).
Proof.
  intros Hp w q Hout. split.
  - intros d Hq.
    unfold write_text, bind, log, get_fs, set_fs, lift.
    cbv beta iota. cbn [fs trace].
    destruct (create_file file content (fs w)) as [n'|e] eqn:Hc; [|exact Hq].
    cbn [snd fs]. eapply create_file_keeps_outside; eassumption.
  - apply (write_text_keeps_dirs file content w q).
Qed.

Lemma copy2_kept_outside (p s : list string) (src dst : string) :
  OsPath.components dst = Some (p ++ s) ->
  respects (kept_outside p) (shutil_copy2 src dst).
Proof.
  intros Hp w q Hout. split.
  - intros d Hq.
    unfold shutil_copy2, bind, log, get_fs, set_fs, lift, raise.
    cbv beta iota zeta. cbn [fs trace].
    destruct (_ && _); [exact Hq|].
    destruct (stat src (fs w)) as [[data|m]|]; try exact Hq.
    assert (exists s',
      OsPath.components
        (if isdir_in dst (fs w)
         then OsPath.join dst [OsPath.basename src] else dst)
      = Some (p ++ s')) as [s' Hdst].
    { destruct (isdir_in dst (fs w)); [|eauto].
      exists (s ++ name_components (OsPath.basename src)).
      rewrite app_assoc. apply components_join; [exact Hp|].
      apply no_slash_relative, basename_no_slash. }
    destruct (create_file _ data (fs w)) as [n'|e] eqn:Hc; [|exact Hq].
    cbn [snd fs]. eapply create_file_keeps_outside; eassumption.
  - apply (shutil_copy2_keeps_dirs src dst w q).
Qed.

(** [copytree] writes at a place where nothing was: it keeps every regular
    file, wherever the tree goes. *)
Lemma copytree_kept_outside (p : list string) (src dst : string) :
  respects (kept_outside p) (shutil_copytree src dst).
Proof.
  intros w q Hout. split.
  - intros d Hq.
    unfold shutil_copytree, bind, log, get_fs, set_fs, lift, raise, ret.
    cbv beta iota. cbn [fs trace].
    destruct (stat src (fs w)) as [[data|m]|]; try exact Hq.
    destruct (makedirs_in dst false (fs w)) as [n1|e] eqn:Hmk; [|exact Hq].
    destruct (makedirs_in_fresh _ _ _ Hmk) as (pd & Hpd & Hold & Hnew).
    destruct (OsPath.components src) as [ps|]; [|exact Hq].
    rewrite Hpd.
    destruct (Tree.put pd (Dir m) n1) as [n2|] eqn:Hput; [|exact Hq].
    assert (Tree.lookup q n2 = Some (File d)) as Hq2.
    { eapply put_keeps_files_outside; [exact Hput| |].
      - eapply strip_prefix_lookup; [exact Hold|]. rewrite Hq. eauto.
      - unfold makedirs_in in Hmk. rewrite Hpd, Hold in Hmk.
        destruct (Tree.mkdirs pd (fs w)) as [n1'|] eqn:Hmk'; [|discriminate].
        injection Hmk as <-. eapply mkdirs_keeps_files; eassumption. }
    destruct (copies_into_itself ps pd m); exact Hq2.
  - apply (shutil_copytree_keeps_dirs src dst w q).
Qed.

Lemma rmtree_temp_kept_outside (p : list string) (path : string) :
  OsPath.components path = Some p ->
  respects (kept_outside p) (shutil_rmtree path).
Proof.
  intros Hp. apply (rmtree_kept_outside p []). now rewrite app_nil_r.
Qed.

Lemma write_in_temp_kept_outside (p : list string) (dir name content : string) :
  OsPath.components dir = Some p ->
  Py.startswith name "/" = false ->
  respects (kept_outside p) (write_text (OsPath.join dir [name]) content).
Proof.
  intros Hp Hrel.
  apply (write_text_kept_outside p (name_components name)).
  now apply components_join.
Qed.

Lemma copy2_in_temp_kept_outside (p : list string) (src dir name : string) :
  OsPath.components dir = Some p ->
  Py.startswith name "/" = false ->
  respects (kept_outside p) (shutil_copy2 src (OsPath.join dir [name])).
Proof.
  intros Hp Hrel.
  apply (copy2_kept_outside p (name_components name)).
  now apply components_join.
Qed.

Lemma module_file_relative (name : string) :
  Py.has_char "/" name = false -> Py.startswith (name +:+ ".py") "/" = false.
Proof.
  intros H. apply no_slash_relative. now rewrite has_char_app, H.
Qed.

#[local] Hint Resolve log_kept_outside subprocess_run_kept_outside
  makedirs_kept_outside copytree_kept_outside : respects_db.

#[local] Hint Extern 1 (respects (kept_outside _) (shutil_rmtree _)) =>
  apply rmtree_temp_kept_outside; assumption : respects_db.

#[local] Hint Extern 1 (respects (kept_outside _) (write_text _ _)) =>
  apply write_in_temp_kept_outside;
    [assumption
    | first [reflexivity | apply module_file_relative; assumption]]
  : respects_db.

#[local] Hint Extern 1 (respects (kept_outside _) (shutil_copy2 _ _)) =>
  apply copy2_in_temp_kept_outside;
    [assumption
    | first [reflexivity | apply no_slash_relative, basename_no_slash]]
  : respects_db.

Lemma to_cloud_run_kept_outside (ext : externals) (r : CloudRun.request)
    (p : list string) :
  OsPath.components (CloudRun.temp_folder r) = Some p ->
  respects (kept_outside p) (CloudRun.to_cloud_run ext r).
Proof. intros Hp. respects_tac. Qed.

Lemma to_agent_engine_kept_outside (ext : externals) (r : AgentEngine.request)
    (p : list string) :
  OsPath.components (AgentEngine.temp_folder r) = Some p ->
  Py.has_char "/" (AgentEngine.adk_app r) = false ->
  respects (kept_outside p) (AgentEngine.to_agent_engine ext r).
Proof. intros Hp Happ. respects_tac. Qed.

(** X11. [to_cloud_run] writes and deletes at or below the temp folder only,
    apart from what the copy of the source tree creates at a place where
    nothing was: a regular file whose path does not pass through the temp
    folder has the same content after the call, and a directory there is
    still a directory, whatever the outcome of the call.  The temp folder
    path has no [..] step; the [gcloud] processes are taken not to touch the
    files. *)
Theorem to_cloud_run_keeps_other_files
    (ext : externals) (r : CloudRun.request) (w : world)
    (p q : list string) :
  OsPath.components (CloudRun.temp_folder r) = Some p ->
  without_parent_steps p = true ->
  Tree.strip_prefix p q = None ->
  let n' := fs (snd (CloudRun.to_cloud_run ext r w)) in
  (forall d, Tree.lookup q (fs w) = Some (File d) ->
             Tree.lookup q n' = Some (File d))
  /\ (Tree.is_dir (Tree.lookup q (fs w)) = true ->
      Tree.is_dir (Tree.lookup q n') = true).
Proof.
  intros Hp _ Hout.
  exact (to_cloud_run_kept_outside ext r p Hp w q Hout).
Qed.

Lemma to_cloud_run_keeps_other_files_witness :
  fst (CloudRun.to_cloud_run sample_externals sample_request
         (World stale_tree [])) = Ok tt
  /\ Tree.lookup ["src"; "agent.py"]
       (fs (snd (CloudRun.to_cloud_run sample_externals sample_request
                   (World stale_tree []))))
     = Some (File "root_agent = 1").
Proof.
  split; [vm_compute; reflexivity|].
  apply (to_cloud_run_keeps_other_files sample_externals sample_request
           (World stale_tree []) ["tmp"; "stage"] ["src"; "agent.py"]);
    vm_compute; reflexivity.
Defined.

(** X12. [to_agent_engine] writes and deletes at or below the temp folder
    only, when [adk_app] is a plain module name (no slash): a regular file
    whose path does not pass through the temp folder has the same content
    after the call, and a directory there is still a directory, whatever the
    outcome of the call.  The temp folder path has no [..] step; the SDK
    calls are taken not to touch the files. *)
Theorem to_agent_engine_keeps_other_files
    (ext : externals) (r : AgentEngine.request) (w : world)
    (p q : list string) :
  OsPath.components (AgentEngine.temp_folder r) = Some p ->
  without_parent_steps p = true ->
  Py.has_char "/" (AgentEngine.adk_app r) = false ->
  Tree.strip_prefix p q = None ->
  let n' := fs (snd (AgentEngine.to_agent_engine ext r w)) in
  (forall d, Tree.lookup q (fs w) = Some (File d) ->
             Tree.lookup q n' = Some (File d))
  /\ (Tree.is_dir (Tree.lookup q (fs w)) = true ->
      Tree.is_dir (Tree.lookup q n') = true).
Proof.
  intros Hp _ Happ Hout.
  exact (to_agent_engine_kept_outside ext r p Hp Happ w q Hout).
Qed.

Lemma to_agent_engine_keeps_other_files_witness :
  fst (AgentEngine.to_agent_engine sample_externals sample_engine_request
         (World demo_tree [])) = Ok tt
  /\ Tree.lookup ["src"; "agent.py"]
       (fs (snd (AgentEngine.to_agent_engine sample_externals
                   sample_engine_request (World demo_tree []))))
     = Some (File "root_agent = 1").
Proof.
  split; [vm_compute; reflexivity|].
  apply (to_agent_engine_keeps_other_files sample_externals
           sample_engine_request (World demo_tree [])
           ["tmp"; "engine"] ["src"; "agent.py"]);
    vm_compute; reflexivity.
Defined.

(** * The staged tree *)

Lemma apart_sym (p q : list string) : apart p q = apart q p.
Proof.
  revert q. induction p as [|a p IH]; intros [|b q]; cbn; try reflexivity.
  destruct (decide (a = b)) as [->|Hab].
  - rewrite decide_True by reflexivity. apply IH.
  - rewrite decide_False by congruence. reflexivity.
Qed.

Lemma apart_app_l (p s q : list string) :
  apart p q = true -> apart (p ++ s) q = true.
Proof.
  revert q. induction p as [|a p IH]; intros [|b q]; cbn; try discriminate.
  destruct (decide (a = b)); [apply IH | reflexivity].
Qed.

Lemma apart_app_r (p q s : list string) :
  apart p q = true -> apart p (q ++ s) = true.
Proof. rewrite !(apart_sym p). apply apart_app_l. Qed.

Lemma apart_after (c s t : list string) (a b : string) :
  a <> b -> apart (c ++ a :: s) (c ++ b :: t) = true.
Proof.
  intros Hab. induction c as [|x c IH]; cbn.
  - now rewrite decide_False.
  - now rewrite decide_True.
Qed.

Lemma lookup_chain_apart (p q : list string) :
  apart p q = true -> Tree.lookup q (Tree.chain p) = None.
Proof.
  revert q. induction p as [|a p IH]; intros [|b q]; cbn; try discriminate.
  destruct (decide (a = b)) as [->|Hab]; intros H.
  - rewrite lookup_cons_dir, lookup_singleton_eq. now apply IH.
  - rewrite lookup_cons_dir, lookup_singleton_ne by exact Hab. reflexivity.
Qed.

Lemma lookup_remove_apart (p q : list string) (n : node) :
  apart p q = true -> Tree.lookup q (Tree.remove p n) = Tree.lookup q n.
Proof.
  revert q n. induction p as [|a p IH]; intros [|b q] n; cbn; try discriminate.
  intros H. destruct n as [d|m]; [now destruct p|].
  destruct p as [|a' p].
  - destruct (decide (a = b)) as [->|Hab]; [discriminate|].
    change (Tree.remove [a] (Dir m)) with (Dir (delete a m)).
    rewrite !lookup_cons_dir, lookup_delete_ne by exact Hab. reflexivity.
  - rewrite remove_cons2.
    destruct (m !! a) as [n'|] eqn:Ha; [|reflexivity].
    rewrite !lookup_cons_dir.
    destruct (decide (a = b)) as [->|Hab].
    + rewrite lookup_insert_eq, Ha. now apply IH.
    + rewrite lookup_insert_ne by exact Hab. reflexivity.
Qed.

Lemma lookup_mkdirs_apart (p q : list string) (n n' : node) :
  apart p q = true -> Tree.mkdirs p n = Some n' ->
  Tree.lookup q n' = Tree.lookup q n.
Proof.
  revert q n n'. induction p as [|a p IH]; intros [|b q] n n'; cbn;
    try discriminate.
  intros H Hmk. destruct n as [d|m]; [discriminate|].
  rewrite mkdirs_cons in Hmk.
  destruct (m !! a) as [x|] eqn:Ha.
  - destruct (Tree.mkdirs p x) as [x'|] eqn:Hx; [|discriminate].
    injection Hmk as <-. rewrite !lookup_cons_dir.
    destruct (decide (a = b)) as [->|Hab].
    + rewrite lookup_insert_eq, Ha. eapply IH; eassumption.
    + rewrite lookup_insert_ne by exact Hab. reflexivity.
  - injection Hmk as <-. rewrite !lookup_cons_dir.
    destruct (decide (a = b)) as [->|Hab].
    + rewrite lookup_insert_eq, Ha. now apply lookup_chain_apart.
    + rewrite lookup_insert_ne by exact Hab. reflexivity.
Qed.

Lemma lookup_put_apart (p q : list string) (x n n' : node) :
  apart p q = true -> Tree.put p x n = Some n' ->
  Tree.lookup q n' = Tree.lookup q n.
Proof.
  revert q n n'. induction p as [|a p IH]; intros [|b q] n n'; cbn;
    try discriminate.
  intros H Hput. destruct n as [d|m]; [discriminate|].
  destruct p as [|a' p].
  - destruct (decide (a = b)) as [->|Hab]; [discriminate|].
    injection Hput as <-.
    rewrite !lookup_cons_dir, lookup_insert_ne by exact Hab. reflexivity.
  - rewrite put_cons2 in Hput.
    destruct (m !! a) as [y|] eqn:Ha; [|discriminate].
    destruct (Tree.put (a' :: p) x y) as [y'|] eqn:Hy; [|discriminate].
    injection Hput as <-. rewrite !lookup_cons_dir.
    destruct (decide (a = b)) as [->|Hab].
    + rewrite lookup_insert_eq, Ha. eapply IH; eassumption.
    + rewrite lookup_insert_ne by exact Hab. reflexivity.
Qed.

(** ** Suffixes and file names *)

Lemma substring_all (s : string) : String.substring 0 (String.length s) s = s.
Proof. induction s as [|a s IH]; cbn; [reflexivity | now rewrite IH]. Qed.

Lemma substring_split (i : nat) (s : string) :
  (i <= String.length s)%nat ->
  String.substring 0 i s +:+ String.substring i (String.length s - i) s = s.
Proof.
  revert s. induction i as [|i IH]; intros s Hi.
  - rewrite Nat.sub_0_r, substring_all. now destruct s.
  - destruct s as [|a s]; cbn in Hi; [lia|].
    cbn. rewrite IH by lia. reflexivity.
Qed.

Lemma endswith_suffix (s suf : string) :
  Py.endswith s suf = true -> exists t, s = t +:+ suf.
Proof.
  unfold Py.endswith. intros H. apply andb_true_iff in H as [Hle Heq].
  apply Nat.leb_le in Hle. apply String.eqb_eq in Heq.
  set (i := (String.length s - String.length suf)%nat) in *.
  exists (String.substring 0 i s).
  replace (String.length suf) with (String.length s - i)%nat in Heq
    by (subst i; lia).
  rewrite <- Heq. symmetry. apply substring_split. subst i. lia.
Qed.

Lemma split_has_sep (c : ascii) (x : string) :
  Py.has_char c x = true -> exists h h' t, Py.split c x = h :: h' :: t.
Proof.
  induction x as [|a x IH]; cbn; [discriminate|].
  destruct (Ascii.eqb a c) eqn:Hac; cbn.
  - intros _. pose proof (split_nonempty c x) as Hne.
    destruct (Py.split c x) as [|h t]; [congruence | eauto].
  - intros H. destruct (IH H) as (h & h' & t & ->). eauto.
Qed.

Lemma last_split_cons (c a : ascii) (x : string) :
  List.last (Py.split c (String a x)) ""
  = if Ascii.eqb a c || Py.has_char c x
    then List.last (Py.split c x) "" else String a x.
Proof.
  cbn [Py.split]. destruct (Ascii.eqb a c) eqn:Hac; cbn [orb].
  - pose proof (split_nonempty c x) as Hne.
    destruct (Py.split c x) as [|h t]; [congruence | reflexivity].
  - destruct (Py.has_char c x) eqn:Hx.
    + destruct (split_has_sep c x Hx) as (h & h' & t & ->). reflexivity.
    + rewrite (split_no_sep c x Hx). reflexivity.
Qed.

Lemma last_split_app (c : ascii) (x y : string) :
  Py.has_char c y = false ->
  List.last (Py.split c (x +:+ y)) "" = List.last (Py.split c x) "" +:+ y.
Proof.
  intros Hy. induction x as [|a x IH].
  - cbn. now rewrite (split_no_sep c y Hy).
  - change (String a x +:+ y) with (String a (x +:+ y)).
    rewrite !last_split_cons, has_char_app, Hy, orb_false_r.
    destruct (Ascii.eqb a c || Py.has_char c x); [exact IH | reflexivity].
Qed.

(** The file name of a wheel path ends in [.whl] as the path does. *)
Lemma basename_of_wheel (path : string) :
  Py.endswith path ".whl" = true ->
  exists t, OsPath.basename path = t +:+ ".whl".
Proof.
  intros H. destruct (endswith_suffix _ _ H) as [t ->].
  unfold OsPath.basename. rewrite last_split_app by reflexivity. eauto.
Qed.

Lemma wheel_name_plain (path : string) :
  Py.endswith path ".whl" = true ->
  Py.has_char "/" (OsPath.basename path) = false
  /\ Py.has_char "w" (OsPath.basename path) = true.
Proof.
  intros H. split; [apply basename_no_slash|].
  destruct (basename_of_wheel _ H) as [t ->].
  rewrite has_char_app. apply orb_true_r.
Qed.

(** ** What a call leaves as it is *)

#[export] Instance same_at_preorder (q : list string) : PreOrder (same_at q).
Proof.
  split.
  - intros w. reflexivity.
  - intros a b c Hab Hbc. unfold same_at in *. congruence.
Qed.

Lemma log_same_at (q : list string) (e : event) : respects (same_at q) (log e).
Proof. intros w. reflexivity. Qed.

Lemma subprocess_run_same_at (q : list string) (ext : externals)
    (args : list string) :
  respects (same_at q) (subprocess_run ext args).
Proof.
  intros w. unfold subprocess_run, bind, log, get_fs, lift. cbn.
  destruct (subprocess_outcome ext args (fs w)); reflexivity.
Qed.

Lemma rmtree_same_at (pp q : list string) (path : string) :
  OsPath.components path = Some pp -> apart pp q = true ->
  respects (same_at q) (shutil_rmtree path).
Proof.
  intros Hp Hq w. unfold same_at.
  unfold shutil_rmtree, bind, log, get_fs, set_fs, raise.
  cbv beta iota. cbn [fs trace]. rewrite Hp.
  destruct (Tree.lookup pp (fs w)) as [[d|m]|]; try reflexivity.
  destruct pp as [|c pp]; [discriminate|].
  cbn [snd fs]. symmetry. now apply lookup_remove_apart.
Qed.

Lemma makedirs_same_at (pp q : list string) (name : string) (exist_ok : bool) :
  OsPath.components name = Some pp -> apart pp q = true ->
  respects (same_at q) (os_makedirs name exist_ok).
Proof.
  intros Hp Hq w. unfold same_at.
  unfold os_makedirs, makedirs_in, bind, log, get_fs, set_fs, lift.
  cbv beta iota. cbn [fs trace]. rewrite Hp.
  destruct (Tree.lookup pp (fs w)) as [[d0|m]|]; try reflexivity.
  - destruct exist_ok; reflexivity.
  - destruct (Tree.mkdirs pp (fs w)) as [n'|] eqn:Hmk; [|reflexivity].
    cbn [snd fs]. symmetry. eapply lookup_mkdirs_apart; eassumption.
Qed.

Lemma create_file_same_at (pp q : list string) (name data : string)
    (n n' : node) :
  OsPath.components name = Some pp -> apart pp q = true ->
  create_file name data n = Ok n' ->
  Tree.lookup q n' = Tree.lookup q n.
Proof.
  intros Hp Hq Hc.
  destruct (create_file_ok _ _ _ _ Hc) as (p' & Hp' & Hput & _).
  rewrite Hp in Hp'. injection Hp' as <-.
  eapply lookup_put_apart; eassumption.
Qed.

Lemma write_text_same_at (pp q : list string) (file content : string) :
  OsPath.components file = Some pp -> apart pp q = true ->
  respects (same_at q) (write_text file content).
Proof.
  intros Hp Hq w. unfold same_at.
  unfold write_text, bind, log, get_fs, set_fs, lift.
  cbv beta iota. cbn [fs trace].
  destruct (create_file file content (fs w)) as [n'|e] eqn:Hc; [|reflexivity].
  cbn [snd fs]. symmetry. eapply create_file_same_at; eassumption.
Qed.

Lemma copy2_same_at (pp q : list string) (src dst : string) :
  OsPath.components dst = Some pp -> apart pp q = true ->
  respects (same_at q) (shutil_copy2 src dst).
Proof.
  intros Hp Hq w. unfold same_at.
  unfold shutil_copy2, bind, log, get_fs, set_fs, lift, raise.
  cbv beta iota zeta. cbn [fs trace].
  destruct (_ && _); [reflexivity|].
  destruct (stat src (fs w)) as [[data|m]|]; try reflexivity.
  destruct (create_file _ data (fs w)) as [n'|e] eqn:Hc; [|reflexivity].
  cbn [snd fs]. symmetry.
  destruct (isdir_in dst (fs w)).
  - eapply create_file_same_at; [|apply apart_app_l, Hq|exact Hc].
    apply components_join; [exact Hp|].
    apply no_slash_relative, basename_no_slash.
  - eapply create_file_same_at; eassumption.
Qed.

Lemma copytree_same_at (pp q : list string) (src dst : string) :
  OsPath.components dst = Some pp -> apart pp q = true ->
  respects (same_at q) (shutil_copytree src dst).
Proof.
  intros Hp Hq w. unfold same_at.
  unfold shutil_copytree, bind, log, get_fs, set_fs, lift, raise, ret.
  cbv beta iota. cbn [fs trace].
  destruct (stat src (fs w)) as [[data|m]|]; try reflexivity.
  destruct (makedirs_in dst false (fs w)) as [n1|e] eqn:Hmk; [|reflexivity].
  assert (Tree.lookup q n1 = Tree.lookup q (fs w)) as Hn1.
  { unfold makedirs_in in Hmk. rewrite Hp in Hmk.
    destruct (Tree.lookup pp (fs w)) as [[d0|m0]|]; try discriminate.
    destruct (Tree.mkdirs pp (fs w)) as [n1'|] eqn:Hmk'; [|discriminate].
    injection Hmk as <-. eapply lookup_mkdirs_apart; eassumption. }
  destruct (OsPath.components src) as [ps|]; [|reflexivity].
  rewrite Hp.
  destruct (Tree.put pp (Dir m) n1) as [n2|] eqn:Hput; [|reflexivity].
  assert (Tree.lookup q n2 = Tree.lookup q (fs w)) as Hn2.
  { rewrite <- Hn1. eapply lookup_put_apart; eassumption. }
  destruct (copies_into_itself ps pp m); symmetry; exact Hn2.
Qed.

(** The successful copy of a tree puts the source, as listed, at the
    destination. *)
Lemma copytree_result (src dst : string) (pd : list string) (w w' : world) :
  shutil_copytree src dst w = (Ok tt, w') ->
  OsPath.components dst = Some pd ->
  Tree.lookup pd (fs w') = stat src (fs w)
  /\ Tree.is_dir (stat src (fs w)) = true.
Proof.
  intros H Hp. revert H.
  unfold shutil_copytree, bind, log, get_fs, set_fs, lift, raise, ret.
  cbv beta iota. cbn [fs trace].
  destruct (stat src (fs w)) as [[data|m]|]; try discriminate.
  destruct (makedirs_in dst false (fs w)) as [n1|e]; [|discriminate].
  destruct (OsPath.components src) as [ps|]; [|discriminate].
  rewrite Hp.
  destruct (Tree.put pd (Dir m) n1) as [n2|] eqn:Hput; [|discriminate].
  destruct (copies_into_itself ps pd m); [discriminate|].
  intros H. injection H as <-. cbn [fs].
  split; [eapply lookup_put; eassumption | reflexivity].
Qed.

#[local] Hint Resolve log_same_at subprocess_run_same_at : respects_db.

Lemma respects_outcome {A} (R : world -> world -> Prop) (m : M A)
    (w w' : world) (x : result A) :
  respects R m -> m w = (x, w') -> R w w'.
Proof. intros Hm Hrun. specialize (Hm w). now rewrite Hrun in Hm. Qed.

Lemma validate_ok (r : CloudRun.request) (w w' : world) :
  CloudRun.validate r w = (Ok tt, w') -> valid_inputs r (fs w) = true.
Proof.
  unfold valid_inputs, CloudRun.validate.
  unfold os_path_exists, os_path_isdir, get_fs.
  rewrite !bind_unfold. unfold ret at 1.
  destruct (exists_in (CloudRun.agent_whl_file r) (fs w)); [|discriminate].
  cbn [negb when]. rewrite !bind_unfold. unfold ret at 1.
  destruct (Py.endswith (CloudRun.agent_whl_file r) ".whl"); [|discriminate].
  cbn [negb when]. rewrite !bind_unfold. unfold ret at 1. rewrite !bind_unfold.
  unfold ret at 1.
  destruct (exists_in (CloudRun.agent_source_dir r) (fs w)); [|discriminate].
  cbn [negb when]. rewrite !bind_unfold. unfold ret at 1. rewrite !bind_unfold.
  unfold ret at 1.
  destruct (isdir_in (CloudRun.agent_source_dir r) (fs w)); [|discriminate].
  reflexivity.
Qed.

Section StagedTree.

Variable r : CloudRun.request.
Variable p : list string.
Hypothesis Htemp : OsPath.components (CloudRun.temp_folder r) = Some p.

Lemma agent_src_components :
  Py.startswith (CloudRun.app_name r) "/" = false ->
  OsPath.components (CloudRun.agent_src_path r)
  = Some (p ++ "agents" :: name_components (CloudRun.app_name r)).
Proof.
  intros Hrel.
  change (CloudRun.agent_src_path r)
    with (OsPath.join (OsPath.join (CloudRun.temp_folder r) ["agents"])
                      [CloudRun.app_name r]).
  rewrite (components_join _ _ (p ++ ["agents"])); [|now apply components_join|exact Hrel].
  now rewrite <- app_assoc.
Qed.

Lemma entry_components (name : string) :
  Py.has_char "/" name = false -> name <> "" -> name <> "." ->
  OsPath.components (OsPath.join (CloudRun.temp_folder r) [name])
  = Some (p ++ [name]).
Proof.
  intros Hs Hne Hdot.
  rewrite (components_join _ _ p Htemp) by now apply no_slash_relative.
  now rewrite name_components_plain.
Qed.

Lemma prologue_same_at (q : list string) :
  apart p q = true -> respects (same_at q) (CloudRun.prologue r).
Proof.
  intros Hq.
  assert (respects (same_at q) (shutil_rmtree (CloudRun.temp_folder r)))
    by now apply (rmtree_same_at p).
  respects_tac.
Qed.

Lemma create_dockerfile_same_at (q : list string) :
  apart (p ++ ["extra-requirements.txt"]) q = true ->
  apart (p ++ ["Dockerfile"]) q = true ->
  respects (same_at q) (CloudRun.create_dockerfile r).
Proof.
  intros Hextra Hdocker.
  assert (forall src, respects (same_at q)
            (shutil_copy2 src (OsPath.join (CloudRun.temp_folder r)
                                           ["extra-requirements.txt"]))).
  { intros src. apply (copy2_same_at (p ++ ["extra-requirements.txt"]));
      [now apply entry_components | exact Hextra]. }
  assert (forall d, respects (same_at q)
            (write_text (CloudRun.dockerfile_path r) d)).
  { intros d. apply (write_text_same_at (p ++ ["Dockerfile"]));
      [now apply entry_components | exact Hdocker]. }
  respects_tac.
Qed.

(** The worlds a successful staging goes through. *)
Lemma staging_worlds (w staged : world) :
  (CloudRun.prologue r ;; CloudRun.staging r) w = (Ok tt, staged) ->
  exists w0 w1 w1' w2 w2' w3,
    CloudRun.prologue r w = (Ok tt, w0)
    /\ os_makedirs (CloudRun.temp_folder r) true w0 = (Ok tt, w1)
    /\ fs w1' = fs w1
    /\ shutil_copy2 (CloudRun.agent_whl_file r)
         (OsPath.join (CloudRun.temp_folder r) [CloudRun.agent_whl_filename r])
         w1' = (Ok tt, w2)
    /\ fs w2' = fs w2
    /\ shutil_copytree (CloudRun.agent_source_dir r) (CloudRun.agent_src_path r)
         w2' = (Ok tt, w3)
    /\ CloudRun.create_dockerfile r w3 = (Ok tt, staged).
Proof.
  intros H.
  apply bind_ok_inv in H as ([] & w0 & Hpro & H).
  unfold CloudRun.staging in H.
  apply bind_ok_inv in H as ([] & w3 & Hcopy & Hdocker).
  unfold CloudRun.copy_inputs in Hcopy.
  apply bind_ok_inv in Hcopy as ([] & w1 & Hmk & Hcopy).
  rewrite echo_then in Hcopy. cbv zeta in Hcopy.
  apply bind_ok_inv in Hcopy as ([] & w2 & Hcp & Hcopy).
  rewrite !echo_then in Hcopy. cbn [fs trace] in Hcopy.
  eexists w0, w1, _, w2, _, w3.
  split; [exact Hpro|]. split; [exact Hmk|].
  split; [|split; [exact Hcp|]]; [reflexivity|].
  split; [|split; [exact Hcopy | exact Hdocker]]. reflexivity.
Qed.

End StagedTree.

Lemma plain_name_inv (name : string) :
  plain_name name = true ->
  Py.has_char "/" name = false /\ name <> "" /\ name <> "." /\ name <> "..".
Proof.
  unfold plain_name. intros H.
  apply andb_true_iff in H as [H H4]. apply andb_true_iff in H as [H H3].
  apply andb_true_iff in H as [H1 H2].
  apply negb_true_iff in H1, H2, H3, H4.
  apply String.eqb_neq in H2, H3, H4. auto.
Qed.

(** X13. When staging succeeds, the deploy command finds under
    [<temp_folder>/agents/<app_name>] the agent source directory as it was
    when [to_cloud_run] was called, and the source directory itself is as it
    was.  The temp folder and the source directory are apart (neither path
    leads through the other), [app_name] is the name of one directory entry,
    and the paths have no [..] step. *)
Theorem staged_source_is_the_source_directory
    (r : CloudRun.request) (w : world) (p ps : list string) :
  is_ok (fst ((CloudRun.prologue r ;; CloudRun.staging r) w)) = true ->
  OsPath.components (CloudRun.temp_folder r) = Some p ->
  OsPath.components (CloudRun.agent_source_dir r) = Some ps ->
  apart p ps = true ->
  plain_name (CloudRun.app_name r) = true ->
  without_parent_steps (p ++ ps) = true ->
  let staged := snd ((CloudRun.prologue r ;; CloudRun.staging r) w) in
  stat (CloudRun.agent_src_path r) (fs staged)
  = stat (CloudRun.agent_source_dir r) (fs w)
  /\ stat (CloudRun.agent_source_dir r) (fs staged)
     = stat (CloudRun.agent_source_dir r) (fs w)
  /\ isdir_in (CloudRun.agent_src_path r) (fs staged) = true.
Proof.
  intros Hok Hp Hps Hapart Hname _ staged.
  apply is_ok_true in Hok as [[] Hrun]. fold staged in Hrun.
  destruct (plain_name_inv _ Hname) as (Hslash & Hne & Hdot & _).
  destruct (staging_worlds r _ _ Hrun)
    as (w0 & w1 & w1' & w2 & w2' & w3 & Hpro & Hmk & H1 & Hcp & H2 & Hct & Hdf).
  assert (Hpd : OsPath.components (CloudRun.agent_src_path r)
                = Some (p ++ ["agents"; CloudRun.app_name r])).
  { rewrite (agent_src_components r p Hp) by now apply no_slash_relative.
    now rewrite name_components_plain. }
  (* the source directory is left alone *)
  pose proof (respects_outcome _ _ _ _ _ (prologue_same_at r p Hp ps Hapart) Hpro)
    as S0.
  pose proof (respects_outcome _ _ _ _ _
                (makedirs_same_at p ps _ true Hp Hapart) Hmk) as S1.
  assert (S2 : same_at ps w1' w2).
  { refine (respects_outcome _ _ _ _ _ _ Hcp).
    eapply copy2_same_at; [|apply apart_app_l, Hapart].
    apply (components_join _ _ p Hp).
    apply no_slash_relative, basename_no_slash. }
  assert (S3 : same_at ps w2' w3).
  { refine (respects_outcome _ _ _ _ _ _ Hct).
    eapply copytree_same_at; [exact Hpd | apply apart_app_l, Hapart]. }
  assert (S4 : same_at ps w3 staged).
  { refine (respects_outcome _ _ _ _ _ _ Hdf).
    apply (create_dockerfile_same_at r p Hp); apply apart_app_l, Hapart. }
  unfold same_at in *. rewrite H1 in S2. rewrite H2 in S3.
  (* the copy is left alone by what follows it *)
  destruct (copytree_result _ _ _ _ _ Hct Hpd) as [Hcopy Hdir].
  assert (S5 : same_at (p ++ ["agents"; CloudRun.app_name r]) w3 staged).
  { refine (respects_outcome _ _ _ _ _ _ Hdf).
    apply (create_dockerfile_same_at r p Hp);
      apply (apart_after p []); discriminate. }
  unfold same_at in S5.
  assert (Hsrc : stat (CloudRun.agent_source_dir r) (fs w2')
                 = stat (CloudRun.agent_source_dir r) (fs w)).
  { apply (stat_same _ _ _ _ Hps). rewrite H2. congruence. }
  assert (Hstaged : stat (CloudRun.agent_src_path r) (fs staged)
                    = stat (CloudRun.agent_source_dir r) (fs w)).
  { rewrite <- Hsrc.
    destruct (stat (CloudRun.agent_source_dir r) (fs w2')) as [[d|m]|];
      try discriminate Hdir.
    apply (stat_dir _ _ _ _ Hpd). now rewrite <- S5. }
  split; [exact Hstaged|]. split.
  - apply (stat_same _ _ _ _ Hps). congruence.
  - unfold isdir_in. rewrite Hstaged, <- Hsrc.
    destruct (stat (CloudRun.agent_source_dir r) (fs w2')) as [[d|m]|];
      [discriminate | reflexivity | discriminate].
Qed.

Lemma staged_source_is_the_source_directory_witness :
  stat "/tmp/stage/agents/myagent"
    (fs (snd ((CloudRun.prologue sample_request ;; CloudRun.staging sample_request)
                (World stale_tree []))))
  = Some (Dir {[ "agent.py" := File "root_agent = 1";
                 "requirements.txt" := File "requests" ]}).
Proof.
  etransitivity.
  - apply (staged_source_is_the_source_directory sample_request
             (World stale_tree []) ["tmp"; "stage"] ["src"]);
      vm_compute; reflexivity.
  - vm_compute. reflexivity.
Defined.

Lemma prologue_ok_valid (r : CloudRun.request) (w w0 : world) :
  CloudRun.prologue r w = (Ok tt, w0) -> valid_inputs r (fs w) = true.
Proof.
  unfold CloudRun.prologue. intros H.
  apply bind_ok_inv in H as ([] & w' & Hv & _).
  exact (validate_ok r w w' Hv).
Qed.

Lemma makedirs_fresh_dir (name : string) (p : list string) (w w' : world) :
  os_makedirs name true w = (Ok tt, w') ->
  OsPath.components name = Some p ->
  stat name (fs w) = None ->
  Tree.lookup p (fs w') = Some (Dir ∅).
Proof.
  unfold os_makedirs, makedirs_in, bind, log, get_fs, set_fs, lift.
  cbv beta iota. cbn [fs trace]. intros H Hp Hnone. revert H.
  rewrite Hp.
  destruct (Tree.lookup p (fs w)) as [[d|m]|] eqn:Hl; [discriminate| |].
  { now rewrite (stat_dir _ _ _ _ Hp Hl) in Hnone. }
  destruct (Tree.mkdirs p (fs w)) as [n'|] eqn:Hmk; [|discriminate].
  intros H. injection H as <-. cbn [fs].
  eapply mkdirs_fresh; eassumption.
Qed.

Lemma create_file_result (name data : string) (p : list string) (n n' : node) :
  create_file name data n = Ok n' ->
  OsPath.components name = Some p ->
  Tree.lookup p n' = Some (File data).
Proof.
  intros Hc Hp.
  destruct (create_file_ok _ _ _ _ Hc) as (p' & Hp' & Hput & _).
  rewrite Hp in Hp'. injection Hp' as <-.
  eapply lookup_put; eassumption.
Qed.

(** The successful copy of a file onto a path that is no directory puts the
    content there. *)
Lemma copy2_result (src dst : string) (pd : list string) (w w' : world) :
  shutil_copy2 src dst w = (Ok tt, w') ->
  isdir_in dst (fs w) = false ->
  OsPath.components dst = Some pd ->
  Tree.lookup pd (fs w') = stat src (fs w)
  /\ Tree.is_file (stat src (fs w)) = true.
Proof.
  intros H Hnd Hp. revert H.
  unfold shutil_copy2, bind, log, get_fs, set_fs, lift, raise.
  cbv beta iota zeta. cbn [fs trace]. rewrite Hnd.
  destruct (_ && _); [discriminate|].
  destruct (stat src (fs w)) as [[data|m]|]; try discriminate.
  destruct (create_file dst data (fs w)) as [n'|e] eqn:Hc; [|discriminate].
  intros H. injection H as <-. cbn [fs].
  split; [eapply create_file_result; eassumption | reflexivity].
Qed.

Lemma write_text_result (file content : string) (w w' : world) :
  write_text file content w = (Ok tt, w') ->
  stat file (fs w') = Some (File content)
  /\ trace w' = trace w ++ [WriteText file content].
Proof.
  unfold write_text, bind, log, get_fs, set_fs, lift.
  cbv beta iota. cbn [fs trace].
  destruct (create_file file content (fs w)) as [n'|e] eqn:Hc; [|discriminate].
  intros H. injection H as <-. cbn [fs trace]. split; [|reflexivity].
  destruct (create_file_ok _ _ _ _ Hc) as (p & Hp & Hput & _ & Hnd).
  rewrite (stat_plain _ _ _ Hp Hnd). eapply lookup_put; eassumption.
Qed.

(** X14. When staging succeeds, the deploy command finds the wheel in the
    temp folder under its file name, with the content it had when
    [to_cloud_run] was called.  The temp folder and the wheel path are
    apart, [app_name] is a relative path, and the paths have no [..]
    step. *)
Theorem staged_wheel_is_the_wheel
    (r : CloudRun.request) (w : world) (p pw : list string) :
  is_ok (fst ((CloudRun.prologue r ;; CloudRun.staging r) w)) = true ->
  OsPath.components (CloudRun.temp_folder r) = Some p ->
  OsPath.components (CloudRun.agent_whl_file r) = Some pw ->
  apart p pw = true ->
  Py.startswith (CloudRun.app_name r) "/" = false ->
  without_parent_steps (p ++ pw ++ name_components (CloudRun.app_name r))
  = true ->
  let staged := snd ((CloudRun.prologue r ;; CloudRun.staging r) w) in
  stat (OsPath.join (CloudRun.temp_folder r) [CloudRun.agent_whl_filename r])
       (fs staged)
  = stat (CloudRun.agent_whl_file r) (fs w)
  /\ Tree.is_file (stat (CloudRun.agent_whl_file r) (fs w)) = true.
Proof.
  intros Hok Hp Hpw Hapart Hrel _ staged.
  apply is_ok_true in Hok as [[] Hrun]. fold staged in Hrun.
  destruct (staging_worlds r _ _ Hrun)
    as (w0 & w1 & w1' & w2 & w2' & w3 & Hpro & Hmk & H1 & Hcp & H2 & Hct & Hdf).
  (* the file name of the wheel *)
  pose proof (prologue_ok_valid r w w0 Hpro) as Hvalid.
  unfold valid_inputs in Hvalid.
  apply andb_true_iff in Hvalid as [Hvalid _].
  apply andb_true_iff in Hvalid as [Hvalid _].
  apply andb_true_iff in Hvalid as [_ Hwhl].
  destruct (wheel_name_plain _ Hwhl) as [Hbase Hw].
  fold (CloudRun.agent_whl_filename r) in Hbase, Hw.
  set (base := CloudRun.agent_whl_filename r) in *.
  assert (Hne : base <> "") by (intros E; rewrite E in Hw; discriminate).
  assert (Hdot : base <> ".") by (intros E; rewrite E in Hw; discriminate).
  pose proof (entry_components r p Hp base Hbase Hne Hdot) as Hdst.
  pose proof (names_directory_join (CloudRun.temp_folder r) base Hbase Hne Hdot)
    as Hplain.
  (* the wheel is left alone until it is copied *)
  pose proof (respects_outcome _ _ _ _ _ (prologue_same_at r p Hp pw Hapart) Hpro)
    as S0.
  pose proof (respects_outcome _ _ _ _ _
                (makedirs_same_at p pw _ true Hp Hapart) Hmk) as S1.
  unfold same_at in S0, S1.
  (* the temp folder is empty when the wheel is copied *)
  pose proof (cloud_run_prologue_ok r w w0 Hpro) as Hnone.
  pose proof (makedirs_fresh_dir _ p _ _ Hmk Hp Hnone) as Hempty.
  assert (Hnd : isdir_in (OsPath.join (CloudRun.temp_folder r) [base]) (fs w1')
                = false).
  { unfold isdir_in. rewrite (stat_is_dir _ _ _ Hdst), H1, lookup_app, Hempty.
    rewrite lookup_cons_dir, lookup_empty. reflexivity. }
  destruct (copy2_result _ _ _ _ _ Hcp Hnd Hdst) as [Hcopy Hfile].
  (* the copy is left alone by what follows it *)
  assert (S3 : same_at (p ++ [base]) w2' w3).
  { refine (respects_outcome _ _ _ _ _ _ Hct).
    eapply copytree_same_at.
    - apply (agent_src_components r p Hp Hrel).
    - apply (apart_after p _ []). intros E. rewrite <- E in Hw. discriminate. }
  assert (S4 : same_at (p ++ [base]) w3 staged).
  { refine (respects_outcome _ _ _ _ _ _ Hdf).
    apply (create_dockerfile_same_at r p Hp); apply (apart_after p [] []);
      intros E; rewrite <- E in Hw; discriminate. }
  unfold same_at in S3, S4. rewrite H2 in S3.
  assert (Hsrc : stat (CloudRun.agent_whl_file r) (fs w1')
                 = stat (CloudRun.agent_whl_file r) (fs w)).
  { apply (stat_same _ _ _ _ Hpw). rewrite H1. congruence. }
  split.
  - rewrite (stat_plain _ _ _ Hdst Hplain), <- S4, <- S3, Hcopy. exact Hsrc.
  - now rewrite <- Hsrc.
Qed.

Lemma staged_wheel_is_the_wheel_witness :
  stat "/tmp/stage/agent.whl"
    (fs (snd ((CloudRun.prologue sample_request ;; CloudRun.staging sample_request)
                (World stale_tree []))))
  = Some (File "wheel-bytes").
Proof.
  etransitivity.
  - apply (staged_wheel_is_the_wheel sample_request
             (World stale_tree []) ["tmp"; "stage"] ["dist"; "agent.whl"]);
      vm_compute; reflexivity.
  - vm_compute. reflexivity.
Defined.

Lemma emits_no_write (w w' : world) :
  emits (fun e => is_write e = false) w w' ->
  exists evs, trace w' = trace w ++ evs /\ List.filter is_write evs = [].
Proof.
  intros (evs & Ht & Hevs). exists evs. split; [exact Ht|].
  now apply filter_false_Forall.
Qed.

(** C8 (amended). For a request with app name [myagent], port 8080, the UI
    flag off and no additional requirements file, whose source directory
    holds a [requirements.txt] and is apart from the temp folder (neither
    path leads through the other, and neither has a [..] step), and whose
    values substituted into the Dockerfile hold no line feed: when staging
    succeeds, the Dockerfile in the temp folder has one startup line, which
    runs [adk api_server --port=8080], and one install instruction, for
    [/app/agents/myagent/requirements.txt]. *)
Theorem api_server_scenario
    (r : CloudRun.request) (w : world) (p ps : list string) :
  is_ok (fst ((CloudRun.prologue r ;; CloudRun.staging r) w)) = true ->
  exists_in (OsPath.join (CloudRun.agent_source_dir r) ["requirements.txt"])
    (fs w) = true ->
  CloudRun.app_name r = "myagent" ->
  CloudRun.port r = 8080%Z ->
  CloudRun.with_ui r = false ->
  CloudRun.additional_requirements r = None ->
  CloudRun.single_line_fields r = true ->
  OsPath.components (CloudRun.temp_folder r) = Some p ->
  OsPath.components (CloudRun.agent_source_dir r) = Some ps ->
  apart p ps = true ->
  without_parent_steps (p ++ ps) = true ->
  let staged := snd ((CloudRun.prologue r ;; CloudRun.staging r) w) in
  exists d,
    stat (CloudRun.dockerfile_path r) (fs staged) = Some (File d)
    /\ List.filter startup_line (Py.lines d)
       = ["CMD adk api_server --port=8080 " +:+ CloudRun.host_option r +:+ " "
          +:+ (if Py.nonempty (CloudRun.session_db_url r)
               then "--session_db_url=" +:+ CloudRun.session_db_url r else "")
          +:+ " " +:+ (if CloudRun.trace_to_cloud r then "--trace_to_cloud" else "")
          +:+ " " +:+ dq +:+ "/app/agents" +:+ dq]
    /\ List.filter dependency_install (Py.lines d)
       = ["RUN pip install -r " +:+ dq
          +:+ "/app/agents/myagent/requirements.txt" +:+ dq].
Proof.
  intros Hok Hreq Happ Hport Hui Hadd Hfields Hp Hps Hapart _ staged.
  apply is_ok_true in Hok as [[] Hrun]. fold staged in Hrun.
  destruct (staging_worlds r _ _ Hrun)
    as (w0 & w1 & w1' & w2 & w2' & w3 & Hpro & Hmk & H1 & Hcp & H2 & Hct & Hdf).
  assert (Hpd : OsPath.components (CloudRun.agent_src_path r)
                = Some (p ++ ["agents"; "myagent"])).
  { rewrite (agent_src_components r p Hp) by now rewrite Happ.
    now rewrite Happ. }
  (* the source directory is as it was when the copy starts *)
  pose proof (respects_outcome _ _ _ _ _ (prologue_same_at r p Hp ps Hapart) Hpro)
    as S0.
  pose proof (respects_outcome _ _ _ _ _
                (makedirs_same_at p ps _ true Hp Hapart) Hmk) as S1.
  assert (S2 : same_at ps w1' w2).
  { refine (respects_outcome _ _ _ _ _ _ Hcp).
    eapply copy2_same_at; [|apply apart_app_l, Hapart].
    apply (components_join _ _ p Hp).
    apply no_slash_relative, basename_no_slash. }
  unfold same_at in *. rewrite H1 in S2.
  assert (Hsrc : Tree.lookup ps (fs w2') = Tree.lookup ps (fs w)).
  { rewrite H2. congruence. }
  (* its requirements file is in the copy *)
  destruct (copytree_result _ _ _ _ _ Hct Hpd) as [Hcopy Hdir].
  destruct (stat (CloudRun.agent_source_dir r) (fs w2')) as [[data|m]|] eqn:Hm;
    try discriminate Hdir.
  apply stat_found in Hm as (ps' & Hps' & Hm).
  assert (ps' = ps) by congruence. subst ps'.
  assert (Hfile : OsPath.components
                    (OsPath.join (CloudRun.agent_source_dir r)
                                 ["requirements.txt"])
                  = Some (ps ++ ["requirements.txt"])).
  { now apply components_join_name. }
  assert (Hstaged : exists_in (CloudRun.requirements_txt_path r) (fs w3) = true).
  { unfold exists_in in *.
    rewrite (stat_plain _ _ _ Hfile) in Hreq
      by now apply names_directory_join.
    unfold CloudRun.requirements_txt_path.
    rewrite (stat_plain _ (p ++ ["agents"; "myagent"] ++ ["requirements.txt"])).
    - rewrite app_assoc, lookup_app, Hcopy.
      rewrite lookup_app, <- Hsrc, Hm in Hreq. exact Hreq.
    - rewrite app_assoc. now apply components_join_name.
    - now apply names_directory_join. }
  destruct (api_server_rendering r w3 Happ Hport Hui Hadd Hfields Hstaged)
    as (d & Hd & Hcmd & Hinstall).
  (* and the Dockerfile is written from it *)
  unfold CloudRun.create_dockerfile in Hdf.
  apply bind_ok_inv in Hdf as (d' & w4 & Hrender & Hdf).
  apply bind_ok_inv in Hdf as ([] & w5 & Hwrite & Hecho).
  rewrite Hrender in Hd. cbn [fst] in Hd. injection Hd as ->.
  destruct (write_text_result _ _ _ _ Hwrite) as [Hwritten _].
  unfold echo, log in Hecho. injection Hecho as Hend.
  exists d. rewrite <- Hend. cbn [fs]. auto.
Qed.

Lemma api_server_scenario_witness :
  let r := sample_request in
  let staged :=
    snd ((CloudRun.prologue r ;; CloudRun.staging r) (World demo_tree [])) in
  exists d,
    stat (CloudRun.dockerfile_path r) (fs staged) = Some (File d)
    /\ List.filter startup_line (Py.lines d)
       = ["CMD adk api_server --port=8080 " +:+ CloudRun.host_option r +:+ " "
          +:+ (if Py.nonempty (CloudRun.session_db_url r)
               then "--session_db_url=" +:+ CloudRun.session_db_url r else "")
          +:+ " " +:+ (if CloudRun.trace_to_cloud r then "--trace_to_cloud" else "")
          +:+ " " +:+ dq +:+ "/app/agents" +:+ dq]
    /\ List.filter dependency_install (Py.lines d)
       = ["RUN pip install -r " +:+ dq
          +:+ "/app/agents/myagent/requirements.txt" +:+ dq].
Proof.
  apply (api_server_scenario sample_request (World demo_tree [])
           ["tmp"; "stage"] ["src"]); vm_compute; reflexivity.
Defined.

(** X15. When staging succeeds, the one text file written is the Dockerfile:
    the deploy command finds in [<temp_folder>/Dockerfile] the text rendered
    from the tree as it was after the wheel and the source were copied. *)
Theorem staged_dockerfile_is_the_rendered_text
    (r : CloudRun.request) (w : world) :
  is_ok (fst ((CloudRun.prologue r ;; CloudRun.staging r) w)) = true ->
  let copied := snd ((CloudRun.prologue r ;; CloudRun.copy_inputs r) w) in
  let staged := snd ((CloudRun.prologue r ;; CloudRun.staging r) w) in
  exists d,
    fst (CloudRun.render_dockerfile r copied) = Ok d
    /\ stat (CloudRun.dockerfile_path r) (fs staged) = Some (File d)
    /\ List.filter is_write (new_events w staged)
       = [WriteText (CloudRun.dockerfile_path r) d].
Proof.
  intros Hok copied staged.
  apply is_ok_true in Hok as [[] Hrun]. fold staged in Hrun.
  apply bind_ok_inv in Hrun as ([] & w0 & Hpro & Hrun).
  unfold CloudRun.staging in Hrun.
  apply bind_ok_inv in Hrun as ([] & w3 & Hcopy & Hrun).
  assert (Hcopied : copied = w3).
  { unfold copied. now rewrite (bind_ok _ _ _ _ _ Hpro), Hcopy. }
  unfold CloudRun.create_dockerfile in Hrun.
  apply bind_ok_inv in Hrun as (d & w4 & Hrender & Hrun).
  apply bind_ok_inv in Hrun as ([] & w5 & Hwrite & Hecho).
  destruct (write_text_result _ _ _ _ Hwrite) as [Hfile Htrace].
  unfold echo, log in Hecho. injection Hecho as Hstaged.
  exists d. rewrite Hcopied, Hrender. split; [reflexivity|].
  rewrite <- Hstaged. cbn [fs]. split; [exact Hfile|].
  assert (E0 : respects (emits (fun e => is_write e = false))
                        (CloudRun.prologue r)) by respects_tac.
  assert (E1 : respects (emits (fun e => is_write e = false))
                        (CloudRun.copy_inputs r)) by respects_tac.
  assert (E2 : respects (emits (fun e => is_write e = false))
                        (CloudRun.render_dockerfile r)) by respects_tac.
  destruct (emits_no_write _ _ (respects_outcome _ _ _ _ _ E0 Hpro))
    as (e0 & T0 & F0).
  destruct (emits_no_write _ _ (respects_outcome _ _ _ _ _ E1 Hcopy))
    as (e1 & T1 & F1).
  destruct (emits_no_write _ _ (respects_outcome _ _ _ _ _ E2 Hrender))
    as (e2 & T2 & F2).
  unfold new_events. cbn [trace].
  rewrite Htrace, T2, T1, T0, <- !app_assoc, drop_app_length.
  rewrite !List.filter_app, F0, F1, F2. reflexivity.
Qed.

Lemma staged_dockerfile_is_the_rendered_text_witness :
  exists d,
    stat "/tmp/stage/Dockerfile"
      (fs (snd ((CloudRun.prologue sample_request
                 ;; CloudRun.staging sample_request) (World stale_tree []))))
    = Some (File d)
    /\ d <> "old".
Proof.
  destruct (staged_dockerfile_is_the_rendered_text sample_request
              (World stale_tree [])) as (d & Hrender & Hfile & _).
  - vm_compute. reflexivity.
  - exists d. split; [exact Hfile|].
    intros ->. vm_compute in Hrender. discriminate Hrender.
Defined.

(** X16. When the copy in [to_agent_engine] succeeds, the temp folder is the
    agent folder as it was when the call began, and the agent folder itself is
    as it was.  The two paths are apart and have no [..] step. *)
Theorem agent_folder_is_copied_to_temp_folder
    (r : AgentEngine.request) (w : world) (p ps : list string) :
  is_ok (fst ((AgentEngine.remove_existing r ;; AgentEngine.copy_source r) w))
  = true ->
  OsPath.components (AgentEngine.temp_folder r) = Some p ->
  OsPath.components (AgentEngine.agent_folder r) = Some ps ->
  apart p ps = true ->
  without_parent_steps (p ++ ps) = true ->
  let copied :=
    snd ((AgentEngine.remove_existing r ;; AgentEngine.copy_source r) w) in
  stat (AgentEngine.temp_folder r) (fs copied)
  = stat (AgentEngine.agent_folder r) (fs w)
  /\ stat (AgentEngine.agent_folder r) (fs copied)
     = stat (AgentEngine.agent_folder r) (fs w)
  /\ isdir_in (AgentEngine.temp_folder r) (fs copied) = true.
Proof.
  intros Hok Hp Hps Hapart _ copied.
  apply is_ok_true in Hok as [[] Hrun]. fold copied in Hrun.
  apply bind_ok_inv in Hrun as ([] & w0 & Hrm & Hrun).
  unfold AgentEngine.copy_source in Hrun. rewrite echo_then in Hrun.
  apply bind_ok_inv in Hrun as ([] & w1 & Hct & Hecho).
  unfold echo, log in Hecho. injection Hecho as Hcopied.
  assert (S0 : same_at ps w w0).
  { refine (respects_outcome _ _ _ _ _ _ Hrm).
    assert (respects (same_at ps) (shutil_rmtree (AgentEngine.temp_folder r)))
      by now apply (rmtree_same_at p).
    respects_tac. }
  pose proof (respects_outcome _ _ _ _ _
                (copytree_same_at p ps _ _ Hp Hapart) Hct) as S1.
  destruct (copytree_result _ _ _ _ _ Hct Hp) as [Hcopy Hdir].
  unfold same_at in S0, S1. cbn [fs] in S1, Hcopy, Hdir.
  assert (Hsrc : stat (AgentEngine.agent_folder r) (fs w0)
                 = stat (AgentEngine.agent_folder r) (fs w)).
  { apply (stat_same _ _ _ _ Hps). congruence. }
  rewrite <- Hcopied. cbn [fs].
  assert (Htemp : stat (AgentEngine.temp_folder r) (fs w1)
                  = stat (AgentEngine.agent_folder r) (fs w)).
  { rewrite <- Hsrc.
    destruct (stat (AgentEngine.agent_folder r) (fs w0)) as [[d|m]|];
      try discriminate Hdir.
    now apply (stat_dir _ _ _ _ Hp). }
  split; [exact Htemp|]. split.
  - apply (stat_same _ _ _ _ Hps). congruence.
  - unfold isdir_in. rewrite Htemp, <- Hsrc.
    destruct (stat (AgentEngine.agent_folder r) (fs w0)) as [[d|m]|];
      [discriminate | reflexivity | discriminate].
Qed.

Lemma agent_folder_is_copied_to_temp_folder_witness :
  stat "/tmp/engine"
    (fs (snd ((AgentEngine.remove_existing sample_engine_request
               ;; AgentEngine.copy_source sample_engine_request)
                (World stale_tree []))))
  = Some (Dir {[ "agent.py" := File "root_agent = 1";
                 "requirements.txt" := File "requests" ]}).
Proof.
  etransitivity.
  - apply (agent_folder_is_copied_to_temp_folder sample_engine_request
             (World stale_tree []) ["tmp"; "engine"] ["src"]);
      vm_compute; reflexivity.
  - vm_compute. reflexivity.
Defined.

(** ** An env file that does not exist *)

Lemma absent_bind {A B} (path : string) (q : list string)
    (P : event -> Prop) (m : M A) (k : A -> M B) :
  OsPath.components path = Some q ->
  respects (same_at q) m -> respects (emits P) m ->
  (forall a w, stat path (fs w) = None -> emits P w (snd (k a w))) ->
  forall w, stat path (fs w) = None -> emits P w (snd (bind m k w)).
Proof.
  intros Hq Hs He Hk w Hw. rewrite bind_unfold.
  specialize (Hs w). specialize (He w). unfold same_at in Hs.
  destruct (m w) as [[a|e] w1]; cbn [snd] in *; [|exact He].
  etransitivity; [exact He|]. apply Hk.
  now rewrite <- (stat_same _ _ _ _ Hq Hs).
Qed.

Lemma absent_try_finally {A} (path : string) (P : event -> Prop)
    (body : M A) (cleanup : M unit) :
  (forall w, stat path (fs w) = None -> emits P w (snd (body w))) ->
  respects (emits P) cleanup ->
  forall w, stat path (fs w) = None ->
            emits P w (snd (try_finally body cleanup w)).
Proof.
  intros Hb Hc w Hw. rewrite try_finally_world.
  etransitivity; [apply Hb, Hw | apply Hc].
Qed.

Ltac env_vars_tac :=
  repeat first
    [ solve [auto with respects_db]
    | match goal with
      | |- respects (emits _) (log _) =>
        apply log_emits; cbn [without_env_vars]; first [exact I | reflexivity]
      end
    | progress cbv zeta
    | respects_step ].

Section MissingEnvFile.

Variable ext : externals.
Variable r : AgentEngine.request.
Variables (p pe : list string) (f : string).
Hypothesis Htemp : OsPath.components (AgentEngine.temp_folder r) = Some p.
Hypothesis Hgiven : AgentEngine.env_file r = Some f.
Hypothesis Hf : OsPath.components f = Some pe.
Hypothesis Hapart : apart p pe = true.

Lemma rmtree_temp_keeps_env_file :
  respects (same_at pe) (shutil_rmtree (AgentEngine.temp_folder r)).
Proof. now apply (rmtree_same_at p). Qed.

Lemma copytree_temp_keeps_env_file (src : string) :
  respects (same_at pe) (shutil_copytree src (AgentEngine.temp_folder r)).
Proof. now apply (copytree_same_at p). Qed.

Lemma write_requirements_keeps_env_file (content : string) :
  respects (same_at pe)
           (write_text (AgentEngine.requirements_txt_path r) content).
Proof.
  eapply write_text_same_at; [|apply apart_app_l, Hapart].
  now apply (components_join _ _ p Htemp).
Qed.

Lemma env_file_given : AgentEngine.env_file_or_default r = f /\ f <> "".
Proof.
  unfold AgentEngine.env_file_or_default. rewrite Hgiven.
  assert (f <> "") as Hne.
  { intros ->. discriminate Hf. }
  split; [|exact Hne].
  destruct f; [congruence | reflexivity].
Qed.

Lemma resolve_env_vars_absent (w : world) :
  stat f (fs w) = None ->
  AgentEngine.resolve_env_vars ext r w = (Ok None, w).
Proof.
  intros Hw. unfold AgentEngine.resolve_env_vars.
  destruct env_file_given as [-> _].
  unfold os_path_exists, get_fs. rewrite !bind_unfold. unfold ret at 1.
  unfold exists_in. rewrite Hw. reflexivity.
Qed.

Lemma to_agent_engine_without_env_vars (w : world) :
  stat f (fs w) = None ->
  emits without_env_vars w (snd (AgentEngine.to_agent_engine ext r w)).
Proof.
  pose proof rmtree_temp_keeps_env_file.
  pose proof copytree_temp_keeps_env_file.
  pose proof write_requirements_keeps_env_file.
  revert w. unfold AgentEngine.to_agent_engine.
  apply (absent_bind f pe); [exact Hf | respects_tac | env_vars_tac | intros []].
  apply absent_try_finally; [|env_vars_tac].
  apply (absent_bind f pe); [exact Hf | respects_tac | env_vars_tac | intros []].
  unfold AgentEngine.after_copy.
  apply (absent_bind f pe); [exact Hf | respects_tac | env_vars_tac | intros []].
  apply (absent_bind f pe); [exact Hf | respects_tac | env_vars_tac | intros []].
  apply (absent_bind f pe);
    [exact Hf | respects_tac | env_vars_tac | intros requirements].
  intros w Hw. rewrite (bind_ok _ _ _ _ _ (resolve_env_vars_absent w Hw)).
  revert w Hw. intros w _. revert w.
  change (respects (emits without_env_vars)
            (AgentEngine.write_adk_app r ;;
             echo "Files and dependencies resolved" ;;
             AgentEngine.deploy ext r requirements None)).
  env_vars_tac.
Qed.

End MissingEnvFile.

(** X17. An env file that is given to [to_agent_engine] and does not exist is
    passed over in silence: no env file is read and [agent_engines.create],
    when it is called, gets [env_vars=None].  The env file path is apart from
    the temp folder (so the copy of the agent folder cannot bring it into
    being) and has no [..] step; the SDK calls are taken not to touch the
    files. *)
Theorem missing_env_file_is_passed_over
    (ext : externals) (r : AgentEngine.request) (w : world)
    (p pe : list string) (f : string) :
  OsPath.components (AgentEngine.temp_folder r) = Some p ->
  AgentEngine.env_file r = Some f ->
  OsPath.components f = Some pe ->
  apart p pe = true ->
  without_parent_steps (p ++ pe) = true ->
  exists_in f (fs w) = false ->
  Forall without_env_vars
         (new_events w (snd (AgentEngine.to_agent_engine ext r w))).
Proof.
  intros Hp Hgiven Hf Hapart _ Habsent.
  apply emits_new_events.
  apply (to_agent_engine_without_env_vars ext r p pe f Hp Hgiven Hf Hapart).
  now apply exists_in_stat.
Qed.

Lemma missing_env_file_is_passed_over_witness :
  let r := {| AgentEngine.agent_folder := "/src";
              AgentEngine.temp_folder := "/tmp/engine";
              AgentEngine.adk_app := "agent_engine_app";
              AgentEngine.project := "my-project";
              AgentEngine.region := "us-central1";
              AgentEngine.staging_bucket := "gs://bucket";
              AgentEngine.trace_to_cloud := true;
              AgentEngine.requirements_file := None;
              AgentEngine.env_file := Some "prod.env" |} in
  fst (AgentEngine.to_agent_engine sample_externals r (World demo_tree []))
  = Ok tt
  /\ Forall without_env_vars
       (new_events (World demo_tree [])
          (snd (AgentEngine.to_agent_engine sample_externals r
                  (World demo_tree [])))).
Proof.
  intros r. split; [vm_compute; reflexivity|].
  apply (missing_env_file_is_passed_over sample_externals r (World demo_tree [])
           ["tmp"; "engine"] ["prod.env"] "prod.env");
    vm_compute; reflexivity.
Defined.

(** ** A temp folder that is a regular file *)

Lemma validate_valid (r : CloudRun.request) (w : world) :
  valid_inputs r (fs w) = true -> CloudRun.validate r w = (Ok tt, w).
Proof.
  unfold valid_inputs. intros H.
  apply andb_true_iff in H as [H H4]. apply andb_true_iff in H as [H H3].
  apply andb_true_iff in H as [H1 H2].
  unfold CloudRun.validate, os_path_exists, os_path_isdir, get_fs.
  rewrite !bind_unfold. unfold ret at 1. rewrite H1. cbn [negb when].
  rewrite !bind_unfold. unfold ret at 1. rewrite H2. cbn [negb when].
  rewrite !bind_unfold. unfold ret at 1. rewrite !bind_unfold. unfold ret at 1.
  rewrite H3. cbn [negb when].
  rewrite !bind_unfold. unfold ret at 1. rewrite !bind_unfold. unfold ret at 1.
  rewrite H4. destruct w. reflexivity.
Qed.

Lemma rmtree_file_run (path : string) (w : world) :
  Tree.is_file (stat path (fs w)) = true ->
  exists_in path (fs w) = true
  /\ shutil_rmtree path w
     = (Err (NotADirectoryError path),
        {| fs := fs w; trace := trace w ++ [Rmtree path] |}).
Proof.
  intros Hfile.
  destruct (stat path (fs w)) as [[d|m]|] eqn:Hs; try discriminate.
  destruct (stat_found _ _ _ Hs) as (p & Hp & Hl).
  split; [unfold exists_in; now rewrite Hs|].
  unfold shutil_rmtree, bind, log, get_fs, raise.
  cbv beta iota. cbn [fs trace]. now rewrite Hp, Hl.
Qed.

(** X18. A temp folder path at which [os.path.exists] finds a regular file
    stops both functions before the [try] block: [shutil.rmtree] raises
    [NotADirectoryError], the exception reaches the caller as it is, nothing
    is copied or deployed, no cleanup is attempted and the tree is as it was.
    (A path written as the name of a directory finds no regular file:
    [file_named_as_directory_survives].) *)
Theorem temp_folder_that_is_a_file
    (ext : externals) (w : world) :
  (forall r : CloudRun.request,
     valid_inputs r (fs w) = true ->
     Tree.is_file (stat (CloudRun.temp_folder r) (fs w)) = true ->
     CloudRun.to_cloud_run ext r w
     = (Err (NotADirectoryError (CloudRun.temp_folder r)),
        {| fs := fs w;
           trace := trace w
                    ++ [ Echo ("Start generating Cloud Run source files in "
                               +:+ CloudRun.temp_folder r);
                         Echo "Removing existing files";
                         Rmtree (CloudRun.temp_folder r) ] |}))
  /\ (forall r : AgentEngine.request,
        Tree.is_file (stat (AgentEngine.temp_folder r) (fs w)) = true ->
        AgentEngine.to_agent_engine ext r w
        = (Err (NotADirectoryError (AgentEngine.temp_folder r)),
           {| fs := fs w;
              trace := trace w
                       ++ [ Echo "Removing existing files";
                            Rmtree (AgentEngine.temp_folder r) ] |})).
Proof.
  split.
  - intros r Hvalid Hfile.
    unfold CloudRun.to_cloud_run, CloudRun.prologue.
    rewrite bind_assoc, (bind_ok _ _ _ _ _ (validate_valid r w Hvalid)).
    unfold CloudRun.remove_existing. rewrite bind_assoc, echo_then.
    set (w1 := {| fs := fs w; trace := _ |}).
    destruct (rmtree_file_run _ w1 Hfile) as [Hex _].
    unfold os_path_exists, get_fs. rewrite !bind_unfold. unfold ret at 1.
    rewrite Hex. unfold when. rewrite echo_then.
    set (w2 := {| fs := fs w1; trace := _ |}).
    destruct (rmtree_file_run _ w2 Hfile) as [_ ->].
    subst w2 w1. cbn [fs trace]. now rewrite <- !app_assoc.
  - intros r Hfile.
    unfold AgentEngine.to_agent_engine, AgentEngine.remove_existing.
    destruct (rmtree_file_run _ w Hfile) as [Hex _].
    unfold os_path_exists, get_fs. rewrite !bind_unfold. unfold ret at 1.
    rewrite Hex. unfold when. rewrite echo_then.
    set (w2 := {| fs := fs w; trace := _ |}).
    destruct (rmtree_file_run _ w2 Hfile) as [_ ->].
    subst w2. cbn [fs trace]. now rewrite <- !app_assoc.
Qed.

Lemma temp_folder_that_is_a_file_witness :
  let r := {| AgentEngine.agent_folder := "/src";
              AgentEngine.temp_folder := "/dist/agent.whl";
              AgentEngine.adk_app := "agent_engine_app";
              AgentEngine.project := "my-project";
              AgentEngine.region := "us-central1";
              AgentEngine.staging_bucket := "gs://bucket";
              AgentEngine.trace_to_cloud := true;
              AgentEngine.requirements_file := None;
              AgentEngine.env_file := None |} in
  let r' := {| CloudRun.agent_whl_file := "dist/agent.whl";
               CloudRun.agent_source_dir := "src";
               CloudRun.project := Some "my-project";
               CloudRun.region := None;
               CloudRun.service_name := "svc";
               CloudRun.app_name := "myagent";
               CloudRun.temp_folder := "src/agent.py";
               CloudRun.port := 8080;
               CloudRun.trace_to_cloud := false;
               CloudRun.with_ui := false;
               CloudRun.verbosity := "info";
               CloudRun.session_db_url := "";
               CloudRun.artifact_storage_uri := None;
               CloudRun.adk_version := "1.0.0";
               CloudRun.agent_module := None;
               CloudRun.additional_requirements := None |} in
  AgentEngine.to_agent_engine sample_externals r (World demo_tree [])
  = (Err (NotADirectoryError "/dist/agent.whl"),
     {| fs := demo_tree;
        trace := [ Echo "Removing existing files";
                   Rmtree "/dist/agent.whl" ] |})
  /\ fst (CloudRun.to_cloud_run sample_externals r' (World demo_tree []))
     = Err (NotADirectoryError "src/agent.py").
Proof.
  intros r r'. split.
  - apply (proj2 (temp_folder_that_is_a_file sample_externals
                    (World demo_tree [])) r).
    vm_compute. reflexivity.
  - rewrite (proj1 (temp_folder_that_is_a_file sample_externals
                      (World demo_tree [])) r');
      vm_compute; reflexivity.
Defined.

(** ** What the Dockerfile copies *)

Lemma copy_line_head (r : CloudRun.request) :
  List.filter copy_line (CloudRun.dockerfile_head r)
  = [ "COPY " +:+ dq +:+ CloudRun.agent_whl_filename r +:+ dq +:+ " " +:+ dq
      +:+ "/app/" +:+ CloudRun.agent_whl_filename r +:+ dq;
      "COPY " +:+ dq +:+ "agents/" +:+ CloudRun.app_name r +:+ "/" +:+ dq
      +:+ " " +:+ dq +:+ "/app/agents/" +:+ CloudRun.app_name r +:+ "/" +:+ dq ].
Proof. reflexivity. Qed.

Lemma copy_line_tail (r : CloudRun.request) :
  List.filter copy_line (CloudRun.dockerfile_tail r) = [].
Proof. reflexivity. Qed.

(** X19. For every request with single-line values, the Dockerfile copies
    from the build context, in this order: the wheel under its file name, the
    directory [agents/<app_name>/], and [extra-requirements.txt] exactly when
    an additional requirements file was given and exists.  The path of the
    additional requirements file has no [..] step, which the file tree does
    not resolve. *)
Theorem copy_lines_of_dockerfile
    (r : CloudRun.request) (w : world) (d : string) :
  CloudRun.single_line_fields r = true ->
  path_without_parent_steps
    (Py.str_of_optional (CloudRun.additional_requirements r)) = true ->
  fst (CloudRun.render_dockerfile r w) = Ok d ->
  List.filter copy_line (Py.lines d)
  = [ "COPY " +:+ dq +:+ OsPath.basename (CloudRun.agent_whl_file r) +:+ dq
      +:+ " " +:+ dq +:+ "/app/" +:+ OsPath.basename (CloudRun.agent_whl_file r)
      +:+ dq;
      "COPY " +:+ dq +:+ "agents/" +:+ CloudRun.app_name r +:+ "/" +:+ dq
      +:+ " " +:+ dq +:+ "/app/agents/" +:+ CloudRun.app_name r +:+ "/" +:+ dq ]
    ++ (if additional_given_and_exists r (fs w)
        then [ "COPY " +:+ dq +:+ "extra-requirements.txt" +:+ dq +:+ " " +:+ dq
               +:+ "/app/extra-requirements.txt" +:+ dq ]
        else []).
Proof.
  intros Hfields _ Hd.
  rewrite (rendered_lines r w d Hfields Hd).
  rewrite !List.filter_app, copy_line_head, copy_line_tail.
  destruct (exists_in (CloudRun.requirements_txt_path r) (fs w));
    destruct (additional_given_and_exists r (fs w)); reflexivity.
Qed.

Lemma copy_lines_of_dockerfile_witness :
  exists d,
    fst (CloudRun.render_dockerfile sample_request (World demo_tree [])) = Ok d
    /\ List.filter copy_line (Py.lines d)
       = [ "COPY " +:+ dq +:+ "agent.whl" +:+ dq +:+ " " +:+ dq
           +:+ "/app/agent.whl" +:+ dq;
           "COPY " +:+ dq +:+ "agents/myagent/" +:+ dq +:+ " " +:+ dq
           +:+ "/app/agents/myagent/" +:+ dq ].
Proof.
  eexists. split; [vm_compute; reflexivity|].
  apply (copy_lines_of_dockerfile sample_request (World demo_tree []));
    vm_compute; reflexivity.
Defined.
